(** * AIWebScraper: the Next.js gateway routes and the polling client

  A shallow embedding of the TypeScript sources
    - [app/api/scrape/route.ts]            (module [ScrapeRoute])
    - [app/api/test-scrape/route.ts]       (module [TestScrapeRoute])
    - [app/api/scrape/[jobId]/route.ts]    (module [JobRoute])
    - [app/api/export/[jobId]/[format]/route.ts] (module [ExportRoute])
    - [app/api/chat/route.ts]              (module [ChatRoute])
    - [app/api/health/route.ts]            (module [HealthRoute])
    - [app/page.tsx], [handleScrapeUrl]    (module [Client])
  and of the quality scorer, which lives in the Python backend and is
  modelled from its specification (module [QualityScorer]).

  JavaScript values are the values the handlers can see: a parsed JSON
  document or [undefined].  A handler is a computation that may throw and that
  logs the outbound calls it makes, so that "nothing was forwarded" and
  "exactly one request was forwarded" are statements about that log. *)

From Stdlib Require Import String Ascii List ZArith QArith Lia Bool DecimalString.
Import ListNotations.
Open Scope string_scope.
Open Scope Z_scope.

Set Warnings "-register-all".

(* ===================================================================== *)
(** ** JavaScript values and completions *)

Module JS.

(** The JSON documents of this development.  A number is an integer that a
    double holds exactly (magnitude at most 2^53): for such a number the
    literal of a JSON text, the double [JSON.parse] makes of it and what
    [JSON.stringify] writes back are the same integer.  Every number the
    sources write themselves (status codes, [5], [2000], [300000]) is one.
    Other numbers are not represented: a fraction, an integer that a double
    rounds, a literal that overflows to [Infinity] (which [JSON.stringify]
    writes as [null]).  What is proved of a document with a number in it is
    proved of these integers only, and says so where a number is copied
    into an outbound body ([held_exactly]).  An object is the list of its
    own properties, in order, with distinct keys. *)
Inductive json : Type :=
| JNull
| JBool (b : bool)
| JNum (n : Z)
| JStr (s : string)
| JArr (items : list json)
| JObj (props : list (string * json)).

(** Every number of the document is an integer that a double holds
    exactly: the document is then what its JSON text says, and
    [JSON.stringify] writes it back as it is. *)
Fixpoint held_exactly (j : json) : bool :=
  match j with
  | JNum n => Z.abs n <=? 2 ^ 53
  | JArr items => forallb held_exactly items
  | JObj props => forallb (fun kv => let '(_, v) := kv in held_exactly v) props
  | _ => true
  end.

(** A JavaScript value in these handlers: [None] is [undefined]. *)
Definition value : Type := option json.
Abbreviation undefined := (@None json).

(** ToBoolean. *)
Definition truthy (v : value) : bool :=
  match v with
  | None => false
  | Some JNull => false
  | Some (JBool b) => b
  | Some (JNum n) => negb (n =? 0)
  | Some (JStr s) => negb (s =? "")%string
  | Some (JArr _) => true
  | Some (JObj _) => true
  end.

(** [a || b] *)
Definition or_else (a b : value) : value := if truthy a then a else b.

(** [a === "s"] for a string literal ["s"]. *)
Definition strict_eq_str (a : value) (s : string) : bool :=
  match a with
  | Some (JStr s') => (s' =? s)%string
  | _ => false
  end.

(** [Array.isArray(a)] *)
Definition Array_isArray (a : value) : bool :=
  match a with
  | Some (JArr _) => true
  | _ => false
  end.

(** Own-property lookup in an object. *)
Fixpoint lookup (k : string) (props : list (string * json)) : value :=
  match props with
  | [] => undefined
  | (k', v) :: rest => if (k' =? k)%string then Some v else lookup k rest
  end.

(** ToString on a parsed JSON document, [num] being how the engine prints
    a number.  An array joins its elements with commas, [null] printing as
    the empty string there.  A plain object is ["[object Object]"], unless it
    has a property of its own called [toString]: that property hides
    [Object.prototype.toString] and is not callable, so that the conversion
    ends in a [TypeError], here [None]. *)
Fixpoint json_toString (num : Z -> string) (j : json) : option string :=
  match j with
  | JNull => Some "null"
  | JBool true => Some "true"
  | JBool false => Some "false"
  | JNum n => Some (num n)
  | JStr s => Some s
  | JArr items =>
      option_map (String.concat ",")
        ((fix join (l : list json) : option (list string) :=
            match l with
            | [] => Some []
            | x :: rest =>
                match (match x with
                       | JNull => Some ""
                       | _ => json_toString num x
                       end), join rest with
                | Some s, Some ss => Some (s :: ss)
                | _, _ => None
                end
            end) items)
  | JObj props =>
      match lookup "toString" props with
      | Some _ => None
      | None => Some "[object Object]"
      end
  end.

(** [JSON.stringify] of an object literal, kept as the document it
    denotes: a property whose value is [undefined] is left out. *)
Fixpoint present (fields : list (string * value)) : list (string * json) :=
  match fields with
  | [] => []
  | (k, None) :: rest => present rest
  | (k, Some j) :: rest => (k, j) :: present rest
  end.

Definition JSON_object (fields : list (string * value)) : json :=
  JObj (present fields).

(** An [Error] object: its message and its (engine-made) stack. *)
Record Error : Type := mkError { message : string; stack : option string }.

(** What a [throw] carries: an [Error] instance or any other value. *)
Inductive thrown : Type :=
| ThrownError (e : Error)
| ThrownValue (v : value).

(** [error instanceof Error ? error.message : fallback] *)
Definition message_or (t : thrown) (fallback : string) : string :=
  match t with
  | ThrownError e => message e
  | ThrownValue _ => fallback
  end.

(** [error instanceof Error ? error.stack : fallback] *)
Definition stack_or (t : thrown) (fallback : string) : value :=
  match t with
  | ThrownError e =>
      match stack e with
      | Some s => Some (JStr s)
      | None => undefined
      end
  | ThrownValue _ => Some (JStr fallback)
  end.

(** A completion: normal with a value, or abrupt with what was thrown. *)
Inductive completion (A : Type) : Type :=
| Normal (a : A)
| Throw (t : thrown).
Arguments Normal {A} a.
Arguments Throw {A} t.

End JS.
Import JS.

(* ===================================================================== *)
(** ** HTTP messages and the platform the handlers run on *)

Module Http.

(** An outbound [fetch(url, init)]. *)
Record FetchRequest : Type := mkFetch {
  fetch_url : string;
  fetch_method : string;
  fetch_headers : list (string * string);
  fetch_body : option json
}.

(** What [fetch] resolves to: the status line and what [json()] and
    [text()] of the body give. *)
Record FetchResponse : Type := mkFetchResponse {
  resp_status : Z;
  resp_json : completion json;
  resp_text : completion string
}.

(** [response.ok] *)
Definition ok (r : FetchResponse) : bool :=
  (200 <=? resp_status r) && (resp_status r <=? 299).

(** The arguments of [streamText]. *)
Record StreamTextArgs : Type := mkStreamTextArgs {
  model : string;
  system : string;
  messages : value;
  temperature : Q;
  maxTokens : Z
}.

(** The result of [streamText]: the chunks the model will stream. *)
Inductive StreamResult : Type := Stream (chunks : list string).

Inductive body : Type :=
| JsonBody (j : json)
| TextBody (s : string)
| StreamBody (r : StreamResult).

(** A response of a route handler. *)
Record HttpResponse : Type := mkResponse {
  status : Z;
  headers : list (string * string);
  payload : body
}.

(** [NextResponse.json(data, { status })] *)
Definition NextResponse_json (data : json) (st : Z) : HttpResponse :=
  {| status := st;
     headers := [("content-type", "application/json")];
     payload := JsonBody data |}.

(** [new Response(JSON.stringify(data), { status, headers: { "Content-Type": "application/json" } })] *)
Definition Response_json (data : json) (st : Z) : HttpResponse :=
  {| status := st;
     headers := [("Content-Type", "application/json")];
     payload := JsonBody data |}.

(** An incoming request: what [request.json()] gives. *)
Record NextRequest : Type := mkRequest { req_json : completion json }.

End Http.
Import Http.

(** Everything the handlers take from outside the repository: the URL
    parser, the errors the engine raises, the process environment, the
    network and the text-generation SDK. *)
Class Platform : Type := {
  (** [new URL(s)] returns normally *)
  URL_parses : string -> bool;
  (** the [TypeError] of [new URL] on a string it cannot parse *)
  TypeError_invalid_URL : Error;
  (** the [TypeError] of reading or destructuring a property of [null] or
      [undefined] *)
  TypeError_nullish : Error;
  (** the [TypeError] of converting an object to a string when it cannot be *)
  TypeError_not_primitive : Error;
  (** Number::toString *)
  Number_toString : Z -> string;
  (** the stack an [Error] made by [new Error(message)] gets *)
  capture_stack : string -> option string;
  (** [process.env] *)
  env : string -> option string;
  (** what [fetch] does with a request *)
  network : FetchRequest -> completion FetchResponse;
  (** [streamText] of the [ai] package *)
  streamText : StreamTextArgs -> completion StreamResult;
  (** [result.toDataStreamResponse()] *)
  toDataStreamResponse : StreamResult -> completion HttpResponse;
  (** [s.trim()] *)
  String_trim : string -> string;
  (** [new Date().toISOString()] when the clock shows [t] milliseconds *)
  Date_toISOString : Z -> string;
  (** a header value that [Headers] takes: one without NUL, CR or LF and
      without a character above U+00FF *)
  header_value_ok : string -> bool;
  (** the [TypeError] of [Headers] on a value it does not take *)
  TypeError_invalid_header : Error
}.

(* ===================================================================== *)
(** ** Handler computations *)

Module IO.

(** An outbound call a route handler made. *)
Inductive call : Type :=
| Fetched (r : FetchRequest)
| Streamed (a : StreamTextArgs).

(** A computation over a state [S] that completes normally or abruptly;
    what it did to the state before a [throw] stays done. *)
Definition io (S A : Type) : Type := S -> completion A * S.

Definition ret {S A} (a : A) : io S A := fun s => (Normal a, s).

Definition bind {S A B} (m : io S A) (k : A -> io S B) : io S B :=
  fun s =>
    match m s with
    | (Normal a, s') => k a s'
    | (Throw t, s') => (Throw t, s')
    end.

Definition throw {S A} (t : thrown) : io S A := fun s => (Throw t, s).

(** [await p] for a promise whose settlement is known. *)
Definition await {S A} (c : completion A) : io S A := fun s => (c, s).

(** [try { body } catch (error) { handler }] *)
Definition try_catch {S A} (body : io S A) (handler : thrown -> io S A) : io S A :=
  fun s =>
    match body s with
    | (Normal a, s') => (Normal a, s')
    | (Throw t, s') => handler t s'
    end.

Definition modify {S} (f : S -> S) : io S unit := fun s => (Normal tt, f s).

(** A route handler: its state is the log of its outbound calls. *)
Definition handler (A : Type) : Type := io (list call) A.

(** Run a route handler from an empty log. *)
Definition run {A} (m : handler A) : completion A * list call := m [].

End IO.
Import IO.

Declare Scope io_scope.
Delimit Scope io_scope with io.
Notation "x <- c ;; k" := (bind c (fun x => k))
  (at level 61, c at next level, right associativity) : io_scope.
Notation "c ;;; k" := (bind c (fun _ => k))
  (at level 61, right associativity) : io_scope.
Open Scope io_scope.

Section Primitives.
Context {P : Platform}.

(** [v.k]: throws on [undefined] and [null]; only objects have the
    properties the handlers read ([url], [status], [detail], ...). *)
Definition get (v : value) (k : string) : completion value :=
  match v with
  | None => Throw (ThrownError TypeError_nullish)
  | Some JNull => Throw (ThrownError TypeError_nullish)
  | Some (JObj props) => Normal (lookup k props)
  | Some _ => Normal undefined
  end.

(** [v?.k] *)
Definition get_opt (v : value) (k : string) : value :=
  match v with
  | Some (JObj props) => lookup k props
  | _ => undefined
  end.

(** ToString, as a template literal, [new URL] and [new Error] apply it
    to their argument. *)
Definition ToString (v : value) : completion string :=
  match v with
  | None => Normal "undefined"
  | Some j =>
      match json_toString Number_toString j with
      | Some s => Normal s
      | None => Throw (ThrownError TypeError_not_primitive)
      end
  end.

(** [new URL(v)], for its exception only *)
Definition new_URL (v : value) : completion unit :=
  match ToString v with
  | Normal s =>
      if URL_parses s then Normal tt
      else Throw (ThrownError TypeError_invalid_URL)
  | Throw t => Throw t
  end.

(** [new Error("text")] *)
Definition Error_of (text : string) : Error :=
  {| message := text; stack := capture_stack text |}.

(** [new Error(v)] for a [v] that is not [undefined] *)
Definition new_Error (v : value) : completion Error :=
  match ToString v with
  | Normal s => Normal (Error_of s)
  | Throw t => Throw t
  end.

(** [fetch(url, init)] *)
Definition fetch (r : FetchRequest) : handler FetchResponse :=
  fun log => (network r, (log ++ [Fetched r])%list).

(** [streamText(args)] *)
Definition stream_text (a : StreamTextArgs) : handler StreamResult :=
  fun log => (streamText a, (log ++ [Streamed a])%list).

(** [process.env.PYTHON_API_URL || "http://localhost:8000"] *)
Definition PYTHON_API_URL : string :=
  match env "PYTHON_API_URL" with
  | Some s => if (s =? "")%string then "http://localhost:8000" else s
  | None => "http://localhost:8000"
  end.

(** [response.json().catch(() => ({}))] *)
Definition json_or_empty (r : FetchResponse) : json :=
  match resp_json r with
  | Normal j => j
  | Throw _ => JObj []
  end.

(** [new Response(data, { headers: hs })]: the constructor fills a
    [Headers] object and throws when a value is not one it takes. *)
Definition new_Response (data : string) (hs : list (string * string))
  : completion HttpResponse :=
  if forallb (fun h => header_value_ok (snd h)) hs
  then Normal {| status := 200; headers := hs; payload := TextBody data |}
  else Throw (ThrownError TypeError_invalid_header).

End Primitives.

(* ===================================================================== *)
(** ** app/api/scrape/route.ts *)

Module ScrapeRoute.
Section Route.
Context {P : Platform}.

(** [const { url, maxPages = 5 } = await request.json()] *)
Definition destructure (body : json) : completion (value * value) :=
  match get (Some body) "url" with
  | Throw t => Throw t
  | Normal url =>
      match get (Some body) "maxPages" with
      | Throw t => Throw t
      | Normal None => Normal (url, Some (JNum 5))
      | Normal (Some m) => Normal (url, Some m)
      end
  end.

(** The part of [POST] after the URL checks: the call to the Python API. *)
Definition start_job (url maxPages : value) : handler HttpResponse :=
  response <- fetch {| fetch_url := PYTHON_API_URL ++ "/scrape";
                       fetch_method := "POST";
                       fetch_headers := [("Content-Type", "application/json")];
                       fetch_body := Some (JSON_object [("url", url);
                                                        ("max_pages", maxPages)]) |} ;;
  if negb (ok response) then
    detail <- await (get (Some (json_or_empty response)) "detail") ;;
    e <- await (new_Error (or_else detail (Some (JStr "Failed to start scraping job")))) ;;
    throw (ThrownError e)
  else
    data <- await (resp_json response) ;;
    ret (NextResponse_json data 200).

Definition POST (request : NextRequest) : handler HttpResponse :=
  try_catch
    (body <- await (req_json request) ;;
     fields <- await (destructure body) ;;
     let '(url, maxPages) := fields in
     if negb (truthy url) then
       ret (NextResponse_json (JSON_object [("error", Some (JStr "URL is required"))]) 400)
     else
       rejected <- try_catch (await (new_URL url) ;;; ret false)
                             (fun _ => ret true) ;;
       if (rejected : bool) then
         ret (NextResponse_json (JSON_object [("error", Some (JStr "Invalid URL format"))]) 400)
       else
         start_job url maxPages)
    (fun error =>
       ret (NextResponse_json
              (JSON_object [("error", Some (JStr (message_or error "Failed to scrape URL")))])
              500)).

End Route.
End ScrapeRoute.

(* ===================================================================== *)
(** ** app/api/test-scrape/route.ts *)

Module TestScrapeRoute.
Section Route.
Context {P : Platform}.

(** [const { url, customInstructions } = await request.json()] *)
Definition destructure (body : json) : completion (value * value) :=
  match get (Some body) "url" with
  | Throw t => Throw t
  | Normal url =>
      match get (Some body) "customInstructions" with
      | Throw t => Throw t
      | Normal customInstructions => Normal (url, customInstructions)
      end
  end.

(** The part of [POST] after the URL checks: the call to the Python API. *)
Definition start_job (url customInstructions : value) : handler HttpResponse :=
  response <- fetch {| fetch_url := PYTHON_API_URL ++ "/test-scrape";
                       fetch_method := "POST";
                       fetch_headers := [("Content-Type", "application/json")];
                       fetch_body :=
                         Some (JSON_object
                                 [("url", url);
                                  ("custom_instructions",
                                   or_else customInstructions (Some JNull))]) |} ;;
  if negb (ok response) then
    detail <- await (get (Some (json_or_empty response)) "detail") ;;
    e <- await (new_Error (or_else detail
                             (Some (JStr "Failed to start test scraping job")))) ;;
    throw (ThrownError e)
  else
    data <- await (resp_json response) ;;
    ret (NextResponse_json data 200).

Definition POST (request : NextRequest) : handler HttpResponse :=
  try_catch
    (body <- await (req_json request) ;;
     fields <- await (destructure body) ;;
     let '(url, customInstructions) := fields in
     if negb (truthy url) then
       ret (NextResponse_json (JSON_object [("error", Some (JStr "URL is required"))]) 400)
     else
       rejected <- try_catch (await (new_URL url) ;;; ret false)
                             (fun _ => ret true) ;;
       if (rejected : bool) then
         ret (NextResponse_json (JSON_object [("error", Some (JStr "Invalid URL format"))]) 400)
       else
         start_job url customInstructions)
    (fun error =>
       ret (NextResponse_json
              (JSON_object [("error", Some (JStr (message_or error "Failed to start test scrape")))])
              500)).

End Route.
End TestScrapeRoute.

(* ===================================================================== *)
(** ** app/api/scrape/[jobId]/route.ts *)

Module JobRoute.
Section Route.
Context {P : Platform}.

Definition GET (jobId : string) : handler HttpResponse :=
  try_catch
    (response <- fetch {| fetch_url := PYTHON_API_URL ++ "/scrape/" ++ jobId;
                          fetch_method := "GET";
                          fetch_headers := [("Content-Type", "application/json")];
                          fetch_body := None |} ;;
     if negb (ok response) then
       if resp_status response =? 404 then
         ret (NextResponse_json (JSON_object [("error", Some (JStr "Job not found"))]) 404)
       else
         throw (ThrownError (Error_of "Failed to get job status"))
     else
       data <- await (resp_json response) ;;
       ret (NextResponse_json data 200))
    (fun error =>
       ret (NextResponse_json
              (JSON_object [("error", Some (JStr (message_or error "Failed to get job status")))])
              500)).

Definition DELETE (jobId : string) : handler HttpResponse :=
  try_catch
    (response <- fetch {| fetch_url := PYTHON_API_URL ++ "/scrape/" ++ jobId;
                          fetch_method := "DELETE";
                          fetch_headers := [("Content-Type", "application/json")];
                          fetch_body := None |} ;;
     if negb (ok response) then
       if resp_status response =? 404 then
         ret (NextResponse_json (JSON_object [("error", Some (JStr "Job not found"))]) 404)
       else
         throw (ThrownError (Error_of "Failed to delete job"))
     else
       data <- await (resp_json response) ;;
       ret (NextResponse_json data 200))
    (fun error =>
       ret (NextResponse_json
              (JSON_object [("error", Some (JStr (message_or error "Failed to delete job")))])
              500)).

End Route.
End JobRoute.

(* ===================================================================== *)
(** ** app/api/export/[jobId]/[format]/route.ts *)

Module ExportRoute.
Section Route.
Context {P : Platform}.

(** [["json", "csv"].includes(format)] *)
Definition known_format (format : string) : bool :=
  existsb (fun f => (f =? format)%string) ["json"; "csv"].

Definition contentType (format : string) : string :=
  if (format =? "json")%string then "application/json" else "text/csv".

Definition fileExtension (format : string) : string :=
  if (format =? "json")%string then "json" else "csv".

(** [GET]; [jobId] and [format] are the route parameters, decoded.  The
    response is built inside the [try]: a job id that makes the file name a
    value [Headers] does not take (a line feed in it, say) ends in the
    [catch], like every other failure. *)
Definition GET (jobId format : string) : handler HttpResponse :=
  try_catch
    (if negb (known_format format) then
       ret (NextResponse_json
              (JSON_object [("error", Some (JStr "Invalid format. Use 'json' or 'csv'"))]) 400)
     else
       response <- fetch {| fetch_url := PYTHON_API_URL ++ "/export/" ++ jobId ++ "/" ++ format;
                            fetch_method := "GET";
                            fetch_headers := [];
                            fetch_body := None |} ;;
       if negb (ok response) then
         if resp_status response =? 404 then
           ret (NextResponse_json (JSON_object [("error", Some (JStr "Job not found"))]) 404)
         else
           throw (ThrownError (Error_of "Failed to export data"))
       else
         data <- await (resp_text response) ;;
         await (new_Response data
                  [("Content-Type", contentType format);
                   ("Content-Disposition",
                    "attachment; filename=scrape_results_" ++ jobId ++ "."
                      ++ fileExtension format)]))
    (fun error =>
       ret (NextResponse_json
              (JSON_object [("error", Some (JStr (message_or error "Failed to export data")))])
              500)).

End Route.
End ExportRoute.

(* ===================================================================== *)
(** ** app/api/chat/route.ts *)

Module ChatRoute.
Section Route.
Context {P : Platform}.

Definition nl : string := String (ascii_of_nat 10) EmptyString.

(** The template literal of the system prompt, before and after
    [${scrapedContent}]. *)
Definition PROMPT_HEAD : string :=
  "You are a helpful AI assistant that can answer questions about the following scraped web content. Use this content to provide accurate and detailed responses."
  ++ nl ++ nl ++ "SCRAPED CONTENT:" ++ nl.

Definition PROMPT_TAIL : string :=
  nl ++ nl ++ "Instructions:" ++ nl
  ++ "- Answer questions based on the scraped content above" ++ nl
  ++ "- If the question cannot be answered from the content, say so clearly" ++ nl
  ++ "- Provide specific details and examples from the content when relevant" ++ nl
  ++ "- Be concise but comprehensive in your responses".

Definition PROMPT_FALLBACK : string :=
  "You are a helpful AI assistant. However, no web content has been provided for you to analyze. Please ask the user to scrape a website first before asking questions about its content.".

Definition systemPrompt (scrapedContent : value) : completion string :=
  if truthy scrapedContent then
    match ToString scrapedContent with
    | Normal s => Normal (PROMPT_HEAD ++ s ++ PROMPT_TAIL)
    | Throw t => Throw t
    end
  else Normal PROMPT_FALLBACK.

(** [!process.env.GOOGLE_GENERATIVE_AI_API_KEY] *)
Definition api_key_missing : bool :=
  match env "GOOGLE_GENERATIVE_AI_API_KEY" with
  | Some s => (s =? "")%string
  | None => true
  end.

(** The [console.log] and [console.error] calls are left out: they read
    [messages?.length] and [scrapedContent?.length], which cannot throw. *)
Definition POST (req : NextRequest) : handler HttpResponse :=
  try_catch
    (body <- await (req_json req) ;;
     messages <- await (get (Some body) "messages") ;;
     scrapedContent <- await (get (Some body) "scrapedContent") ;;
     if negb (truthy messages) || negb (Array_isArray messages) then
       ret (Response_json (JSON_object [("error", Some (JStr "Invalid messages format"))]) 400)
     else
       prompt <- await (systemPrompt scrapedContent) ;;
       if api_key_missing then
         ret (Response_json (JSON_object [("error", Some (JStr "AI service not configured"))])
                            500)
       else
       result <- stream_text {| model := "gemini-2.0-flash-exp";
                                system := prompt;
                                messages := messages;
                                temperature := (7 # 10)%Q;
                                maxTokens := 1000 |} ;;
       await (toDataStreamResponse result))
    (fun error =>
       ret (Response_json
              (JSON_object [("error", Some (JStr (message_or error "Internal Server Error")));
                            ("details", stack_or error "Unknown error")])
              500)).

End Route.
End ChatRoute.

(* ===================================================================== *)
(** ** app/api/health/route.ts *)

Module HealthRoute.
Section Route.
Context {P : Platform}.

(** [!!process.env.NAME] *)
Definition env_set (name : string) : bool :=
  match env name with
  | Some s => negb (s =? "")%string
  | None => false
  end.

(** The [healthStatus] object, [pythonHealth] being what the Python API
    reported ([null] when it did not answer [ok]). *)
Definition healthStatus (pythonHealth : json) (now : Z) : json :=
  JSON_object
    [("status", Some (JStr (if truthy (Some pythonHealth) then "healthy" else "degraded")));
     ("timestamp", Some (JStr (Date_toISOString now)));
     ("services",
      Some (JSON_object
              [("nextjs",
                Some (JSON_object
                        [("status", Some (JStr "healthy"));
                         ("message", Some (JStr "Next.js API is running"))]));
               ("python_api",
                Some (JSON_object
                        [("status",
                          Some (JStr (if truthy (Some pythonHealth) then "healthy"
                                      else "unhealthy")));
                         ("message",
                          Some (JStr (if truthy (Some pythonHealth)
                                      then "Python API is running"
                                      else "Python API is not accessible")));
                         ("details", Some pythonHealth)]))]));
     ("environment",
      Some (JSON_object
              [("gemini_api_key",
                Some (JStr (if env_set "GOOGLE_GENERATIVE_AI_API_KEY" then "configured"
                            else "missing")));
               ("python_api_url",
                Some (JStr (if env_set "PYTHON_API_URL" then "configured"
                            else "using_default")))]));
     ("version", Some (JStr "2.0.0"))].

(** [now] is what the clock shows when the response is built. *)
Definition GET (now : Z) : handler HttpResponse :=
  try_catch
    (pythonHealthResponse <- fetch {| fetch_url := PYTHON_API_URL ++ "/health";
                                      fetch_method := "GET";
                                      fetch_headers := [];
                                      fetch_body := None |} ;;
     pythonHealth <- (if ok pythonHealthResponse
                      then await (resp_json pythonHealthResponse)
                      else ret JNull) ;;
     ret (NextResponse_json (healthStatus pythonHealth now) 200))
    (fun error =>
       ret (NextResponse_json
              (JSON_object [("status", Some (JStr "unhealthy"));
                            ("timestamp", Some (JStr (Date_toISOString now)));
                            ("error", Some (JStr (message_or error "Health check failed")))])
              500)).

End Route.
End HealthRoute.

(* ===================================================================== *)
(** ** app/page.tsx: [handleScrapeUrl] and its polling timers *)

Module Client.

Inductive Stage : Type := idle | scraping | cleaning | complete | error.

Record ProcessingStatus : Type := mkStatus {
  stage : Stage;
  progress : value;
  message : value
}.

Record Metadata : Type := mkMetadata {
  description : value;
  pagesScraped : value;
  averageQualityScore : value;
  extractionMethod : value
}.

Record ScrapedData : Type := mkScraped {
  url : value;
  title : value;
  content : value;
  wordCount : value;
  qualityScore : value;
  timestamp : string;
  importantLinks : value;
  metadata : Metadata;
  isTestScrape : bool;
  customInstructionsApplied : value
}.

(** The interval timer with what its callback closes over. *)
Record Poller : Type := mkPoller {
  due : Z;
  job_id : value;
  testMode : bool
}.

(** The browser tab as one run of [handleScrapeUrl] sees it: the React
    state of the component, the two timers of that run (which only its
    closures hold), the clock (milliseconds), the requests the handlers of
    the page have sent ([started]) and the status requests followed here
    ([polled]).  A timer or a reply that an earlier run has left pending
    belongs to that run: to this one it is an event that happens elsewhere
    on the page (the turn [Elsewhere] of the event loop). *)
Record Tab : Type := mkTab {
  urlInput : string;
  customInstructions : string;
  scrapedData : option ScrapedData;
  processingStatus : ProcessingStatus;
  jobId : value;
  isTestMode : bool;
  pollInterval : option Poller;
  giveUp : option Z;
  clock : Z;
  started : list FetchRequest;
  polled : list (Z * string)
}.

Definition setScrapedData (d : option ScrapedData) : io Tab unit :=
  modify (fun t => mkTab (urlInput t) (customInstructions t) d (processingStatus t)
                         (jobId t) (isTestMode t) (pollInterval t) (giveUp t) (clock t)
                         (started t) (polled t)).

Definition setProcessingStatus (p : ProcessingStatus) : io Tab unit :=
  modify (fun t => mkTab (urlInput t) (customInstructions t) (scrapedData t) p
                         (jobId t) (isTestMode t) (pollInterval t) (giveUp t) (clock t)
                         (started t) (polled t)).

Definition setJobId (j : value) : io Tab unit :=
  modify (fun t => mkTab (urlInput t) (customInstructions t) (scrapedData t)
                         (processingStatus t) j (isTestMode t) (pollInterval t) (giveUp t)
                         (clock t) (started t) (polled t)).

Definition setIsTestMode (b : bool) : io Tab unit :=
  modify (fun t => mkTab (urlInput t) (customInstructions t) (scrapedData t)
                         (processingStatus t) (jobId t) b (pollInterval t) (giveUp t)
                         (clock t) (started t) (polled t)).

Definition set_pollInterval (p : option Poller) (t : Tab) : Tab :=
  mkTab (urlInput t) (customInstructions t) (scrapedData t) (processingStatus t)
        (jobId t) (isTestMode t) p (giveUp t) (clock t) (started t) (polled t).

Definition set_giveUp (g : option Z) (t : Tab) : Tab :=
  mkTab (urlInput t) (customInstructions t) (scrapedData t) (processingStatus t)
        (jobId t) (isTestMode t) (pollInterval t) g (clock t) (started t) (polled t).

Definition set_clock (c : Z) (t : Tab) : Tab :=
  mkTab (urlInput t) (customInstructions t) (scrapedData t) (processingStatus t)
        (jobId t) (isTestMode t) (pollInterval t) (giveUp t) c (started t) (polled t).

(** [clearInterval(pollInterval)] *)
Definition clearInterval : io Tab unit := modify (set_pollInterval None).

Definition POLL_MS : Z := 2000.
Definition GIVE_UP_MS : Z := 300000.

(** [setInterval(callback, 2000)], the interval of this run; from here on
    the tab is seen from this run (see [Tab]). *)
Definition setInterval (job : value) (test : bool) : io Tab unit :=
  modify (fun t => set_pollInterval (Some (mkPoller (clock t + POLL_MS) job test)) t).

(** [setTimeout(() => clearInterval(pollInterval), 300000)], the timeout
    of this run. *)
Definition setTimeout : io Tab unit :=
  modify (fun t => set_giveUp (Some (clock t + GIVE_UP_MS)) t).

Section Page.
Context {P : Platform}.
(** What the gateway answers to the n-th status request of the run. *)
Variable status_reply : nat -> completion FetchResponse.

Definition endpoint (test : bool) : string :=
  if test then "/api/test-scrape" else "/api/scrape".

(** [customInstructions || null] on the text of the instructions box *)
Definition instructions_or_null (instructions : string) : value :=
  or_else (Some (JStr instructions)) (Some JNull).

Definition payload (test : bool) (u instructions : string) : json :=
  if test
  then JSON_object [("url", Some (JStr u));
                    ("customInstructions", instructions_or_null instructions)]
  else JSON_object [("url", Some (JStr u));
                    ("maxPages", Some (JNum 5));
                    ("customInstructions", instructions_or_null instructions)].

(** The [fetch] that starts the job. *)
Definition fetch_start (r : FetchRequest) : io Tab FetchResponse :=
  fun t =>
    (network r,
     mkTab (urlInput t) (customInstructions t) (scrapedData t) (processingStatus t)
           (jobId t) (isTestMode t) (pollInterval t) (giveUp t) (clock t)
           (started t ++ [r])%list (polled t)).

(** The [fetch] of the job status: the n-th one gets [status_reply n]. *)
Definition fetch_status (u : string) : io Tab FetchResponse :=
  fun t =>
    (status_reply (length (polled t)),
     mkTab (urlInput t) (customInstructions t) (scrapedData t) (processingStatus t)
           (jobId t) (isTestMode t) (pollInterval t) (giveUp t) (clock t)
           (started t) (polled t ++ [(clock t, u)])%list).

(** The object passed to [setScrapedData].  It is built where [result] is
    truthy, so that reading a property of [result] cannot throw and [.] is
    [?.] there (lemma [get_truthy]). *)
Definition scraped_of (result : value) (test : bool) (now : Z) : ScrapedData :=
  {| url := get_opt result "url";
     title := get_opt result "title";
     content := or_else (get_opt result "cleanedContent") (Some (JStr ""));
     wordCount := or_else (get_opt result "wordCount") (Some (JNum 0));
     qualityScore := or_else (get_opt result "qualityScore") (Some (JNum 0));
     timestamp := Date_toISOString now;
     importantLinks := or_else (get_opt result "importantLinks") (Some (JArr []));
     metadata :=
       {| description := get_opt result "description";
          pagesScraped := or_else (get_opt result "pagesScraped") (Some (JNum 1));
          averageQualityScore := get_opt result "qualityScore";
          extractionMethod :=
            or_else (get_opt (get_opt result "metadata") "extractionMethod")
                    (Some (JStr "enhanced")) |};
     isTestScrape := test;
     customInstructionsApplied :=
       or_else (get_opt result "customInstructionsApplied") (Some (JBool false)) |}.

(** The callback of [setInterval], run in one piece: the reply is handled
    as soon as the request is sent.  The callback is an [async] function;
    [poll_send] and [poll_resume] below are its two parts, before and after
    [await fetch]. *)
Definition poll (p : Poller) : io Tab unit :=
  try_catch
    (job <- await (ToString (job_id p)) ;;
     statusResponse <- fetch_status ("/api/scrape/" ++ job) ;;
     if negb (ok statusResponse) then
       throw (ThrownError (Error_of "Failed to get job status"))
     else
       statusData <- await (resp_json statusResponse) ;;
       status <- await (get (Some statusData) "status") ;;
       progress <- await (get (Some statusData) "progress") ;;
       message <- await (get (Some statusData) "message") ;;
       setProcessingStatus
         {| stage := if strict_eq_str status "completed" then complete
                     else if strict_eq_str status "error" then error
                     else scraping;
            progress := progress;
            message := message |} ;;;
       result <- await (get (Some statusData) "result") ;;
       if strict_eq_str status "completed" && truthy result then
         now <- (fun t => (Normal (clock t), t)) ;;
         setScrapedData (Some (scraped_of result (testMode p) now)) ;;;
         clearInterval
       else if strict_eq_str status "error" then
         err <- await (get (Some statusData) "error") ;;
         setProcessingStatus
           {| stage := error;
              progress := Some (JNum 0);
              message := or_else err (Some (JStr "Scraping failed")) |} ;;;
         clearInterval
       else ret tt)
    (fun _ =>
       setProcessingStatus
         {| stage := error;
            progress := Some (JNum 0);
            message := Some (JStr "Failed to get scraping status") |} ;;;
       clearInterval).

Definition handleScrapeUrl (test : bool) : io Tab unit :=
  fun t0 =>
    let u := urlInput t0 in
    let instructions := customInstructions t0 in
    if (String_trim u =? "")%string then (Normal tt, t0)
    else
      (setIsTestMode test ;;;
       setProcessingStatus
         {| stage := scraping;
            progress := Some (JNum 10);
            message := Some (JStr (if test then "Starting test scrape..."
                                   else "Starting enhanced web scraping job...")) |} ;;;
       try_catch
         (response <- fetch_start
                        {| fetch_url := endpoint test;
                           fetch_method := "POST";
                           fetch_headers := [("Content-Type", "application/json")];
                           fetch_body := Some (payload test u instructions) |} ;;
          if negb (ok response) then
            err <- await (get (Some (json_or_empty response)) "error") ;;
            e <- await (new_Error (or_else err (Some (JStr "Failed to start scraping job")))) ;;
            throw (ThrownError e)
          else
            answer <- await (resp_json response) ;;
            job <- await (get (Some answer) "job_id") ;;
            setJobId job ;;;
            setInterval job test ;;;
            setTimeout)
         (fun e =>
            setProcessingStatus
              {| stage := error;
                 progress := Some (JNum 0);
                 message := Some (JStr (message_or e "Failed to start scraping job")) |}))
        t0.

(** *** The timers

    One step of the event loop runs the timer that is due first.  Both
    timers can be due at the same millisecond (the 150th firing of the
    interval and the timeout); [interval_first] says which one the browser
    runs first then. *)
Variable interval_first : bool.

Inductive timer : Type :=
| FireInterval (p : Poller)
| FireTimeout (at_ms : Z).

Definition next_timer (t : Tab) : option timer :=
  match pollInterval t, giveUp t with
  | None, None => None
  | Some p, None => Some (FireInterval p)
  | None, Some g => Some (FireTimeout g)
  | Some p, Some g =>
      if due p <? g then Some (FireInterval p)
      else if g <? due p then Some (FireTimeout g)
      else if interval_first then Some (FireInterval p)
      else Some (FireTimeout g)
  end.

(** A timer fires and, for the interval, the reply to the request is
    handled at once: [fire] and [run_timers] describe the runs in which
    every status reply is handled before the next timer is due (a reply
    takes less than two seconds).  The runs in which replies come later are
    those of [act] and [run_schedule] below. *)
Definition fire (ev : timer) (t : Tab) : Tab :=
  match ev with
  | FireInterval p =>
      let rearmed :=
        set_pollInterval (Some (mkPoller (due p + POLL_MS) (job_id p) (testMode p)))
                         (set_clock (due p) t) in
      snd (poll p rearmed)
  | FireTimeout g =>
      set_pollInterval None (set_giveUp None (set_clock g t))
  end.

Definition step (t : Tab) : option Tab :=
  match next_timer t with
  | None => None
  | Some ev => Some (fire ev t)
  end.

(** Run the event loop for at most [fuel] timer firings, each reply being
    handled at once. *)
Fixpoint run_timers (fuel : nat) (t : Tab) : Tab :=
  match fuel with
  | O => t
  | S fuel' =>
      match step t with
      | None => t
      | Some t' => run_timers fuel' t'
      end
  end.

(** No timer is pending. *)
Definition quiescent (t : Tab) : bool :=
  match next_timer t with
  | None => true
  | Some _ => false
  end.

(** *** The event loop with replies that take their time

    The callback of the interval is [async]: a firing runs it up to
    [await fetch(...)], and the rest of it runs when the reply is there,
    which can be after later firings of the interval and after the
    timeout. *)

(** [fetch(u)] up to the request: it goes out and gets its number. *)
Definition send_status (u : string) : io Tab nat :=
  fun t =>
    (Normal (length (polled t)),
     mkTab (urlInput t) (customInstructions t) (scrapedData t) (processingStatus t)
           (jobId t) (isTestMode t) (pollInterval t) (giveUp t) (clock t)
           (started t) (polled t ++ [(clock t, u)])%list).

(** The callback up to [await fetch(`/api/scrape/${job_id}`)]; its result
    is the number of the request it sent.  When the address cannot be
    written the [catch] runs at once and nothing is sent. *)
Definition poll_send (p : Poller) : io Tab (option nat) :=
  try_catch
    (job <- await (ToString (job_id p)) ;;
     n <- send_status ("/api/scrape/" ++ job) ;;
     ret (Some n))
    (fun _ =>
       setProcessingStatus
         {| stage := error;
            progress := Some (JNum 0);
            message := Some (JStr "Failed to get scraping status") |} ;;;
       clearInterval ;;;
       ret None).

(** The callback from [await fetch(...)] on, [reply] being how the request
    settled.  Nothing is written between the reply and the document read by
    [statusResponse.json()], so the two awaits are taken together. *)
Definition poll_resume (p : Poller) (reply : completion FetchResponse) : io Tab unit :=
  try_catch
    (statusResponse <- await reply ;;
     if negb (ok statusResponse) then
       throw (ThrownError (Error_of "Failed to get job status"))
     else
       statusData <- await (resp_json statusResponse) ;;
       status <- await (get (Some statusData) "status") ;;
       progress <- await (get (Some statusData) "progress") ;;
       message <- await (get (Some statusData) "message") ;;
       setProcessingStatus
         {| stage := if strict_eq_str status "completed" then complete
                     else if strict_eq_str status "error" then error
                     else scraping;
            progress := progress;
            message := message |} ;;;
       result <- await (get (Some statusData) "result") ;;
       if strict_eq_str status "completed" && truthy result then
         now <- (fun t => (Normal (clock t), t)) ;;
         setScrapedData (Some (scraped_of result (testMode p) now)) ;;;
         clearInterval
       else if strict_eq_str status "error" then
         err <- await (get (Some statusData) "error") ;;
         setProcessingStatus
           {| stage := error;
              progress := Some (JNum 0);
              message := or_else err (Some (JStr "Scraping failed")) |} ;;;
         clearInterval
       else ret tt)
    (fun _ =>
       setProcessingStatus
         {| stage := error;
            progress := Some (JNum 0);
            message := Some (JStr "Failed to get scraping status") |} ;;;
       clearInterval).

(** The tab and the status requests whose replies have not been handled
    yet, each with the callback that waits for it. *)
Record Loop : Type := mkLoop {
  tab : Tab;
  inflight : list (nat * Poller)
}.

(** What the event loop does next: it runs the timer of the run that is
    due first, or the rest of the callback that waits for the reply to
    request [n], which is there at [at_ms], or something else on the page:
    the user types, clears the data, downloads or starts another job, a
    callback of another run is run.  That can leave any React state behind
    and send requests of its own, those of [page]; it does not reach the
    timers of this run. *)
Inductive action : Type :=
| Timer
| Reply (n : nat) (at_ms : Z)
| Elsewhere (page : Tab).

(** The callback that waits for the reply to request [n]. *)
Definition awaiting (n : nat) (s : Loop) : option Poller :=
  match find (fun e => Nat.eqb (fst e) n) (inflight s) with
  | Some (_, p) => Some p
  | None => None
  end.

(** Something can happen at [at_ms] when no timer was due before. *)
Definition in_time (at_ms : Z) (t : Tab) : bool :=
  (clock t <=? at_ms)
  && match pollInterval t with
     | Some p => at_ms <=? due p
     | None => true
     end
  && match giveUp t with
     | Some g => at_ms <=? g
     | None => true
     end.

(** One turn of the event loop; [None] when the action is not possible. *)
Definition act (a : action) (s : Loop) : option Loop :=
  match a with
  | Timer =>
      match next_timer (tab s) with
      | None => None
      | Some (FireTimeout g) =>
          Some {| tab := set_pollInterval None (set_giveUp None (set_clock g (tab s)));
                  inflight := inflight s |}
      | Some (FireInterval p) =>
          let rearmed :=
            set_pollInterval (Some (mkPoller (due p + POLL_MS) (job_id p) (testMode p)))
                             (set_clock (due p) (tab s)) in
          match poll_send p rearmed with
          | (Normal (Some n), t') =>
              Some {| tab := t'; inflight := (inflight s ++ [(n, p)])%list |}
          | (_, t') => Some {| tab := t'; inflight := inflight s |}
          end
      end
  | Reply n at_ms =>
      match awaiting n s with
      | None => None
      | Some p =>
          if in_time at_ms (tab s) then
            Some {| tab := snd (poll_resume p (status_reply n) (set_clock at_ms (tab s)));
                    inflight := filter (fun e => negb (Nat.eqb (fst e) n)) (inflight s) |}
          else None
      end
  | Elsewhere page =>
      if in_time (clock page) (tab s) then
        Some {| tab := mkTab (urlInput page) (customInstructions page) (scrapedData page)
                             (processingStatus page) (jobId page) (isTestMode page)
                             (pollInterval (tab s)) (giveUp (tab s)) (clock page)
                             (started page) (polled (tab s));
                inflight := inflight s |}
      else None
  end.

(** The event loop along a schedule. *)
Fixpoint run_schedule (schedule : list action) (s : Loop) : option Loop :=
  match schedule with
  | [] => Some s
  | a :: rest =>
      match act a s with
      | Some s' => run_schedule rest s'
      | None => None
      end
  end.

(** The schedule of [fuel] timers in which the reply to every request is
    handled at the very time the request is sent, before any other timer. *)
Fixpoint promptly (fuel : nat) (s : Loop) : list action :=
  match fuel with
  | O => []
  | S fuel' =>
      match act Timer s with
      | None => []
      | Some s1 =>
          match inflight s1 with
          | [] => Timer :: promptly fuel' s1
          | (n, _) :: _ =>
              let now := clock (tab s1) in
              match act (Reply n now) s1 with
              | Some s2 => Timer :: Reply n now :: promptly fuel' s2
              | None => [Timer]
              end
          end
      end
  end.

End Page.

(** A tab that has just been opened, with the two input boxes filled in. *)
Definition fresh (u instructions : string) : Tab :=
  {| urlInput := u;
     customInstructions := instructions;
     scrapedData := None;
     processingStatus := {| stage := idle; progress := Some (JNum 0);
                            message := Some (JStr "") |};
     jobId := Some JNull;
     isTestMode := false;
     pollInterval := None;
     giveUp := None;
     clock := 0;
     started := [];
     polled := [] |}.

(** *** The other handlers of the page *)

Definition setUrl (u : string) : io Tab unit :=
  modify (fun t => mkTab u (customInstructions t) (scrapedData t) (processingStatus t)
                         (jobId t) (isTestMode t) (pollInterval t) (giveUp t) (clock t)
                         (started t) (polled t)).

Definition setCustomInstructions (i : string) : io Tab unit :=
  modify (fun t => mkTab (urlInput t) i (scrapedData t) (processingStatus t)
                         (jobId t) (isTestMode t) (pollInterval t) (giveUp t) (clock t)
                         (started t) (polled t)).

Definition handleClearData : io Tab unit :=
  setScrapedData None ;;;
  setProcessingStatus {| stage := idle; progress := Some (JNum 0);
                         message := Some (JStr "") |} ;;;
  setUrl "" ;;;
  setCustomInstructions "" ;;;
  setJobId (Some JNull).

(** [scrapedData?.content || ""], the [scrapedContent] that [useChat] adds
    to the body of every chat request. *)
Definition chat_scrapedContent (t : Tab) : value :=
  or_else (match scrapedData t with
           | Some d => content d
           | None => undefined
           end)
          (Some (JStr "")).

(** The parameter of [handleDownload]: ["json" | "csv"]. *)
Inductive Format : Type := as_json | as_csv.

Definition format_name (f : Format) : string :=
  match f with
  | as_json => "json"
  | as_csv => "csv"
  end.

(** [s.split("T")[0]] *)
Fixpoint before_T (s : string) : string :=
  match s with
  | EmptyString => EmptyString
  | String c rest => if Ascii.eqb c "T" then EmptyString else String c (before_T rest)
  end.

(** What the anchor that [handleDownload] clicks offers: the body it got
    and the file name. *)
Record Download : Type := mkDownload {
  blob : string;
  download : string
}.

Section Downloads.
Context {P : Platform}.

(** [handleDownload]; its result is the download it triggered, if any
    (the anchor it creates, clicks and removes).  The body read by
    [response.blob()] is given by [resp_text], and the request is logged
    with the other requests of the page. *)
Definition handleDownload (format : Format) : io Tab (option Download) :=
  fun t0 =>
    if negb (truthy (jobId t0)) then (Normal None, t0)
    else
      try_catch
        (job <- await (ToString (jobId t0)) ;;
         response <- fetch_start
                       {| fetch_url := "/api/export/" ++ job ++ "/" ++ format_name format;
                          fetch_method := "GET";
                          fetch_headers := [];
                          fetch_body := None |} ;;
         if negb (ok response) then
           throw (ThrownError (Error_of "Failed to download file"))
         else
           body <- await (resp_text response) ;;
           ret (Some {| blob := body;
                        download := "scraped-data-"
                                      ++ before_T (Date_toISOString (clock t0)) ++ "."
                                      ++ format_name format |}))
        (fun _ => ret None)
        t0.

End Downloads.

End Client.

(* ===================================================================== *)
(** ** The quality scorer (Python backend) *)

Module QualityScorer.

(** Modelled from the spec: the CleanedContent, QualityScore and subscore
    records of section 3 (the readability subscore is the fifth weight of
    section 4.5). *)
Record CleanedContent : Type := mkCleaned {
  text : string;
  stages_applied : list string;
  word_count : Z
}.

(** Modelled from the spec: the subscores of section 4.5, on any scale. *)
Record Subscores : Type := mkSubscores {
  length_score : Z;
  structure_score : Z;
  vocabulary_score : Z;
  indicators_score : Z;
  readability_score : Z
}.

(** Modelled from the spec: [QualityScore], the total and its subscores. *)
Record QualityScore : Type := mkQuality {
  total : Z;
  subscores : Subscores
}.

(** Modelled from the spec: the weighted sum of section 4.5 (length 30%,
    structure 25%, vocabulary 20%, indicators 15%, readability 10%); the
    scorer itself is in the Python backend, which is not among the sources. *)
Definition weighted_sum (s : Subscores) : Z :=
  (30 * length_score s + 25 * structure_score s + 20 * vocabulary_score s
   + 15 * indicators_score s + 10 * readability_score s) / 100.

(** Modelled from the spec: "final total is clamped after summation". *)
Definition clamp (lo hi x : Z) : Z := Z.max lo (Z.min hi x).

Section Scorer.
(** The five subscores are "independently computed" from the content; the
    spec leaves their formulas open, and nothing is assumed of their range. *)
Variable subscore : CleanedContent -> Subscores.

(** Modelled from the spec: [score(cleaned_content) -> QualityScore], the
    subscores weighted, summed and the total clamped to [0, 100]. *)
Definition score (c : CleanedContent) : QualityScore :=
  {| total := clamp 0 100 (weighted_sum (subscore c));
     subscores := subscore c |}.

End Scorer.
End QualityScorer.

(* ===================================================================== *)
(** ** Vocabulary of the statements *)

Section Vocabulary.
Context {P : Platform}.

(** The [url] a request carries, when its body can be read at all. *)
Definition url_of (request : NextRequest) : value :=
  match req_json request with
  | Normal body => get_opt (Some body) "url"
  | Throw _ => undefined
  end.

(** A url the two scrape entry points let through: present (truthy) and
    accepted by the URL constructor. *)
Definition acceptable (u : value) : bool :=
  truthy u && match new_URL u with
              | Normal _ => true
              | Throw _ => false
              end.

(** The requests a handler sent to the Python API. *)
Definition forwarded (r : completion HttpResponse * list call) : list FetchRequest :=
  flat_map (fun c => match c with Fetched q => [q] | Streamed _ => [] end) (snd r).

(** The calls a handler made to the text-generation model. *)
Definition prompted (r : completion HttpResponse * list call) : list StreamTextArgs :=
  flat_map (fun c => match c with Streamed a => [a] | Fetched _ => [] end) (snd r).

(** The request [ScrapeRoute.POST] sends for a url and a page budget. *)
Definition scrape_call (u maxPages : value) : FetchRequest :=
  {| fetch_url := PYTHON_API_URL ++ "/scrape";
     fetch_method := "POST";
     fetch_headers := [("Content-Type", "application/json")];
     fetch_body := Some (JSON_object [("url", u); ("max_pages", maxPages)]) |}.

(** The request [TestScrapeRoute.POST] sends for a url and instructions. *)
Definition test_scrape_call (u customInstructions : value) : FetchRequest :=
  {| fetch_url := PYTHON_API_URL ++ "/test-scrape";
     fetch_method := "POST";
     fetch_headers := [("Content-Type", "application/json")];
     fetch_body :=
       Some (JSON_object [("url", u);
                          ("custom_instructions",
                           or_else customInstructions (Some JNull))]) |}.

(** The requests of the job handlers and of the export handler. *)
Definition job_call (method jobId : string) : FetchRequest :=
  {| fetch_url := PYTHON_API_URL ++ "/scrape/" ++ jobId;
     fetch_method := method;
     fetch_headers := [("Content-Type", "application/json")];
     fetch_body := None |}.

Definition export_call (jobId format : string) : FetchRequest :=
  {| fetch_url := PYTHON_API_URL ++ "/export/" ++ jobId ++ "/" ++ format;
     fetch_method := "GET";
     fetch_headers := [];
     fetch_body := None |}.

(** The document in the body of an outbound request ([null] when it has none). *)
Definition body_of (q : FetchRequest) : json :=
  match fetch_body q with
  | Some j => j
  | None => JNull
  end.

(** A JSON error response: [{ error: msg }] with the given status. *)
Definition error_response (code : Z) (r : HttpResponse) : Prop :=
  exists msg, r = NextResponse_json (JObj [("error", JStr msg)]) code.

(** The body of a JSON response carries an [error] string. *)
Definition carries_error (r : HttpResponse) : Prop :=
  exists props msg, payload r = JsonBody (JObj props) /\ lookup "error" props = Some (JStr msg).

(** A JSON error response of the chat handler: the JSON content type, an
    [error] string in the body, and status 400 or 500. *)
Definition json_error (r : HttpResponse) : Prop :=
  headers r = [("Content-Type", "application/json")]
  /\ carries_error r
  /\ (status r = 400 \/ status r = 500).

(** The call the chat handler makes to the model for a request body. *)
Definition chat_call (body : json) (prompt : string) : StreamTextArgs :=
  {| model := "gemini-2.0-flash-exp";
     system := prompt;
     messages := get_opt (Some body) "messages";
     temperature := (7 # 10)%Q;
     maxTokens := 1000 |}.

(** The status document a poll gets to read: the reply arrived, was [ok]
    and its body parsed. *)
Definition status_data (reply : completion FetchResponse) : option json :=
  match reply with
  | Normal r =>
      if ok r then
        match resp_json r with
        | Normal d => Some d
        | Throw _ => None
        end
      else None
  | Throw _ => None
  end.

(** The [status] a reply reports. *)
Definition reported_status (reply : completion FetchResponse) : value :=
  match status_data reply with
  | Some d => get_opt (Some d) "status"
  | None => undefined
  end.

(** The reported status is one of the two terminal ones. *)
Definition terminal (reply : completion FetchResponse) : bool :=
  strict_eq_str (reported_status reply) "completed"
  || strict_eq_str (reported_status reply) "error".

(** The replies on which [poll] calls [clearInterval]: a failed request, a
    completed job with a result, a job in error. *)
Definition stops (reply : completion FetchResponse) : bool :=
  match status_data reply with
  | None => true
  | Some JNull => true
  | Some d =>
      (strict_eq_str (get_opt (Some d) "status") "completed"
       && truthy (get_opt (Some d) "result"))
      || strict_eq_str (get_opt (Some d) "status") "error"
  end.

(** The times of the first [n] firings of an interval set at [c]. *)
Definition firing_times (c : Z) (n : nat) : list Z :=
  map (fun k => c + Client.POLL_MS * Z.of_nat k) (seq 1 n).

(** The interval that was set at [c] for the job [job] is still set after
    [k] firings, and the timeout with it. *)
Definition polling_on (c : Z) (job : value) (t : Client.Tab) (k : nat) : Prop :=
  (exists p, Client.pollInterval t = Some p
             /\ Client.due p = c + Client.POLL_MS * Z.of_nat (S k)
             /\ Client.job_id p = job)
  /\ Client.giveUp t = Some (c + Client.GIVE_UP_MS).

(** The page as [handleScrapeUrl] leaves it when it has set its two timers
    at time [c] for the job [job]: no status request of the run is out
    yet. *)
Definition started_at (c : Z) (job : value) (s : Client.Loop) : Prop :=
  polling_on c job (Client.tab s) 0 /\ Client.inflight s = [].

(** The timers that a schedule runs. *)
Definition timers_run (schedule : list Client.action) : nat :=
  length (filter (fun a => match a with
                           | Client.Timer => true
                           | _ => false
                           end) schedule).

(** The part of a schedule that comes before the first reply handled that
    ends the polling. *)
Fixpoint while_polling (status_reply : nat -> completion FetchResponse)
    (schedule : list Client.action) : list Client.action :=
  match schedule with
  | [] => []
  | Client.Timer :: rest => Client.Timer :: while_polling status_reply rest
  | Client.Reply n at_ms :: rest =>
      if stops (status_reply n) then []
      else Client.Reply n at_ms :: while_polling status_reply rest
  | Client.Elsewhere page :: rest => Client.Elsewhere page :: while_polling status_reply rest
  end.

End Vocabulary.

(* ===================================================================== *)
(** ** Vocabulary of the further statements *)

Section MoreVocabulary.
Context {P : Platform}.

(** The request of the health handler. *)
Definition health_call : FetchRequest :=
  {| fetch_url := PYTHON_API_URL ++ "/health";
     fetch_method := "GET";
     fetch_headers := [];
     fetch_body := None |}.

(** The request with which the page starts a job. *)
Definition start_call (test : bool) (u instructions : string) : FetchRequest :=
  {| fetch_url := Client.endpoint test;
     fetch_method := "POST";
     fetch_headers := [("Content-Type", "application/json")];
     fetch_body := Some (Client.payload test u instructions) |}.

(** The request with which the page downloads an export. *)
Definition download_call (job : string) (f : Client.Format) : FetchRequest :=
  {| fetch_url := "/api/export/" ++ job ++ "/" ++ Client.format_name f;
     fetch_method := "GET";
     fetch_headers := [];
     fetch_body := None |}.

(** A [{ error: msg }] response of a scrape entry point. *)
Definition error_with (msg : string) (code : Z) : HttpResponse :=
  NextResponse_json (JObj [("error", JStr msg)]) code.

(** No timer of the page is set. *)
Definition idle_timers (t : Client.Tab) : Prop :=
  Client.pollInterval t = None /\ Client.giveUp t = None.

(** The polls a run makes when the n-th status request gets
    [status_reply n] and at most [budget] more firings of the interval come
    before the timeout: it stops after the first reply that [stops]. *)
Fixpoint count_from (status_reply : nat -> completion FetchResponse) (budget k : nat) : nat :=
  match budget with
  | O => k
  | S budget' =>
      if stops (status_reply k) then S k
      else count_from status_reply budget' (S k)
  end.

(** The firings of the interval that come before the timeout. *)
Definition firings (interval_first : bool) : nat :=
  if interval_first then 150%nat else 149%nat.

(** The requests the page has sent when the timers have run, each reply
    handled at once, [first] being the number of the first request of the
    run. *)
Definition poll_count (status_reply : nat -> completion FetchResponse)
    (interval_first : bool) (first : nat) : nat :=
  count_from status_reply (firings interval_first) first.

End MoreVocabulary.

(* ===================================================================== *)
(** ** A concrete platform for the examples *)

Module Example.

(** A stand-in for the URL parser: it accepts what starts with a web scheme. *)
Definition web_url (s : string) : bool :=
  String.prefix "http://" s || String.prefix "https://" s.

(** A reply that is read with [json()]; its text is not given. *)
Definition reply_json (code : Z) (j : json) : completion FetchResponse :=
  Normal {| resp_status := code;
            resp_json := Normal j;
            resp_text := Throw (ThrownError (mkError "Body is unusable" None)) |}.

Definition started_reply : completion FetchResponse :=
  reply_json 200 (JObj [("job_id", JStr "job-1"); ("status", JStr "started");
                        ("message", JStr "Enhanced scraping job started successfully")]).

(** A Python API that knows the single job [job-1]; the page reaches it
    through the gateway at [/api/scrape]. *)
Definition api (r : FetchRequest) : completion FetchResponse :=
  if (fetch_url r =? "http://localhost:8000/scrape")%string then started_reply
  else if (fetch_url r =? "http://localhost:8000/test-scrape")%string then started_reply
  else if (fetch_url r =? "/api/scrape")%string then started_reply
  else if (fetch_url r =? "http://localhost:8000/scrape/job-1")%string then
    reply_json 200 (JObj [("job_id", JStr "job-1"); ("status", JStr "running");
                          ("progress", JNum 40); ("message", JStr "Scraping page 2")])
  else if (fetch_url r =? "http://localhost:8000/export/job-1/json")%string then
    Normal {| resp_status := 200; resp_json := Normal (JObj []); resp_text := Normal "{}" |}
  else if (fetch_url r =? "http://localhost:8000/export/job-1/csv")%string then
    Normal {| resp_status := 200;
              resp_json := Throw (ThrownError (mkError "Unexpected token u in JSON" None));
              resp_text := Normal "url,title" |}
  else reply_json 404 (JObj [("detail", JStr "Job not found")]).

(** A Python API that is down. *)
Definition unavailable (r : FetchRequest) : completion FetchResponse :=
  reply_json 503 (JObj [("detail", JStr "Service unavailable")]).

(** A header value without NUL, CR or LF (the strings of the examples
    have no character above U+00FF). *)
Fixpoint plain_header (s : string) : bool :=
  match s with
  | EmptyString => true
  | String c rest =>
      negb (existsb (Ascii.eqb c) [ascii_of_nat 0; ascii_of_nat 10; ascii_of_nat 13])
      && plain_header rest
  end.

(** A job id with a line feed in it, as the path segment [job%0A1] decodes. *)
Definition two_lines : string := "job" ++ String (ascii_of_nat 10) "1".

Definition platform (net : FetchRequest -> completion FetchResponse)
    (key : option string) : Platform :=
  {| URL_parses := web_url;
     TypeError_invalid_URL := mkError "Invalid URL" None;
     TypeError_nullish := mkError "Cannot read properties of null" None;
     TypeError_not_primitive := mkError "Cannot convert object to primitive value" None;
     Number_toString := fun n => NilZero.string_of_int (Z.to_int n);
     capture_stack := fun _ => None;
     env := fun name =>
              if (name =? "GOOGLE_GENERATIVE_AI_API_KEY")%string then key else None;
     network := net;
     streamText := fun _ => Normal (Stream ["Hello"]);
     toDataStreamResponse := fun r =>
       Normal {| status := 200;
                 headers := [("Content-Type", "text/plain; charset=utf-8")];
                 payload := StreamBody r |};
     String_trim := fun s => s;
     Date_toISOString := fun t => NilZero.string_of_int (Z.to_int t);
     header_value_ok := plain_header;
     TypeError_invalid_header := mkError "Invalid header value" None |}.

(** The API is up and the model key is set. *)
Definition online : Platform := platform api (Some "key").

(** The API is down. *)
Definition offline : Platform := platform unavailable (Some "key").


(** A Python API that exports whatever job it is asked for. *)
Definition exports_all (r : FetchRequest) : completion FetchResponse :=
  Normal {| resp_status := 200;
            resp_json := Throw (ThrownError (mkError "Unexpected token u in JSON" None));
            resp_text := Normal "url,title" |}.

Definition exporting : Platform := platform exports_all (Some "key").

Definition request_of (j : json) : NextRequest := {| req_json := Normal j |}.

(** What the page sends for a full scrape with instructions typed in. *)
Definition scrape_with_instructions : NextRequest :=
  request_of (Client.payload false "https://example.com"
                             "Extract product names and prices").

(** A request with a page budget and no url. *)
Definition no_url : NextRequest := request_of (JObj [("maxPages", JNum 3)]).

(** A chat about scraped content, one without content, one that is not a chat. *)
Definition chat_about (content : json) : NextRequest :=
  request_of (JObj [("messages", JArr [JObj [("role", JStr "user");
                                             ("content", JStr "What is this about?")]]);
                    ("scrapedContent", content)]).

Definition chat_without_messages : NextRequest :=
  request_of (JObj [("scrapedContent", JStr "Example text")]).

(** A request with a url and nothing else. *)
Definition url_only : NextRequest :=
  request_of (JObj [("url", JStr "https://example.com")]).

(** A request whose body is empty: [request.json()] rejects. *)
Definition empty_request : NextRequest :=
  {| req_json := Throw (ThrownError (mkError "Unexpected end of JSON input" None)) |}.

(** The status replies of a job that reports [completed] without a result. *)
Definition completed_without_result (n : nat) : completion FetchResponse :=
  reply_json 200 (JObj [("status", JStr "completed"); ("progress", JNum 100);
                        ("message", JStr "Successfully scraped 3 pages")]).

Definition result_doc : json :=
  JObj [("url", JStr "https://example.com"); ("title", JStr "Example Domain");
        ("cleanedContent", JStr "Example text"); ("wordCount", JNum 2);
        ("qualityScore", JNum 85)].

(** A job that runs for two polls and is completed at the third. *)
Definition completes_at_third (n : nat) : completion FetchResponse :=
  match n with
  | 0%nat | 1%nat =>
      reply_json 200 (JObj [("status", JStr "running"); ("progress", JNum 40);
                            ("message", JStr "Scraping page 2")])
  | _ =>
      reply_json 200 (JObj [("status", JStr "completed"); ("progress", JNum 100);
                            ("message", JStr "Successfully scraped 3 pages");
                            ("result", result_doc)])
  end.

(** The tab after "Process All" was clicked on a url, the API being up. *)
Definition started_tab : Client.Tab :=
  snd (@Client.handleScrapeUrl online false (Client.fresh "https://example.com" "")).

(** That page with no status request unanswered. *)
Definition started_loop : Client.Loop := Client.mkLoop started_tab [].

(** Replies that take longer than the interval: the second request is out
    before the first reply is handled, the user clears the page at 5000 ms,
    the third reply is handled before the second one, and the timeout runs
    at the end. *)
Definition late_replies : list Client.action :=
  [Client.Timer; Client.Timer; Client.Reply 0 4500;
   Client.Elsewhere (Client.set_clock 5000 (Client.fresh "" ""));
   Client.Timer; Client.Reply 2 6500; Client.Reply 1 7000; Client.Timer].

(** A job whose root page cannot be fetched. *)
Definition fails_at_once (n : nat) : completion FetchResponse :=
  reply_json 200 (JObj [("status", JStr "error"); ("progress", JNum 0);
                        ("message", JStr "Timeout fetching https://example.com")]).

(** A Python API whose health endpoint answers, but not [ok]. *)
Definition unhealthy (r : FetchRequest) : completion FetchResponse :=
  reply_json 503 (JObj [("detail", JStr "Service unavailable")]).

(** A Python API that cannot be reached. *)
Definition unreachable (r : FetchRequest) : completion FetchResponse :=
  Throw (ThrownError (mkError "fetch failed" None)).

Definition cut_off : Platform := platform unreachable (Some "key").

(** A job that never leaves the running state. *)
Definition keeps_running (n : nat) : completion FetchResponse :=
  reply_json 200 (JObj [("status", JStr "running"); ("progress", JNum 40);
                        ("message", JStr "Scraping page 2")]).

(** A scrape request with a page budget of its own. *)
Definition with_budget : NextRequest :=
  request_of (JObj [("url", JStr "https://example.com"); ("maxPages", JNum 3)]).

(** The gateway as the page sees it: it starts jobs and exports [job-1] as
    CSV. *)
Definition gateway (r : FetchRequest) : completion FetchResponse :=
  if (fetch_url r =? "/api/scrape")%string then started_reply
  else if (fetch_url r =? "/api/export/job-1/csv")%string then
    Normal {| resp_status := 200;
              resp_json := Throw (ThrownError (mkError "Unexpected token u in JSON" None));
              resp_text := Normal "url,title" |}
  else reply_json 404 (JObj [("error", JStr "Job not found")]).

(** The browser of the page, on the 15th of January 2024. *)
Definition browser : Platform :=
  {| URL_parses := web_url;
     TypeError_invalid_URL := mkError "Invalid URL" None;
     TypeError_nullish := mkError "Cannot read properties of null" None;
     TypeError_not_primitive := mkError "Cannot convert object to primitive value" None;
     Number_toString := fun n => NilZero.string_of_int (Z.to_int n);
     capture_stack := fun _ => None;
     env := fun _ => None;
     network := gateway;
     streamText := fun _ => Normal (Stream ["Hello"]);
     toDataStreamResponse := fun r =>
       Normal {| status := 200;
                 headers := [("Content-Type", "text/plain; charset=utf-8")];
                 payload := StreamBody r |};
     String_trim := fun s => s;
     Date_toISOString := fun _ => "2024-01-15T10:30:00.000Z";
     header_value_ok := plain_header;
     TypeError_invalid_header := mkError "Invalid header value" None |}.

(** The tab once the third poll has recorded the result. *)
Definition finished_tab : Client.Tab :=
  @Client.run_timers online completes_at_third true 200 started_tab.

End Example.

(* ===================================================================== *)
(** ** Properties *)

Section BasicFacts.
Context {P : Platform}.

Lemma get_truthy (v : value) (k : string) :
  truthy v = true -> get v k = Normal (get_opt v k).
Proof.
  destruct v as [j|]; [destruct j|]; simpl; intros H;
    try discriminate; reflexivity.
Qed.

Lemma json_eq_null (j : json) : {j = JNull} + {j <> JNull}.
Proof. destruct j; (now left) || (right; discriminate). Qed.

Lemma get_not_null (body : json) (k : string) :
  body <> JNull -> get (Some body) k = Normal (get_opt (Some body) k).
Proof.
  destruct body; simpl; intros H; try reflexivity.
  now contradiction H.
Qed.

Lemma or_else_truthy (a b : value) :
  truthy b = true -> truthy (or_else a b) = true.
Proof.
  unfold or_else. destruct (truthy a) eqn:E; auto.
Qed.

Lemma truthy_some (v : value) :
  truthy v = true -> exists j, v = Some j.
Proof.
  destruct v as [j|]; simpl; intros H; [eauto | discriminate].
Qed.

(** The scrape entry point, case by case on what it receives. *)
Lemma scrape_POST_unreadable (request : NextRequest) (t : thrown) :
  req_json request = Throw t ->
  run (ScrapeRoute.POST request)
  = (Normal (NextResponse_json
               (JObj [("error", JStr (message_or t "Failed to scrape URL"))]) 500), []).
Proof.
  intros H. unfold run, ScrapeRoute.POST, try_catch, bind, await.
  rewrite H. reflexivity.
Qed.

Lemma scrape_POST_null (request : NextRequest) :
  req_json request = Normal JNull ->
  run (ScrapeRoute.POST request)
  = (Normal (NextResponse_json
               (JObj [("error", JStr (message TypeError_nullish))]) 500), []).
Proof.
  intros H. unfold run, ScrapeRoute.POST, try_catch, bind, await.
  rewrite H. reflexivity.
Qed.

Lemma scrape_destructure (body : json) :
  body <> JNull ->
  ScrapeRoute.destructure body
  = Normal (get_opt (Some body) "url",
            match get_opt (Some body) "maxPages" with
            | None => Some (JNum 5)
            | Some m => Some m
            end).
Proof.
  intros H. unfold ScrapeRoute.destructure.
  rewrite !get_not_null by assumption.
  destruct (get_opt (Some body) "maxPages"); reflexivity.
Qed.

Lemma scrape_POST_readable (request : NextRequest) (body : json) :
  req_json request = Normal body -> body <> JNull ->
  run (ScrapeRoute.POST request)
  = let u := get_opt (Some body) "url" in
    let m := match get_opt (Some body) "maxPages" with
             | None => Some (JNum 5)
             | Some m => Some m
             end in
    if negb (truthy u) then
      (Normal (NextResponse_json (JObj [("error", JStr "URL is required")]) 400), [])
    else
      match new_URL u with
      | Normal _ =>
          run (try_catch (ScrapeRoute.start_job u m)
                 (fun e => ret (NextResponse_json
                                  (JObj [("error", JStr (message_or e "Failed to scrape URL"))])
                                  500)))
      | Throw _ =>
          (Normal (NextResponse_json (JObj [("error", JStr "Invalid URL format")]) 400), [])
      end.
Proof.
  intros H Hn. unfold run, ScrapeRoute.POST, try_catch, bind, await.
  rewrite H, (scrape_destructure _ Hn). cbv zeta.
  destruct (truthy (get_opt (Some body) "url")); cbn [negb]; [|reflexivity].
  destruct (new_URL _) as [[]|]; reflexivity.
Qed.

(** What the scrape entry point answers once the Python API has been
    called: its document when it is [ok] and parses, an error otherwise. *)
Lemma scrape_start_job (u m : value) :
  exists resp,
    run (try_catch (ScrapeRoute.start_job u m)
           (fun e => ret (NextResponse_json
                            (JObj [("error", JStr (message_or e "Failed to scrape URL"))]) 500)))
    = (Normal resp, [Fetched (scrape_call u m)])
    /\ match network (scrape_call u m) with
       | Normal r =>
           if ok r then
             match resp_json r with
             | Normal data => resp = NextResponse_json data 200
             | Throw _ => error_response 500 resp
             end
           else error_response 500 resp
       | Throw _ => error_response 500 resp
       end.
Proof.
  unfold run, ScrapeRoute.start_job, try_catch, bind, await, fetch, throw, ret.
  fold (scrape_call u m). simpl app.
  destruct (network (scrape_call u m)) as [r|e];
    [|eexists; split; [reflexivity | eexists; reflexivity]].
  destruct (ok r); cbn [negb].
  - destruct (resp_json r); eexists; (split; [reflexivity|]);
      [reflexivity | eexists; reflexivity].
  - destruct (get (Some (json_or_empty r)) "detail") as [d|];
      [destruct (new_Error _)|];
      eexists; (split; [reflexivity | eexists; reflexivity]).
Qed.

(** The test entry point, case by case in the same way. *)
Lemma test_POST_unreadable (request : NextRequest) (t : thrown) :
  req_json request = Throw t ->
  run (TestScrapeRoute.POST request)
  = (Normal (NextResponse_json
               (JObj [("error", JStr (message_or t "Failed to start test scrape"))]) 500), []).
Proof.
  intros H. unfold run, TestScrapeRoute.POST, try_catch, bind, await.
  rewrite H. reflexivity.
Qed.

Lemma test_POST_null (request : NextRequest) :
  req_json request = Normal JNull ->
  run (TestScrapeRoute.POST request)
  = (Normal (NextResponse_json
               (JObj [("error", JStr (message TypeError_nullish))]) 500), []).
Proof.
  intros H. unfold run, TestScrapeRoute.POST, try_catch, bind, await.
  rewrite H. reflexivity.
Qed.

Lemma test_destructure (body : json) :
  body <> JNull ->
  TestScrapeRoute.destructure body
  = Normal (get_opt (Some body) "url", get_opt (Some body) "customInstructions").
Proof.
  intros H. unfold TestScrapeRoute.destructure.
  rewrite !get_not_null by assumption. reflexivity.
Qed.

Lemma test_POST_readable (request : NextRequest) (body : json) :
  req_json request = Normal body -> body <> JNull ->
  run (TestScrapeRoute.POST request)
  = let u := get_opt (Some body) "url" in
    let c := get_opt (Some body) "customInstructions" in
    if negb (truthy u) then
      (Normal (NextResponse_json (JObj [("error", JStr "URL is required")]) 400), [])
    else
      match new_URL u with
      | Normal _ =>
          run (try_catch (TestScrapeRoute.start_job u c)
                 (fun e => ret (NextResponse_json
                                  (JObj [("error",
                                          JStr (message_or e "Failed to start test scrape"))])
                                  500)))
      | Throw _ =>
          (Normal (NextResponse_json (JObj [("error", JStr "Invalid URL format")]) 400), [])
      end.
Proof.
  intros H Hn. unfold run, TestScrapeRoute.POST, try_catch, bind, await.
  rewrite H, (test_destructure _ Hn). cbv zeta.
  destruct (truthy (get_opt (Some body) "url")); cbn [negb]; [|reflexivity].
  destruct (new_URL _) as [[]|]; reflexivity.
Qed.

Lemma test_start_job (u c : value) :
  exists resp,
    run (try_catch (TestScrapeRoute.start_job u c)
           (fun e => ret (NextResponse_json
                            (JObj [("error", JStr (message_or e "Failed to start test scrape"))])
                            500)))
    = (Normal resp, [Fetched (test_scrape_call u c)])
    /\ match network (test_scrape_call u c) with
       | Normal r =>
           if ok r then
             match resp_json r with
             | Normal data => resp = NextResponse_json data 200
             | Throw _ => error_response 500 resp
             end
           else error_response 500 resp
       | Throw _ => error_response 500 resp
       end.
Proof.
  unfold run, TestScrapeRoute.start_job, try_catch, bind, await, fetch, throw, ret.
  fold (test_scrape_call u c). simpl app.
  destruct (network (test_scrape_call u c)) as [r|e];
    [|eexists; split; [reflexivity | eexists; reflexivity]].
  destruct (ok r); cbn [negb].
  - destruct (resp_json r); eexists; (split; [reflexivity|]);
      [reflexivity | eexists; reflexivity].
  - destruct (get (Some (json_or_empty r)) "detail") as [d|];
      [destruct (new_Error _)|];
      eexists; (split; [reflexivity | eexists; reflexivity]).
Qed.

End BasicFacts.

(* ===================================================================== *)
(** ** The scrape and test-scrape entry points *)

Section EntryPoints.
Context {P : Platform}.

(** What the scrape entry point forwards: one request when the url is
    acceptable, none otherwise. *)
Lemma scrape_forwarded (request : NextRequest) :
  forwarded (run (ScrapeRoute.POST request))
  = match req_json request with
    | Normal body =>
        if acceptable (get_opt (Some body) "url")
        then [scrape_call (get_opt (Some body) "url")
                          (match get_opt (Some body) "maxPages" with
                           | None => Some (JNum 5)
                           | Some m => Some m
                           end)]
        else []
    | Throw _ => []
    end.
Proof.
  destruct (req_json request) as [body|t] eqn:E.
  - destruct (json_eq_null body) as [->|Hn].
    + rewrite (scrape_POST_null _ E). reflexivity.
    + rewrite (scrape_POST_readable _ _ E Hn). cbv zeta. unfold acceptable.
      destruct (truthy _); cbn [negb andb]; [|reflexivity].
      destruct (new_URL _); [|reflexivity].
      match goal with
      | |- context [ScrapeRoute.start_job ?u ?m] =>
          destruct (scrape_start_job u m) as [resp [-> _]]
      end.
      reflexivity.
  - rewrite (scrape_POST_unreadable _ _ E). reflexivity.
Qed.

Lemma test_forwarded (request : NextRequest) :
  forwarded (run (TestScrapeRoute.POST request))
  = match req_json request with
    | Normal body =>
        if acceptable (get_opt (Some body) "url")
        then [test_scrape_call (get_opt (Some body) "url")
                               (get_opt (Some body) "customInstructions")]
        else []
    | Throw _ => []
    end.
Proof.
  destruct (req_json request) as [body|t] eqn:E.
  - destruct (json_eq_null body) as [->|Hn].
    + rewrite (test_POST_null _ E). reflexivity.
    + rewrite (test_POST_readable _ _ E Hn). cbv zeta. unfold acceptable.
      destruct (truthy _); cbn [negb andb]; [|reflexivity].
      destruct (new_URL _); [|reflexivity].
      match goal with
      | |- context [TestScrapeRoute.start_job ?u ?c] =>
          destruct (test_start_job u c) as [resp [-> _]]
      end.
      reflexivity.
  - rewrite (test_POST_unreadable _ _ E). reflexivity.
Qed.

(** C2 (as amended).  A scrape or test-scrape request without an acceptable
    url (absent or falsy, or rejected by the URL constructor) is never
    forwarded to the Python API.  When the body is a JSON value other than
    [null] the answer is HTTP 400 with an error message; when the body cannot
    be parsed, or is [null], the answer is HTTP 500 with an error message. *)
Theorem unacceptable_url_not_forwarded (request : NextRequest) :
  acceptable (url_of request) = false ->
  forwarded (run (ScrapeRoute.POST request)) = []
  /\ forwarded (run (TestScrapeRoute.POST request)) = []
  /\ (forall body, req_json request = Normal body -> body <> JNull ->
      exists r1 r2,
        fst (run (ScrapeRoute.POST request)) = Normal r1 /\ error_response 400 r1
        /\ fst (run (TestScrapeRoute.POST request)) = Normal r2 /\ error_response 400 r2)
  /\ ((req_json request = Normal JNull \/ exists t, req_json request = Throw t) ->
      exists r1 r2,
        fst (run (ScrapeRoute.POST request)) = Normal r1 /\ error_response 500 r1
        /\ fst (run (TestScrapeRoute.POST request)) = Normal r2 /\ error_response 500 r2).
Proof.
  intros H. repeat split.
  - rewrite scrape_forwarded. unfold url_of in H.
    destruct (req_json request); [rewrite H|]; reflexivity.
  - rewrite test_forwarded. unfold url_of in H.
    destruct (req_json request); [rewrite H|]; reflexivity.
  - intros body E Hn. unfold url_of in H. rewrite E in H.
    rewrite (scrape_POST_readable _ _ E Hn), (test_POST_readable _ _ E Hn).
    cbv zeta. unfold acceptable in H.
    destruct (truthy (get_opt (Some body) "url")); cbn [negb andb] in *.
    + destruct (new_URL _); [discriminate H|].
      do 2 eexists. repeat split; eexists; reflexivity.
    + do 2 eexists. repeat split; eexists; reflexivity.
  - intros [E|[t E]].
    + rewrite (scrape_POST_null _ E), (test_POST_null _ E).
      do 2 eexists. repeat split; eexists; reflexivity.
    + rewrite (scrape_POST_unreadable _ _ E), (test_POST_unreadable _ _ E).
      do 2 eexists. repeat split; eexists; reflexivity.
Qed.

(** C9.  A scrape request that omits the page budget (the [maxPages] field
    the gateway reads) is forwarded with [max_pages = 5]: every request sent
    to the Python API carries it, and one is sent when the url is acceptable. *)
Theorem default_max_pages (request : NextRequest) :
  (forall body, req_json request = Normal body ->
                get_opt (Some body) "maxPages" = undefined) ->
  (forall q, In q (forwarded (run (ScrapeRoute.POST request))) ->
             get_opt (Some (body_of q)) "max_pages" = Some (JNum 5))
  /\ (acceptable (url_of request) = true ->
      forwarded (run (ScrapeRoute.POST request))
      = [scrape_call (url_of request) (Some (JNum 5))]).
Proof.
  intros H. rewrite scrape_forwarded. unfold url_of.
  destruct (req_json request) as [body|t] eqn:E.
  - rewrite (H body eq_refl). split.
    + destruct (acceptable _) eqn:A; [|intros q []].
      intros q [<-|[]].
      unfold acceptable in A. apply andb_prop in A as [T _].
      apply truthy_some in T as [j ->]. reflexivity.
    + intros ->. reflexivity.
  - split; [intros q []|discriminate].
Qed.

(** C1 (what the code does).  No request the scrape entry point sends to
    the Python API has a [custom_instructions] property, whatever the client
    supplied: its body is exactly the url and the page budget. *)
Theorem scrape_forwards_no_instructions (request : NextRequest) (q : FetchRequest) :
  In q (forwarded (run (ScrapeRoute.POST request))) ->
  get_opt (Some (body_of q)) "custom_instructions" = undefined
  /\ exists u m, body_of q = JObj [("url", u); ("max_pages", m)].
Proof.
  rewrite scrape_forwarded.
  destruct (req_json request) as [body|t]; [|intros []].
  destruct (acceptable _) eqn:A; [|intros []].
  intros [<-|[]].
  unfold acceptable in A. apply andb_prop in A as [T _].
  apply truthy_some in T as [j Hj]. rewrite Hj.
  destruct (get_opt (Some body) "maxPages") as [m|];
    (split; [reflexivity | do 2 eexists; reflexivity]).
Qed.

(** C6 (as amended).  A test-scrape request with an acceptable url is
    forwarded exactly once, to the single-page test service, with a body
    made of that url and of the supplied instructions ([null] when they are
    absent or falsy).  When the service answers with an [ok] status and a
    JSON document, the caller gets that document; when the service answers
    with another status, the caller gets HTTP 500 with an error message. *)
Theorem test_scrape_forwards_once (request : NextRequest) (body : json) :
  req_json request = Normal body ->
  acceptable (get_opt (Some body) "url") = true ->
  let u := get_opt (Some body) "url" in
  let c := get_opt (Some body) "customInstructions" in
  forwarded (run (TestScrapeRoute.POST request)) = [test_scrape_call u c]
  /\ fetch_url (test_scrape_call u c) = (PYTHON_API_URL ++ "/test-scrape")%string
  /\ (exists ju, u = Some ju
       /\ body_of (test_scrape_call u c)
          = JObj [("url", ju);
                  ("custom_instructions",
                   match c with
                   | Some jc => if truthy c then jc else JNull
                   | None => JNull
                   end)])
  /\ (forall r data,
        network (test_scrape_call u c) = Normal r -> ok r = true ->
        resp_json r = Normal data ->
        fst (run (TestScrapeRoute.POST request)) = Normal (NextResponse_json data 200))
  /\ (forall r,
        network (test_scrape_call u c) = Normal r -> ok r = false ->
        exists resp, fst (run (TestScrapeRoute.POST request)) = Normal resp
                     /\ error_response 500 resp).
Proof.
  intros E A u c.
  assert (Hn : body <> JNull) by (intros ->; discriminate A).
  pose proof (test_POST_readable _ _ E Hn) as R. cbv zeta in R.
  fold u c in R. unfold acceptable in A. fold u in A.
  apply andb_prop in A as [T U]. rewrite T in R. cbn [negb] in R.
  destruct (new_URL u) eqn:N; [clear U | discriminate U].
  destruct (test_start_job u c) as [resp [S X]]. rewrite S in R.
  split; [rewrite test_forwarded, E; unfold acceptable; fold u c; rewrite T, N; reflexivity|].
  split; [reflexivity|]. split.
  - destruct (truthy_some _ T) as [ju Hu]. exists ju. split; [assumption|].
    unfold test_scrape_call, body_of, JSON_object. cbn [fetch_body]. rewrite Hu.
    unfold or_else. destruct c as [jc|]; [destruct (truthy (Some jc))|]; reflexivity.
  - rewrite R. cbn [fst]. split.
    + intros r data Hr O J. rewrite Hr, O, J in X. now rewrite X.
    + intros r Hr O. rewrite Hr, O in X. exists resp. split; [reflexivity | exact X].
Qed.

End EntryPoints.

(** Witness of C2: a request with a page budget and no url. *)
Lemma unacceptable_url_not_forwarded_witness :
  @acceptable Example.online (url_of Example.no_url) = false
  /\ forwarded (run (@ScrapeRoute.POST Example.online Example.no_url)) = []
  /\ forwarded (run (@TestScrapeRoute.POST Example.online Example.no_url)) = [].
Proof.
  split; [reflexivity|].
  pose proof (@unacceptable_url_not_forwarded Example.online Example.no_url eq_refl)
    as [H1 [H2 _]].
  split; assumption.
Defined.

(** Counterexample to C2 as stated: a request with an empty body, and one
    whose body is [null], lack a url, and both entry points answer them with
    HTTP 500, not 400 (nothing is forwarded). *)
Lemma empty_body_gets_500 :
  url_of Example.empty_request = undefined
  /\ run (@ScrapeRoute.POST Example.online Example.empty_request)
     = (Normal (NextResponse_json
                  (JObj [("error", JStr "Unexpected end of JSON input")]) 500), [])
  /\ run (@TestScrapeRoute.POST Example.online Example.empty_request)
     = (Normal (NextResponse_json
                  (JObj [("error", JStr "Unexpected end of JSON input")]) 500), [])
  /\ url_of (Example.request_of JNull) = undefined
  /\ run (@ScrapeRoute.POST Example.online (Example.request_of JNull))
     = (Normal (NextResponse_json
                  (JObj [("error", JStr "Cannot read properties of null")]) 500), [])
  /\ run (@TestScrapeRoute.POST Example.online (Example.request_of JNull))
     = (Normal (NextResponse_json
                  (JObj [("error", JStr "Cannot read properties of null")]) 500), []).
Proof. repeat split. Qed.

(** Witness of C9: a request with a url and nothing else. *)
Lemma default_max_pages_witness :
  forwarded (run (@ScrapeRoute.POST Example.online Example.url_only))
  = [@scrape_call Example.online (Some (JStr "https://example.com")) (Some (JNum 5))].
Proof.
  apply (@default_max_pages Example.online Example.url_only).
  - intros body E. injection E as <-. reflexivity.
  - reflexivity.
Defined.

(** Witness of C1, at the failing input: the page sends its instructions
    with a full scrape; the scrape entry point forwards the url and the page
    budget only, where the test entry point forwards the instructions. *)
Lemma scrape_forwards_no_instructions_witness :
  map body_of (forwarded (run (@ScrapeRoute.POST Example.online
                                 Example.scrape_with_instructions)))
  = [JObj [("url", JStr "https://example.com"); ("max_pages", JNum 5)]]
  /\ map body_of (forwarded (run (@TestScrapeRoute.POST Example.online
                                    Example.scrape_with_instructions)))
     = [JObj [("url", JStr "https://example.com");
              ("custom_instructions", JStr "Extract product names and prices")]]
  /\ get_opt (Some (body_of (@scrape_call Example.online
                               (Some (JStr "https://example.com")) (Some (JNum 5)))))
             "custom_instructions" = undefined.
Proof.
  split; [reflexivity|]. split; [reflexivity|].
  apply (@scrape_forwards_no_instructions Example.online
           Example.scrape_with_instructions).
  left. reflexivity.
Defined.

(** Witness of C6: the API is up and answers the test scrape with a job. *)
Lemma test_scrape_forwards_once_witness :
  forwarded (run (@TestScrapeRoute.POST Example.online Example.url_only))
  = [@test_scrape_call Example.online (Some (JStr "https://example.com")) undefined]
  /\ fst (run (@TestScrapeRoute.POST Example.online Example.url_only))
     = Normal (NextResponse_json
                 (JObj [("job_id", JStr "job-1"); ("status", JStr "started");
                        ("message", JStr "Enhanced scraping job started successfully")])
                 200).
Proof.
  pose proof (@test_scrape_forwards_once Example.online Example.url_only
                (JObj [("url", JStr "https://example.com")]) eq_refl eq_refl)
    as [H1 [_ [_ [H4 _]]]].
  split; [exact H1|].
  eapply H4; reflexivity.
Defined.

(** Counterexample to C6 as stated: the url is acceptable and the service
    answers 503 with a JSON document; the caller does not get that document
    but HTTP 500 with the detail as an error message. *)
Lemma test_scrape_failure_not_relayed :
  @acceptable Example.offline (url_of Example.url_only) = true
  /\ @network Example.offline
       (@test_scrape_call Example.offline (Some (JStr "https://example.com")) undefined)
     = Example.reply_json 503 (JObj [("detail", JStr "Service unavailable")])
  /\ fst (run (@TestScrapeRoute.POST Example.offline Example.url_only))
     = Normal (NextResponse_json (JObj [("error", JStr "Service unavailable")]) 500).
Proof. repeat split. Qed.

(* ===================================================================== *)
(** ** The job handlers and the export handler *)

Section JobHandlers.
Context {P : Platform}.

Lemma not_ok_404 (r : FetchResponse) : resp_status r = 404 -> ok r = false.
Proof. unfold ok. intros ->. reflexivity. Qed.

(** C7.  When the Python API answers a status request or a deletion with
    404 (the job id is unknown to it), the gateway answers HTTP 404 with the
    error message "Job not found". *)
Theorem unknown_job_not_found (jobId : string) (r : FetchResponse) :
  resp_status r = 404 ->
  (network (job_call "GET" jobId) = Normal r ->
   run (JobRoute.GET jobId)
   = (Normal (NextResponse_json (JObj [("error", JStr "Job not found")]) 404),
      [Fetched (job_call "GET" jobId)]))
  /\ (network (job_call "DELETE" jobId) = Normal r ->
      run (JobRoute.DELETE jobId)
      = (Normal (NextResponse_json (JObj [("error", JStr "Job not found")]) 404),
         [Fetched (job_call "DELETE" jobId)])).
Proof.
  intros S. pose proof (not_ok_404 _ S) as O. split; intros N.
  - unfold run, JobRoute.GET, try_catch, bind, fetch.
    fold (job_call "GET" jobId). rewrite N, O, S. reflexivity.
  - unfold run, JobRoute.DELETE, try_catch, bind, fetch.
    fold (job_call "DELETE" jobId). rewrite N, O, S. reflexivity.
Qed.

Lemma known_format_spec (format : string) :
  ExportRoute.known_format format = true <-> format = "json" \/ format = "csv".
Proof.
  unfold ExportRoute.known_format. cbn [existsb]. rewrite !orb_true_iff, !String.eqb_eq.
  intuition (try discriminate; auto).
Qed.

(** C10.  An export in a format other than "json" or "csv" is rejected with
    HTTP 400 and no call to the Python API.  For "json" and "csv", when the
    API answers [ok] and its body can be read, the handler builds the
    response with Content-Type application/json, respectively text/csv, and
    a Content-Disposition attachment whose file name is made of the job id
    and the extension of the format: that is the response when [Headers]
    takes these values, and otherwise (a job id with a line feed in it) the
    constructor throws and the answer is HTTP 500 with the message of its
    error.  So every successful response, one with status 200, is to a
    known format and carries exactly these headers. *)
Theorem export_by_format (jobId format : string) :
  let hs := [("Content-Type",
              if (format =? "json")%string then "application/json" else "text/csv");
             ("Content-Disposition",
              "attachment; filename=scrape_results_" ++ jobId ++ "." ++ format)] in
  (format <> "json" -> format <> "csv" ->
   run (ExportRoute.GET jobId format)
   = (Normal (NextResponse_json
                (JObj [("error", JStr "Invalid format. Use 'json' or 'csv'")]) 400), []))
  /\ (forall r data,
        format = "json" \/ format = "csv" ->
        network (export_call jobId format) = Normal r -> ok r = true ->
        resp_text r = Normal data ->
        (forallb (fun h => header_value_ok (snd h)) hs = true ->
         run (ExportRoute.GET jobId format)
         = (Normal {| status := 200; headers := hs; payload := TextBody data |},
            [Fetched (export_call jobId format)]))
        /\ (forallb (fun h => header_value_ok (snd h)) hs = false ->
            run (ExportRoute.GET jobId format)
            = (Normal (NextResponse_json
                         (JObj [("error", JStr (message TypeError_invalid_header))]) 500),
               [Fetched (export_call jobId format)])))
  /\ (forall resp,
        fst (run (ExportRoute.GET jobId format)) = Normal resp -> status resp = 200 ->
        (format = "json" \/ format = "csv") /\ headers resp = hs).
Proof.
  intros hs. split; [|split].
  - intros H1 H2. unfold run, ExportRoute.GET, try_catch.
    destruct (ExportRoute.known_format format) eqn:K; [|reflexivity].
    apply known_format_spec in K as [K|K]; contradiction.
  - intros r data F N O T. unfold run, ExportRoute.GET, try_catch, bind, fetch.
    fold (export_call jobId format).
    rewrite (proj2 (known_format_spec format) F). cbn [negb].
    rewrite N, O. cbn [negb]. unfold await, new_Response. rewrite T.
    assert (E : [("Content-Type", ExportRoute.contentType format);
                 ("Content-Disposition",
                  "attachment; filename=scrape_results_" ++ jobId ++ "."
                    ++ ExportRoute.fileExtension format)] = hs)
      by (destruct F as [->| ->]; reflexivity).
    rewrite E. split; intros H; rewrite H; reflexivity.
  - intros resp. unfold run, ExportRoute.GET, try_catch, bind, fetch, await, throw, ret,
      new_Response.
    fold (export_call jobId format). cbn [app].
    destruct (ExportRoute.known_format format) eqn:K; cbn [negb fst].
    2:{ intros [= <-]. discriminate. }
    apply known_format_spec in K.
    assert (E : [("Content-Type", ExportRoute.contentType format);
                 ("Content-Disposition",
                  "attachment; filename=scrape_results_" ++ jobId ++ "."
                    ++ ExportRoute.fileExtension format)] = hs)
      by (destruct K as [->| ->]; reflexivity).
    rewrite E.
    destruct (network (export_call jobId format)) as [r|e]; cbn [fst];
      [|intros [= <-]; discriminate].
    destruct (ok r); cbn [negb].
    + destruct (resp_text r) as [data|e]; [|intros [= <-]; discriminate].
      destruct (forallb _ hs); intros [= <-]; [|discriminate].
      intros _. split; [exact K | reflexivity].
    + destruct (resp_status r =? 404); intros [= <-]; discriminate.
Qed.

End JobHandlers.

(** Witness of C7: the API knows [job-1] only. *)
Lemma unknown_job_not_found_witness :
  fst (run (@JobRoute.GET Example.online "job-2"))
  = Normal (NextResponse_json (JObj [("error", JStr "Job not found")]) 404)
  /\ fst (run (@JobRoute.DELETE Example.online "job-2"))
     = Normal (NextResponse_json (JObj [("error", JStr "Job not found")]) 404).
Proof.
  pose proof (@unknown_job_not_found Example.online "job-2"
                {| resp_status := 404;
                   resp_json := Normal (JObj [("detail", JStr "Job not found")]);
                   resp_text := Throw (ThrownError (mkError "Body is unusable" None)) |}
                eq_refl) as [G D].
  split.
  - rewrite (G eq_refl). reflexivity.
  - rewrite (D eq_refl). reflexivity.
Defined.

(** Witness of C10: an unknown format, a known one, and a job id that
    the file name cannot carry. *)
Lemma export_by_format_witness :
  run (@ExportRoute.GET Example.online "job-1" "xml")
  = (Normal (NextResponse_json
               (JObj [("error", JStr "Invalid format. Use 'json' or 'csv'")]) 400), [])
  /\ fst (run (@ExportRoute.GET Example.online "job-1" "csv"))
     = Normal {| status := 200;
                 headers := [("Content-Type", "text/csv");
                             ("Content-Disposition",
                              "attachment; filename=scrape_results_job-1.csv")];
                 payload := TextBody "url,title" |}
  /\ fst (run (@ExportRoute.GET Example.exporting Example.two_lines "csv"))
     = Normal (NextResponse_json (JObj [("error", JStr "Invalid header value")]) 500)
  /\ (exists resp,
        fst (run (@ExportRoute.GET Example.online "job-1" "json")) = Normal resp
        /\ status resp = 200
        /\ headers resp = [("Content-Type", "application/json");
                           ("Content-Disposition",
                            "attachment; filename=scrape_results_job-1.json")]).
Proof.
  split; [|split; [|split]].
  4:{ eexists. split; [reflexivity|]. split; [reflexivity|].
      exact (proj2 (proj2 (proj2 (@export_by_format Example.online "job-1" "json"))
                      _ eq_refl eq_refl)). }
  - apply (@export_by_format Example.online "job-1" "xml"); discriminate.
  - pose proof (proj1 (proj2 (@export_by_format Example.online "job-1" "csv"))) as H.
    destruct (H _ "url,title" (or_intror eq_refl) eq_refl eq_refl eq_refl) as [H1 _].
    rewrite (H1 eq_refl). reflexivity.
  - pose proof (proj1 (proj2 (@export_by_format Example.exporting Example.two_lines "csv")))
      as H.
    destruct (H _ "url,title" (or_intror eq_refl) eq_refl eq_refl eq_refl) as [_ H2].
    rewrite (H2 eq_refl). reflexivity.
Defined.

(* ===================================================================== *)
(** ** The chat handler *)

Section Chat.
Context {P : Platform}.

Lemma json_error_response (msg : string) (details : value) (code : Z) :
  code = 400 \/ code = 500 ->
  json_error (Response_json (JSON_object [("error", Some (JStr msg)); ("details", details)])
                            code).
Proof.
  intros H. split; [reflexivity|]. split; [|exact H].
  destruct details; do 2 eexists; split; reflexivity.
Qed.

Lemma json_error_plain (msg : string) (code : Z) :
  code = 400 \/ code = 500 ->
  json_error (Response_json (JSON_object [("error", Some (JStr msg))]) code).
Proof.
  intros H. split; [reflexivity|]. split; [|exact H].
  do 2 eexists; split; reflexivity.
Qed.

(** The chat handler, case by case. *)
Lemma chat_POST_cases (req : NextRequest) :
  (exists resp, run (ChatRoute.POST req) = (Normal resp, []) /\ json_error resp)
  \/ (exists body prompt resp,
        req_json req = Normal body
        /\ Array_isArray (get_opt (Some body) "messages") = true
        /\ ChatRoute.systemPrompt (get_opt (Some body) "scrapedContent") = Normal prompt
        /\ ChatRoute.api_key_missing = false
        /\ run (ChatRoute.POST req) = (Normal resp, [Streamed (chat_call body prompt)])
        /\ (json_error resp
            \/ exists r, streamText (chat_call body prompt) = Normal r
                         /\ toDataStreamResponse r = Normal resp)).
Proof.
  unfold run, ChatRoute.POST, try_catch, bind, await.
  destruct (req_json req) as [body|t] eqn:E.
  2:{ left. eexists. split; [reflexivity|]. apply json_error_response. now right. }
  destruct (json_eq_null body) as [->|Hn].
  { left. eexists. split; [reflexivity|]. apply json_error_response. now right. }
  rewrite !get_not_null by assumption.
  destruct (Array_isArray (get_opt (Some body) "messages")) eqn:A.
  2:{ left. rewrite orb_true_r. eexists. split; [reflexivity|].
      apply json_error_plain. now left. }
  assert (T : truthy (get_opt (Some body) "messages") = true).
  { destruct (get_opt (Some body) "messages") as [[]|]; try discriminate A; reflexivity. }
  rewrite T. cbn [negb orb].
  destruct (ChatRoute.systemPrompt (get_opt (Some body) "scrapedContent"))
    as [prompt|t] eqn:Sp.
  2:{ left. eexists. split; [reflexivity|]. apply json_error_response. now right. }
  destruct ChatRoute.api_key_missing eqn:K.
  { left. eexists. split; [reflexivity|]. apply json_error_plain. now right. }
  right. exists body, prompt. unfold stream_text. fold (chat_call body prompt). cbn [app].
  destruct (streamText (chat_call body prompt)) as [r|t] eqn:S.
  - destruct (toDataStreamResponse r) as [resp|t] eqn:D.
    + exists resp. repeat split; auto. right. exists r. split; auto.
    + eexists. repeat split; auto. left. apply json_error_response. now right.
  - eexists. repeat split; auto. left. apply json_error_response. now right.
Qed.

Lemma prompt_of_string (s : string) :
  s <> "" ->
  ChatRoute.systemPrompt (Some (JStr s))
  = Normal (ChatRoute.PROMPT_HEAD ++ s ++ ChatRoute.PROMPT_TAIL)%string.
Proof.
  intros H. unfold ChatRoute.systemPrompt. cbn [truthy ToString json_toString].
  destruct (String.eqb_spec s ""); [contradiction | reflexivity].
Qed.

(** C8.  The chat handler never ends in an exception: it answers with a
    JSON error response or with the stream of the model.  Whenever it calls
    the model, the system prompt is the template around the scraped content,
    verbatim, when that content is a non-empty string, and the fallback
    prompt when it is absent, [null] or the empty string; and it does call
    the model when the messages are an array, the prompt can be built and
    the key is configured. *)
Theorem chat_grounded_or_error (req : NextRequest) :
  (exists resp log,
      run (ChatRoute.POST req) = (Normal resp, log)
      /\ (json_error resp
          \/ exists a r, log = [Streamed a] /\ streamText a = Normal r
                         /\ toDataStreamResponse r = Normal resp))
  /\ (forall a, In a (prompted (run (ChatRoute.POST req))) ->
      exists body,
        req_json req = Normal body
        /\ ChatRoute.systemPrompt (get_opt (Some body) "scrapedContent")
           = Normal (system a)
        /\ (forall s, get_opt (Some body) "scrapedContent" = Some (JStr s) -> s <> "" ->
            system a = (ChatRoute.PROMPT_HEAD ++ s ++ ChatRoute.PROMPT_TAIL)%string)
        /\ (get_opt (Some body) "scrapedContent" = undefined
            \/ get_opt (Some body) "scrapedContent" = Some JNull
            \/ get_opt (Some body) "scrapedContent" = Some (JStr "") ->
            system a = ChatRoute.PROMPT_FALLBACK))
  /\ (forall body prompt,
        req_json req = Normal body ->
        Array_isArray (get_opt (Some body) "messages") = true ->
        ChatRoute.systemPrompt (get_opt (Some body) "scrapedContent") = Normal prompt ->
        ChatRoute.api_key_missing = false ->
        prompted (run (ChatRoute.POST req)) = [chat_call body prompt]).
Proof.
  destruct (chat_POST_cases req)
    as [[resp [R J]]|[body [prompt [resp [E [A [Sp [K [R J]]]]]]]]].
  - split; [exists resp, []; auto|]. rewrite R. split; [intros a []|].
    intros body prompt E A Sp K. exfalso.
    revert R. unfold run, ChatRoute.POST, try_catch, bind, await.
    assert (Hn : body <> JNull) by (intros ->; discriminate A).
    rewrite E, !get_not_null by assumption. rewrite A, Sp, K.
    assert (T : truthy (get_opt (Some body) "messages") = true).
    { destruct (get_opt (Some body) "messages") as [[]|]; try discriminate A; reflexivity. }
    rewrite T. cbn [negb orb]. unfold stream_text.
    destruct (streamText _); [destruct (toDataStreamResponse _)|]; discriminate.
  - split.
    + exists resp, [Streamed (chat_call body prompt)]. split; [assumption|].
      destruct J as [J|[r [S D]]]; [now left|]. right.
      exists (chat_call body prompt), r. auto.
    + rewrite R. split.
      * intros a [<-|[]]. exists body. split; [assumption|]. split; [exact Sp|].
        cbn [chat_call system]. split.
        -- intros s Hs Hne. rewrite Hs, (prompt_of_string s Hne) in Sp.
           now injection Sp as <-.
        -- intros [H|[H|H]]; rewrite H in Sp; now injection Sp as <-.
      * intros body' prompt' E' _ Sp' _. rewrite E in E'. injection E' as <-.
        rewrite Sp in Sp'. injection Sp' as <-. reflexivity.
Qed.

End Chat.

(** Witness of C8: a chat about scraped content reaches the model with the
    content inside the prompt; a request without messages gets HTTP 400. *)
Lemma chat_grounded_or_error_witness :
  map system (prompted (run (@ChatRoute.POST Example.online
                               (Example.chat_about (JStr "Example text")))))
  = [(ChatRoute.PROMPT_HEAD ++ "Example text" ++ ChatRoute.PROMPT_TAIL)%string]
  /\ run (@ChatRoute.POST Example.online Example.chat_without_messages)
     = (Normal (Response_json (JObj [("error", JStr "Invalid messages format")]) 400), []).
Proof.
  split; [|reflexivity].
  pose proof (@chat_grounded_or_error Example.online
                (Example.chat_about (JStr "Example text"))) as [_ [_ H]].
  rewrite (H _ _ eq_refl eq_refl eq_refl eq_refl). reflexivity.
Defined.

(* ===================================================================== *)
(** ** The polling client *)

Section Polling.
Context {P : Platform}.
Variable status_reply : nat -> completion FetchResponse.
Variable interval_first : bool.

(** The case analysis that [poll] makes on a reply. *)
Ltac poll_cases p t :=
  unfold Client.poll, try_catch, bind, await, throw, ret, Client.fetch_status,
    Client.setProcessingStatus, Client.setScrapedData, Client.clearInterval, modify,
    stops, terminal, reported_status, status_data;
  destruct (ToString (Client.job_id p)) as [job|e0];
  [ destruct (status_reply (length (Client.polled t))) as [r|e];
    [ destruct (ok r);
      [ destruct (resp_json r) as [d|e];
        [ destruct d as [ | b | n | s | items | props ] | ]
      | ]
    | ];
    cbn [negb get get_opt fst snd];
    try reflexivity;
    try match goal with
        | |- context [strict_eq_str (lookup "status" ?o) "completed"] =>
            destruct (strict_eq_str (lookup "status" o) "completed") eqn:Hc;
            [ destruct (truthy (lookup "result" o)) eqn:Hr | ];
            cbn [andb orb];
            try destruct (strict_eq_str (lookup "status" o) "error") eqn:He;
            cbn [fst snd]
        end
  | cbn [fst snd]; try reflexivity ].

Lemma poll_returns (p : Client.Poller) (t : Client.Tab) :
  fst (Client.poll status_reply p t) = Normal tt.
Proof. poll_cases p t; reflexivity. Qed.

(** A poll makes one status request, unless the address of the job cannot
    be written. *)
Lemma poll_polled (p : Client.Poller) (t : Client.Tab) :
  Client.polled (snd (Client.poll status_reply p t))
  = match ToString (Client.job_id p) with
    | Normal job => (Client.polled t ++ [(Client.clock t, "/api/scrape/" ++ job)%string])%list
    | Throw _ => Client.polled t
    end.
Proof. poll_cases p t; reflexivity. Qed.

Lemma poll_giveUp (p : Client.Poller) (t : Client.Tab) :
  Client.giveUp (snd (Client.poll status_reply p t)) = Client.giveUp t.
Proof. poll_cases p t; reflexivity. Qed.

Lemma poll_clock (p : Client.Poller) (t : Client.Tab) :
  Client.clock (snd (Client.poll status_reply p t)) = Client.clock t.
Proof. poll_cases p t; reflexivity. Qed.

(** [poll] clears the interval exactly on the replies that [stops] lists
    (and when it could not make the request). *)
Lemma poll_pollInterval (p : Client.Poller) (t : Client.Tab) :
  Client.pollInterval (snd (Client.poll status_reply p t))
  = match ToString (Client.job_id p) with
    | Normal _ =>
        if stops (status_reply (length (Client.polled t))) then None
        else Client.pollInterval t
    | Throw _ => None
    end.
Proof. poll_cases p t; reflexivity. Qed.

Lemma strict_eq_str_spec (v : value) (s : string) :
  strict_eq_str v s = true <-> v = Some (JStr s).
Proof.
  destruct v as [[]|]; cbn; try (split; [discriminate|intros [=]]).
  rewrite String.eqb_eq. split; [intros ->; reflexivity | intros [=]; assumption].
Qed.

Lemma poll_scrapedData (p : Client.Poller) (t : Client.Tab) :
  Client.scrapedData (snd (Client.poll status_reply p t))
  = match ToString (Client.job_id p),
          status_data (status_reply (length (Client.polled t))) with
    | Normal _, Some d =>
        if strict_eq_str (get_opt (Some d) "status") "completed"
           && truthy (get_opt (Some d) "result")
        then Some (Client.scraped_of (get_opt (Some d) "result") (Client.testMode p)
                                     (Client.clock t))
        else Client.scrapedData t
    | _, _ => Client.scrapedData t
    end.
Proof. poll_cases p t; reflexivity. Qed.

Lemma poll_error_status (p : Client.Poller) (t : Client.Tab) (u : string) (d : json) :
  ToString (Client.job_id p) = Normal u ->
  status_data (status_reply (length (Client.polled t))) = Some d ->
  get_opt (Some d) "status" = Some (JStr "error") ->
  Client.processingStatus (snd (Client.poll status_reply p t))
  = {| Client.stage := Client.error;
       Client.progress := Some (JNum 0);
       Client.message := or_else (get_opt (Some d) "error") (Some (JStr "Scraping failed")) |}.
Proof.
  revert d. poll_cases p t; intros d' J; try discriminate J;
    intros [= <-] S; cbn [get_opt] in S; try discriminate S.
  all: rewrite S in *; try discriminate; reflexivity.
Qed.

(** C3.  A poll that gets a reply to its status request (the job id can be
    written into the address) records result data only from a reply whose
    status is "completed" and whose [result] is present (truthy), and then it
    records that result.  On a reply whose status is "error" it records
    nothing and shows, in the error stage, a message that is not empty: the
    [error] of the reply when it has one, "Scraping failed" otherwise. *)
Theorem poll_records_completed_only (p : Client.Poller) (t : Client.Tab) (job : string) :
  ToString (Client.job_id p) = Normal job ->
  let reply := status_reply (length (Client.polled t)) in
  let t' := snd (Client.poll status_reply p t) in
  (Client.scrapedData t' <> Client.scrapedData t ->
   exists d, status_data reply = Some d
             /\ get_opt (Some d) "status" = Some (JStr "completed")
             /\ truthy (get_opt (Some d) "result") = true)
  /\ (forall d, status_data reply = Some d ->
                get_opt (Some d) "status" = Some (JStr "completed") ->
                truthy (get_opt (Some d) "result") = true ->
                Client.scrapedData t'
                = Some (Client.scraped_of (get_opt (Some d) "result") (Client.testMode p)
                                          (Client.clock t)))
  /\ (forall d, status_data reply = Some d ->
                get_opt (Some d) "status" = Some (JStr "error") ->
                Client.scrapedData t' = Client.scrapedData t
                /\ Client.stage (Client.processingStatus t') = Client.error
                /\ Client.message (Client.processingStatus t')
                   = or_else (get_opt (Some d) "error") (Some (JStr "Scraping failed"))
                /\ truthy (Client.message (Client.processingStatus t')) = true
                /\ Client.message (Client.processingStatus t') <> Some (JStr "")).
Proof.
  intros J reply t'. subst t'. rewrite poll_scrapedData, J. fold reply.
  split; [|split].
  - destruct (status_data reply) as [d|]; [|intros H; now contradiction H].
    destruct (strict_eq_str _ _) eqn:S; cbn [andb]; [|intros H; now contradiction H].
    destruct (truthy _) eqn:T; [|intros H; now contradiction H].
    intros _. exists d. apply strict_eq_str_spec in S. auto.
  - intros d -> S T. rewrite T, (proj2 (strict_eq_str_spec _ _) S). reflexivity.
  - intros d E S. rewrite (poll_error_status p t job d J E S), E, S.
    cbn [strict_eq_str String.eqb Ascii.eqb Bool.eqb andb].
    repeat split.
    + apply or_else_truthy. reflexivity.
    + intros H.
      assert (T : truthy (or_else (get_opt (Some d) "error") (Some (JStr "Scraping failed")))
                  = true) by (apply or_else_truthy; reflexivity).
      cbn [Client.message] in H. rewrite H in T. discriminate T.
Qed.

(** The replies that end the polling, spelled out. *)
Lemma stops_iff (reply : completion FetchResponse) :
  stops reply = true
  <-> status_data reply = None
      \/ status_data reply = Some JNull
      \/ reported_status reply = Some (JStr "error")
      \/ (reported_status reply = Some (JStr "completed")
          /\ exists d, status_data reply = Some d
                       /\ truthy (get_opt (Some d) "result") = true).
Proof.
  unfold stops, reported_status.
  destruct (status_data reply) as [d|]; [|intuition].
  destruct (json_eq_null d) as [->|Hn]; [intuition|].
  assert (E : (match d with
               | JNull => true
               | _ => strict_eq_str (get_opt (Some d) "status") "completed"
                      && truthy (get_opt (Some d) "result")
                      || strict_eq_str (get_opt (Some d) "status") "error"
               end)
              = (strict_eq_str (get_opt (Some d) "status") "completed"
                 && truthy (get_opt (Some d) "result")
                 || strict_eq_str (get_opt (Some d) "status") "error"))
    by (destruct d; try reflexivity; now contradiction Hn).
  rewrite E, orb_true_iff, andb_true_iff, !strict_eq_str_spec. split.
  - intros [[S T]|S]; [right; right; right; split; [assumption | eauto] | auto].
  - intros [H|[H|[H|[S [d' [[= <-] T]]]]]]; try discriminate; auto.
    congruence.
Qed.

(** When the entry point accepts the job, [handleScrapeUrl] sets the two
    timers. *)
Lemma handleScrapeUrl_arms (test : bool) (t0 : Client.Tab) (r : FetchResponse)
    (answer : json) :
  String_trim (Client.urlInput t0) <> "" ->
  network {| fetch_url := Client.endpoint test;
             fetch_method := "POST";
             fetch_headers := [("Content-Type", "application/json")];
             fetch_body := Some (Client.payload test (Client.urlInput t0)
                                                (Client.customInstructions t0)) |}
  = Normal r ->
  ok r = true -> resp_json r = Normal answer -> answer <> JNull ->
  started_at (Client.clock t0) (get_opt (Some answer) "job_id")
             (Client.mkLoop (snd (Client.handleScrapeUrl test t0)) []).
Proof.
  intros Hu Hn Ho Hj Ha. unfold Client.handleScrapeUrl.
  destruct (String.eqb_spec (String_trim (Client.urlInput t0)) ""); [contradiction|].
  unfold bind, try_catch, Client.setIsTestMode, Client.setProcessingStatus, modify,
    Client.fetch_start, await, Client.setJobId, Client.setInterval, Client.setTimeout.
  cbn [Client.urlInput Client.customInstructions].
  rewrite Hn, Ho. cbn [negb]. rewrite Hj, (get_not_null _ _ Ha).
  split; [|reflexivity]. split; [|reflexivity].
  eexists. split; [reflexivity|]. split; [|reflexivity].
  cbn [Client.due Client.clock]. unfold Client.POLL_MS. lia.
Qed.

End Polling.

(** Witness of C3: a reply with a result, and a reply in error. *)
Lemma poll_records_completed_only_witness :
  let p := Client.mkPoller 2000 (Some (JStr "job-1")) false in
  Client.scrapedData
    (snd (@Client.poll Example.online (fun _ => Example.completes_at_third 2) p
            (Client.fresh "https://example.com" "")))
  = Some (@Client.scraped_of Example.online (Some Example.result_doc) false 0)
  /\ Client.message
       (Client.processingStatus
          (snd (@Client.poll Example.online Example.fails_at_once p
                  (Client.fresh "https://example.com" ""))))
     = Some (JStr "Scraping failed").
Proof.
  intros p. split.
  - pose proof (@poll_records_completed_only Example.online
                  (fun _ => Example.completes_at_third 2) p
                  (Client.fresh "https://example.com" "") "job-1" eq_refl) as [_ [H _]].
    apply (H (JObj [("status", JStr "completed"); ("progress", JNum 100);
                    ("message", JStr "Successfully scraped 3 pages");
                    ("result", Example.result_doc)]));
      reflexivity.
  - pose proof (@poll_records_completed_only Example.online Example.fails_at_once p
                  (Client.fresh "https://example.com" "") "job-1" eq_refl) as [_ [_ H]].
    destruct (H (JObj [("status", JStr "error"); ("progress", JNum 0);
                       ("message", JStr "Timeout fetching https://example.com")])
                eq_refl eq_refl) as [_ [_ [M _]]].
    rewrite M. reflexivity.
Defined.

(* ===================================================================== *)
(** ** The timers of the polling client *)

Section Timers.
Context {P : Platform}.
Variable status_reply : nat -> completion FetchResponse.
Variable interval_first : bool.

Abbreviation step := (Client.step status_reply interval_first).
Abbreviation run_timers := (Client.run_timers status_reply interval_first).
Abbreviation quiescent := (Client.quiescent interval_first).
Abbreviation act := (Client.act status_reply interval_first).
Abbreviation run_schedule := (Client.run_schedule status_reply interval_first).

Lemma firing_times_length (c : Z) (n : nat) : length (firing_times c n) = n.
Proof. unfold firing_times. now rewrite length_map, length_seq. Qed.

Lemma firing_times_bounds (c : Z) (n : nat) (at_ms : Z) :
  In at_ms (firing_times c n) ->
  exists k, (1 <= k <= n)%nat /\ at_ms = c + Client.POLL_MS * Z.of_nat k.
Proof.
  unfold firing_times. rewrite in_map_iff. intros [k [E I]].
  apply in_seq in I. exists k. split; [lia | now symmetry].
Qed.

Lemma firings_le : (firings interval_first <= 150)%nat.
Proof. unfold firings. destruct interval_first; lia. Qed.

(** *** The two parts of the callback *)

(** The case analysis that the callback makes on a reply. *)
Ltac resume_cases reply :=
  unfold Client.poll_resume, try_catch, bind, await, throw, ret,
    Client.setProcessingStatus, Client.setScrapedData, Client.clearInterval, modify,
    stops, status_data;
  destruct reply as [r|e];
  [ destruct (ok r);
    [ destruct (resp_json r) as [d|e];
      [ destruct d as [ | b | n | s | items | props ] | ]
    | ]
  | ];
  cbn [negb get get_opt fst snd];
  try reflexivity;
  try match goal with
      | |- context [strict_eq_str (lookup "status" ?o) "completed"] =>
          destruct (strict_eq_str (lookup "status" o) "completed") eqn:Hc;
          [ destruct (truthy (lookup "result" o)) eqn:Hr | ];
          cbn [andb orb];
          try destruct (strict_eq_str (lookup "status" o) "error") eqn:He;
          cbn [fst snd]
      end.

Lemma resume_polled (p : Client.Poller) (reply : completion FetchResponse) (t : Client.Tab) :
  Client.polled (snd (Client.poll_resume p reply t)) = Client.polled t.
Proof. resume_cases reply; reflexivity. Qed.

Lemma resume_giveUp (p : Client.Poller) (reply : completion FetchResponse) (t : Client.Tab) :
  Client.giveUp (snd (Client.poll_resume p reply t)) = Client.giveUp t.
Proof. resume_cases reply; reflexivity. Qed.

(** The rest of the callback clears the interval exactly on the replies
    that [stops] lists. *)
Lemma resume_pollInterval (p : Client.Poller) (reply : completion FetchResponse)
    (t : Client.Tab) :
  Client.pollInterval (snd (Client.poll_resume p reply t))
  = if stops reply then None else Client.pollInterval t.
Proof. resume_cases reply; reflexivity. Qed.

Lemma send_printable (p : Client.Poller) (t : Client.Tab) (u : string) :
  ToString (Client.job_id p) = Normal u ->
  Client.poll_send p t
  = (Normal (Some (length (Client.polled t))),
     snd (Client.send_status ("/api/scrape/" ++ u) t)).
Proof.
  intros H. unfold Client.poll_send, try_catch, bind, await. rewrite H. reflexivity.
Qed.

Lemma send_unprintable (p : Client.Poller) (t : Client.Tab) (e : thrown) :
  ToString (Client.job_id p) = Throw e ->
  fst (Client.poll_send p t) = Normal None
  /\ Client.polled (snd (Client.poll_send p t)) = Client.polled t
  /\ Client.pollInterval (snd (Client.poll_send p t)) = None
  /\ Client.giveUp (snd (Client.poll_send p t)) = Client.giveUp t.
Proof.
  intros H. unfold Client.poll_send, try_catch, bind, await. rewrite H.
  repeat split.
Qed.

(** The callback in one piece is its first part followed at once by its
    second part. *)
Lemma poll_in_one_piece (p : Client.Poller) (t : Client.Tab) :
  Client.poll status_reply p t
  = match Client.poll_send p t with
    | (Normal (Some n), t1) => Client.poll_resume p (status_reply n) t1
    | (_, t1) => (Normal tt, t1)
    end.
Proof.
  unfold Client.poll, Client.poll_send, Client.poll_resume, try_catch, bind, await,
    Client.fetch_status, Client.send_status, ret.
  destruct (ToString (Client.job_id p)) as [u|e]; [|reflexivity].
  destruct (status_reply (length (Client.polled t))) as [r|e]; reflexivity.
Qed.

(** *** The turns of the event loop *)

Lemma next_timer_interval (t : Client.Tab) (p : Client.Poller) :
  Client.next_timer interval_first t = Some (Client.FireInterval p) ->
  Client.pollInterval t = Some p
  /\ (forall g, Client.giveUp t = Some g -> Client.due p <= g).
Proof.
  unfold Client.next_timer.
  destruct (Client.pollInterval t) as [q|], (Client.giveUp t) as [g|]; try discriminate.
  - destruct (Z.ltb_spec (Client.due q) g).
    + intros [= ->]. split; [reflexivity|]. intros g' [= <-]. lia.
    + destruct (Z.ltb_spec g (Client.due q)); [discriminate|].
      destruct interval_first; [|discriminate].
      intros [= ->]. split; [reflexivity|]. intros g' [= <-]. lia.
  - intros [= ->]. split; [reflexivity | discriminate].
Qed.

Lemma act_interval (s : Client.Loop) (p : Client.Poller) :
  Client.next_timer interval_first (Client.tab s) = Some (Client.FireInterval p) ->
  let rearmed :=
    Client.set_pollInterval
      (Some (Client.mkPoller (Client.due p + Client.POLL_MS) (Client.job_id p)
                             (Client.testMode p)))
      (Client.set_clock (Client.due p) (Client.tab s)) in
  act Client.Timer s
  = Some {| Client.tab := snd (Client.poll_send p rearmed);
            Client.inflight :=
              match fst (Client.poll_send p rearmed) with
              | Normal (Some n) => (Client.inflight s ++ [(n, p)])%list
              | _ => Client.inflight s
              end |}.
Proof.
  intros N rearmed. unfold Client.act. rewrite N. fold rearmed.
  destruct (Client.poll_send p rearmed) as [[[n|]|] t']; reflexivity.
Qed.

Lemma act_reply (n : nat) (at_ms : Z) (s s' : Client.Loop) :
  act (Client.Reply n at_ms) s = Some s' ->
  Client.polled (Client.tab s') = Client.polled (Client.tab s)
  /\ Client.giveUp (Client.tab s') = Client.giveUp (Client.tab s)
  /\ Client.pollInterval (Client.tab s')
     = if stops (status_reply n) then None else Client.pollInterval (Client.tab s).
Proof.
  unfold Client.act. destruct (Client.awaiting n s) as [p|]; [|discriminate].
  destruct (Client.in_time at_ms (Client.tab s)); [|discriminate].
  intros [= <-]. cbn [Client.tab].
  rewrite resume_polled, resume_giveUp, resume_pollInterval. repeat split.
Qed.

Lemma act_elsewhere (page : Client.Tab) (s s' : Client.Loop) :
  act (Client.Elsewhere page) s = Some s' ->
  Client.polled (Client.tab s') = Client.polled (Client.tab s)
  /\ Client.giveUp (Client.tab s') = Client.giveUp (Client.tab s)
  /\ Client.pollInterval (Client.tab s') = Client.pollInterval (Client.tab s).
Proof.
  unfold Client.act. destruct (Client.in_time _ _); [|discriminate].
  intros [= <-]. repeat split.
Qed.

(** Once the interval is cleared, no request is sent any more. *)
Lemma interval_cleared (schedule : list Client.action) :
  forall s s',
    Client.pollInterval (Client.tab s) = None ->
    run_schedule schedule s = Some s' ->
    Client.polled (Client.tab s') = Client.polled (Client.tab s)
    /\ Client.pollInterval (Client.tab s') = None.
Proof.
  induction schedule as [|a rest IH]; intros s s' Hp R; cbn [Client.run_schedule] in R.
  - injection R as <-. auto.
  - destruct (act a s) as [s1|] eqn:A; [|discriminate].
    destruct a as [|n at_ms|page].
    + unfold Client.act, Client.next_timer in A. rewrite Hp in A.
      destruct (Client.giveUp (Client.tab s)) as [g|]; [|discriminate].
      injection A as <-.
      match type of R with
      | run_schedule rest ?s1 = _ => destruct (IH s1 s' eq_refl R) as [Q I]
      end.
      split; [exact Q | exact I].
    + apply act_reply in A as [Aq [_ Ai]]. rewrite Hp in Ai.
      assert (Hp1 : Client.pollInterval (Client.tab s1) = None)
        by (rewrite Ai; destruct (stops _); reflexivity).
      destruct (IH _ _ Hp1 R) as [Q I]. rewrite Q, Aq. auto.
    + apply act_elsewhere in A as [Aq [_ Ai]]. rewrite Hp in Ai.
      destruct (IH _ _ Ai R) as [Q I]. rewrite Q, Aq. auto.
Qed.

(** A job whose id cannot be written into the address is never asked
    about. *)
Lemma unprintable_job (job : value) (e : thrown) (schedule : list Client.action) :
  ToString job = Throw e ->
  forall s s',
    (forall p, Client.pollInterval (Client.tab s) = Some p -> Client.job_id p = job) ->
    run_schedule schedule s = Some s' ->
    Client.polled (Client.tab s') = Client.polled (Client.tab s).
Proof.
  intros Hj. induction schedule as [|a rest IH]; intros s s' Hp R;
    cbn [Client.run_schedule] in R.
  - injection R as <-. reflexivity.
  - destruct (act a s) as [s1|] eqn:A; [|discriminate].
    destruct a as [|n at_ms|page].
    + destruct (Client.next_timer interval_first (Client.tab s)) as [[p|g]|] eqn:N.
      * rewrite (act_interval s p N) in A. injection A as <-.
        destruct (next_timer_interval _ _ N) as [Hq _].
        rewrite <- (Hp p Hq) in Hj.
        match type of R with
        | context [Client.poll_send p ?t] =>
            destruct (send_unprintable p t e Hj) as [_ [Sq [Si _]]]
        end.
        match type of R with
        | run_schedule rest ?s1 = _ =>
            destruct (interval_cleared rest s1 s' Si R) as [Q _]; rewrite Q
        end.
        exact Sq.
      * unfold Client.act in A. rewrite N in A. injection A as <-.
        match type of R with
        | run_schedule rest ?s1 = _ =>
            destruct (interval_cleared rest s1 s' eq_refl R) as [Q _]
        end.
        exact Q.
      * unfold Client.act in A. rewrite N in A. discriminate.
    + apply act_reply in A as [Aq [_ Ai]].
      rewrite (IH s1 s'); [exact Aq | | exact R].
      intros p Hq. apply Hp. rewrite Ai in Hq. destruct (stops _); [discriminate|exact Hq].
    + apply act_elsewhere in A as [Aq [_ Ai]].
      rewrite (IH s1 s'); [exact Aq | | exact R].
      intros p Hq. apply Hp. now rewrite <- Ai.
Qed.

(** While the interval is set and firings remain before the timeout, the
    next timer is the interval. *)
Lemma next_timer_polling (c : Z) (job : value) (t : Client.Tab) (k : nat) :
  polling_on c job t k -> (k < firings interval_first)%nat ->
  exists p, Client.next_timer interval_first t = Some (Client.FireInterval p)
            /\ Client.due p = c + Client.POLL_MS * Z.of_nat (S k)
            /\ Client.job_id p = job.
Proof.
  intros [[p [Hp [Hd Hj]]] Hg] Hk. exists p. split; [|auto].
  unfold Client.next_timer. rewrite Hp, Hg, Hd.
  unfold Client.POLL_MS, Client.GIVE_UP_MS, firings in *.
  destruct (Z.ltb_spec (c + 2000 * Z.of_nat (S k)) (c + 300000)); [reflexivity|].
  destruct (Z.ltb_spec (c + 300000) (c + 2000 * Z.of_nat (S k))).
  - destruct interval_first; lia.
  - destruct interval_first; [reflexivity | lia].
Qed.

(** When none remains, it is the timeout. *)
Lemma next_timer_give_up (c : Z) (job : value) (t : Client.Tab) :
  polling_on c job t (firings interval_first) ->
  Client.next_timer interval_first t = Some (Client.FireTimeout (c + Client.GIVE_UP_MS)).
Proof.
  intros [[p [Hp [Hd Hj]]] Hg].
  unfold Client.next_timer. rewrite Hp, Hg, Hd.
  unfold Client.POLL_MS, Client.GIVE_UP_MS, firings in *.
  destruct interval_first.
  - destruct (Z.ltb_spec (c + 2000 * Z.of_nat 151) (c + 300000)); [lia|].
    destruct (Z.ltb_spec (c + 300000) (c + 2000 * Z.of_nat 151)); [reflexivity|lia].
  - destruct (Z.ltb_spec (c + 2000 * Z.of_nat 150) (c + 300000)); [lia|].
    destruct (Z.ltb_spec (c + 300000) (c + 2000 * Z.of_nat 150)); reflexivity.
Qed.

(** The requests of a run, schedule by schedule: one at every firing of the
    interval that comes before the timeout and before the first reply
    handled that ends the polling. *)
Lemma run_polling (c : Z) (job : value) (u : string) (schedule : list Client.action) :
  ToString job = Normal u ->
  forall s s' k,
    polling_on c job (Client.tab s) k -> (k <= firings interval_first)%nat ->
    run_schedule schedule s = Some s' ->
    let m := timers_run (while_polling status_reply schedule) in
    Client.polled (Client.tab s')
    = (Client.polled (Client.tab s)
       ++ map (fun i => (c + Client.POLL_MS * Z.of_nat i, ("/api/scrape/" ++ u)%string))
              (seq (S k) (Nat.min (k + m) (firings interval_first) - k)))%list
    /\ (while_polling status_reply schedule = schedule ->
        (k + m <= firings interval_first)%nat ->
        polling_on c job (Client.tab s') (k + m)).
Proof.
  intros Hu. induction schedule as [|a rest IH]; intros s s' k On Hk R;
    cbn [Client.run_schedule] in R.
  - injection R as <-. cbn [while_polling timers_run filter length].
    rewrite Nat.add_0_r, Nat.min_l, Nat.sub_diag by exact Hk. cbn [seq map].
    rewrite app_nil_r. auto.
  - destruct (act a s) as [s1|] eqn:A; [|discriminate].
    destruct a as [|n at_ms|page].
    + cbn [while_polling]. unfold timers_run. cbn [filter length].
      fold (timers_run (while_polling status_reply rest)).
      set (m' := timers_run (while_polling status_reply rest)).
      destruct (Nat.eq_dec k (firings interval_first)) as [E|E].
      * (* the timeout *)
        subst k. rewrite (Nat.min_r _ _) by lia. rewrite Nat.sub_diag. cbn [seq map].
        rewrite app_nil_r.
        unfold Client.act in A. rewrite (next_timer_give_up c job _ On) in A.
        injection A as <-.
        match type of R with
        | run_schedule rest ?s1 = _ =>
            destruct (interval_cleared rest s1 s' eq_refl R) as [Q _]
        end.
        split; [exact Q | lia].
      * (* the interval *)
        destruct (next_timer_polling c job _ k On) as [p [N [Hd Hj]]]; [lia|].
        rewrite (act_interval s p N) in A. injection A as <-.
        rewrite <- Hj in Hu.
        rewrite (send_printable p _ u Hu) in R. cbn [fst snd Client.send_status] in R.
        match type of R with
        | run_schedule rest ?s1 = _ =>
            destruct (IH s1 s' (S k)) as [Q O]; [ | lia | exact R | ]
        end.
        { cbn [Client.tab Client.pollInterval Client.giveUp Client.set_pollInterval
                 Client.set_clock].
          destruct On as [_ Hg]. split; [|exact Hg].
          eexists. split; [reflexivity|]. cbn [Client.due Client.job_id].
          split; [|exact Hj]. rewrite Hd. unfold Client.POLL_MS. lia. }
        fold m' in Q, O. cbn [Client.tab Client.polled Client.set_pollInterval
                                Client.set_clock] in Q.
        split.
        -- rewrite Q, <- app_assoc. f_equal.
           replace (Nat.min (k + S m') (firings interval_first) - k)%nat
             with (S (Nat.min (S k + m') (firings interval_first) - S k))%nat by lia.
           cbn [seq map app]. rewrite Hd. reflexivity.
        -- intros W B. injection W as W.
           replace (k + S m')%nat with (S k + m')%nat by lia. apply O; [exact W | lia].
    + apply act_reply in A as [Aq [Ag Ai]]. cbn [while_polling].
      destruct (stops (status_reply n)) eqn:St.
      * cbn [timers_run filter length].
        rewrite Nat.add_0_r, Nat.min_l, Nat.sub_diag by exact Hk. cbn [seq map].
        rewrite app_nil_r.
        destruct (interval_cleared rest s1 s' Ai R) as [Q _].
        split; [now rewrite Q | discriminate].
      * unfold timers_run. cbn [filter]. fold (timers_run (while_polling status_reply rest)).
        destruct (IH s1 s' k) as [Q O]; [ | exact Hk | exact R | ].
        { destruct On as [[p [Hp Hd]] Hg]. split; [exists p; rewrite Ai; auto|].
          now rewrite Ag. }
        split; [now rewrite Q, Aq|].
        intros W. injection W as W. now apply O.
    + apply act_elsewhere in A as [Aq [Ag Ai]]. cbn [while_polling].
      unfold timers_run. cbn [filter]. fold (timers_run (while_polling status_reply rest)).
      destruct (IH s1 s' k) as [Q O]; [ | exact Hk | exact R | ].
      { destruct On as [[p [Hp Hd]] Hg]. split; [exists p; rewrite Ai; auto|].
        now rewrite Ag. }
      split; [now rewrite Q, Aq|].
      intros W. injection W as W. now apply O.
Qed.

(** *** The timers run out *)

(** With no timer pending, none runs. *)
Lemma run_finished (schedule : list Client.action) :
  forall s s',
    Client.pollInterval (Client.tab s) = None -> Client.giveUp (Client.tab s) = None ->
    run_schedule schedule s = Some s' ->
    timers_run schedule = 0%nat
    /\ Client.pollInterval (Client.tab s') = None
    /\ Client.giveUp (Client.tab s') = None.
Proof.
  induction schedule as [|a rest IH]; intros s s' Hp Hg R; cbn [Client.run_schedule] in R.
  - injection R as <-. auto.
  - destruct (act a s) as [s1|] eqn:A; [|discriminate].
    destruct a as [|n at_ms|page].
    + unfold Client.act, Client.next_timer in A. rewrite Hp, Hg in A. discriminate.
    + apply act_reply in A as [_ [Ag Ai]]. rewrite Hp in Ai. rewrite Hg in Ag.
      apply (IH s1 s'); auto. rewrite Ai. destruct (stops _); reflexivity.
    + apply act_elsewhere in A as [_ [Ag Ai]]. rewrite Hp in Ai. rewrite Hg in Ag.
      apply (IH s1 s'); auto.
Qed.

(** With the interval cleared, the timeout is the one timer left. *)
Lemma run_stopped (schedule : list Client.action) :
  forall s s',
    Client.pollInterval (Client.tab s) = None ->
    run_schedule schedule s = Some s' ->
    (timers_run schedule <= 1)%nat
    /\ ((1 <= timers_run schedule)%nat -> Client.giveUp (Client.tab s') = None).
Proof.
  induction schedule as [|a rest IH]; intros s s' Hp R; cbn [Client.run_schedule] in R.
  - cbn. split; lia.
  - destruct (act a s) as [s1|] eqn:A; [|discriminate].
    destruct a as [|n at_ms|page].
    + unfold Client.act, Client.next_timer in A. rewrite Hp in A.
      destruct (Client.giveUp (Client.tab s)) as [g|]; [|discriminate].
      injection A as <-.
      match type of R with
      | run_schedule rest ?s1 = _ =>
          destruct (run_finished rest s1 s' eq_refl eq_refl R) as [T [_ G]]
      end.
      unfold timers_run in *. cbn [filter length]. rewrite T. split; [lia | auto].
    + apply act_reply in A as [_ [_ Ai]]. rewrite Hp in Ai.
      apply (IH s1 s'); auto. rewrite Ai. destruct (stops _); reflexivity.
    + apply act_elsewhere in A as [_ [_ Ai]]. rewrite Hp in Ai.
      apply (IH s1 s'); auto.
Qed.

(** The timers of a run fire at most once more than there are firings of
    the interval before the timeout, and then none is pending. *)
Lemma run_bounded (c : Z) (job : value) (schedule : list Client.action) :
  forall s s' k,
    polling_on c job (Client.tab s) k -> (k <= firings interval_first)%nat ->
    run_schedule schedule s = Some s' ->
    (k + timers_run schedule <= S (firings interval_first))%nat
    /\ ((firings interval_first < k + timers_run schedule)%nat ->
        Client.pollInterval (Client.tab s') = None
        /\ Client.giveUp (Client.tab s') = None).
Proof.
  induction schedule as [|a rest IH]; intros s s' k On Hk R; cbn [Client.run_schedule] in R.
  - cbn. split; lia.
  - destruct (act a s) as [s1|] eqn:A; [|discriminate].
    destruct a as [|n at_ms|page].
    + unfold timers_run. cbn [filter length]. fold (timers_run rest).
      destruct (Nat.eq_dec k (firings interval_first)) as [E|E].
      * subst k. unfold Client.act in A. rewrite (next_timer_give_up c job _ On) in A.
        injection A as <-.
        match type of R with
        | run_schedule rest ?s1 = _ =>
            destruct (run_finished rest s1 s' eq_refl eq_refl R) as [T [I G]]
        end.
        rewrite T. split; [lia | auto].
      * destruct (next_timer_polling c job _ k On) as [p [N [Hd Hj]]]; [lia|].
        rewrite (act_interval s p N) in A. injection A as <-.
        destruct (ToString (Client.job_id p)) as [u|e] eqn:J.
        -- rewrite (send_printable p _ u J) in R. cbn [fst snd Client.send_status] in R.
           match type of R with
           | run_schedule rest ?s1 = _ =>
               destruct (IH s1 s' (S k)) as [B Q]; [ | lia | exact R | ]
           end.
           { cbn [Client.tab Client.pollInterval Client.giveUp Client.set_pollInterval
                    Client.set_clock].
             destruct On as [_ Hg]. split; [|exact Hg].
             eexists. split; [reflexivity|]. cbn [Client.due Client.job_id].
             split; [|exact Hj]. rewrite Hd. unfold Client.POLL_MS. lia. }
           split; [lia|]. intros L. apply Q. lia.
        -- match type of R with
           | context [Client.poll_send p ?t] =>
               destruct (send_unprintable p t e J) as [_ [_ [Si Sg]]]
           end.
           match type of R with
           | run_schedule rest ?s1 = _ =>
               destruct (run_stopped rest s1 s' Si R) as [B G];
               destruct (interval_cleared rest s1 s' Si R) as [_ I]
           end.
           split; [lia|]. intros L. split; [exact I | apply G; lia].
    + unfold timers_run. cbn [filter]. fold (timers_run rest).
      apply act_reply in A as [_ [Ag Ai]].
      destruct (stops (status_reply n)).
      * destruct (run_stopped rest s1 s' Ai R) as [B G].
        destruct (interval_cleared rest s1 s' Ai R) as [_ I].
        split; [lia|]. intros L. split; [exact I | apply G; lia].
      * apply (IH s1 s' k); auto.
        destruct On as [[p [Hp Hd]] Hg]. split; [exists p; rewrite Ai; auto|].
        now rewrite Ag.
    + unfold timers_run. cbn [filter]. fold (timers_run rest).
      apply act_elsewhere in A as [_ [Ag Ai]].
      apply (IH s1 s' k); auto.
      destruct On as [[p [Hp Hd]] Hg]. split; [exists p; rewrite Ai; auto|].
      now rewrite Ag.
Qed.

(** *** Replies handled at once *)

Lemma set_clock_same (t : Client.Tab) : Client.set_clock (Client.clock t) t = t.
Proof. destruct t. reflexivity. Qed.

(** [run_timers] is the event loop along the schedule in which every reply
    is handled at the time its request is sent. *)
Lemma run_timers_promptly (fuel : nat) :
  forall t,
    run_schedule (Client.promptly status_reply interval_first fuel (Client.mkLoop t []))
                 (Client.mkLoop t [])
    = Some (Client.mkLoop (run_timers fuel t) []).
Proof.
  induction fuel as [|fuel IH]; intros t; cbn [Client.promptly Client.run_timers];
    [reflexivity|].
  unfold Client.step.
  destruct (Client.next_timer interval_first t) as [[p|g]|] eqn:N.
  - rewrite (act_interval (Client.mkLoop t []) p N). cbn [Client.tab Client.inflight].
    set (rearmed := Client.set_pollInterval _ _).
    cbn [Client.fire]. fold rearmed. rewrite (poll_in_one_piece p rearmed).
    destruct (ToString (Client.job_id p)) as [u|e] eqn:J.
    + rewrite (send_printable p rearmed u J). cbn [fst snd app].
      set (t1 := snd (Client.send_status _ rearmed)).
      set (n := length (Client.polled rearmed)).
      assert (A : act (Client.Reply n (Client.clock t1)) (Client.mkLoop t1 [(n, p)])
                  = Some (Client.mkLoop (snd (Client.poll_resume p (status_reply n) t1)) [])).
      { unfold Client.act, Client.awaiting. cbn [Client.inflight find fst Client.tab].
        rewrite Nat.eqb_refl. cbn [filter fst negb]. rewrite Nat.eqb_refl. cbn [negb].
        rewrite set_clock_same.
        assert (T : Client.in_time (Client.clock t1) t1 = true).
        { unfold Client.in_time. subst t1 rearmed.
          cbn [Client.send_status snd Client.clock Client.pollInterval Client.giveUp
                 Client.set_pollInterval Client.set_clock Client.due].
          destruct (next_timer_interval _ _ N) as [_ G].
          rewrite Z.leb_refl. cbn [andb].
          replace (Client.due p <=? Client.due p + Client.POLL_MS) with true
            by (symmetry; apply Z.leb_le; unfold Client.POLL_MS; lia).
          cbn [andb]. destruct (Client.giveUp t) as [g|]; [|reflexivity].
          apply Z.leb_le. now apply G. }
        rewrite T. reflexivity. }
      rewrite A. cbn [Client.run_schedule].
      rewrite (act_interval (Client.mkLoop t []) p N). cbn [Client.tab Client.inflight].
      fold rearmed. rewrite (send_printable p rearmed u J). cbn [fst snd app].
      fold t1 n. rewrite A. apply IH.
    + destruct (send_unprintable p rearmed e J) as [F _].
      rewrite F. cbn [Client.run_schedule].
      rewrite (act_interval (Client.mkLoop t []) p N). cbn [Client.tab Client.inflight].
      fold rearmed. rewrite F.
      destruct (Client.poll_send p rearmed) as [[[n|]|] t1]; try discriminate F.
      cbn [snd]. apply IH.
  - unfold Client.act at 1. cbn [Client.tab]. rewrite N. cbn [Client.inflight].
    cbn [Client.run_schedule]. unfold Client.act at 1. cbn [Client.tab]. rewrite N.
    cbn [Client.inflight Client.fire]. apply IH.
  - unfold Client.act. cbn [Client.tab]. rewrite N. reflexivity.
Qed.

(** C4 (as amended).  A job is polled as follows, whatever the time the
    replies take and whatever else happens on the page.  Take the page as
    [handleScrapeUrl] leaves it when it has set its timers at time [c], and
    any run of the event loop from there.  The status requests of the run
    are one at every firing of the interval, 2000 ms apart from [c + 2000]
    on, that comes before the timeout and before the first reply handled
    that ends the polling: not one less, not one more.  There are at most
    150 of them, none later than [c + 300000].  As long as no such reply
    has been handled and firings remain, the interval stays set.  Handling
    a reply sends nothing, and it clears the interval exactly when the reply
    is one that [stops] lists (a failed request, status "error", status
    "completed" with a result); a reply with status "completed" and no
    result is not one of them.  Once the interval is cleared no request is
    sent any more.  A job whose id cannot be written into the address is
    not asked about at all.  The two timers fire at most 151 times in all,
    and once they have fired more often than the interval can before the
    timeout, no timer is pending. *)
Theorem polling_stops_and_gives_up (c : Z) (job : value) (s0 s : Client.Loop)
    (schedule : list Client.action) :
  started_at c job s0 ->
  run_schedule schedule s0 = Some s ->
  let k := Nat.min (timers_run (while_polling status_reply schedule))
                   (firings interval_first) in
  (k <= 150)%nat
  /\ (forall at_ms, In at_ms (firing_times c k) -> c < at_ms <= c + Client.GIVE_UP_MS)
  /\ (forall u, ToString job = Normal u ->
        Client.polled (Client.tab s)
        = (Client.polled (Client.tab s0)
           ++ map (fun at_ms => (at_ms, ("/api/scrape/" ++ u)%string))
                  (firing_times c k))%list)
  /\ (forall e, ToString job = Throw e ->
        Client.polled (Client.tab s) = Client.polled (Client.tab s0))
  /\ (while_polling status_reply schedule = schedule ->
      (timers_run schedule <= firings interval_first)%nat ->
      forall u, ToString job = Normal u ->
        polling_on c job (Client.tab s) (timers_run schedule))
  /\ (forall n at_ms s', act (Client.Reply n at_ms) s = Some s' ->
        Client.polled (Client.tab s') = Client.polled (Client.tab s)
        /\ Client.pollInterval (Client.tab s')
           = if stops (status_reply n) then None else Client.pollInterval (Client.tab s))
  /\ (forall reply d, status_data reply = Some d ->
        get_opt (Some d) "status" = Some (JStr "completed") ->
        truthy (get_opt (Some d) "result") = false ->
        stops reply = false)
  /\ (Client.pollInterval (Client.tab s) = None ->
      forall more s', run_schedule more s = Some s' ->
        Client.polled (Client.tab s') = Client.polled (Client.tab s))
  /\ (timers_run schedule <= 151)%nat
  /\ ((firings interval_first < timers_run schedule)%nat ->
      Client.quiescent interval_first (Client.tab s) = true).
Proof.
  intros [On _] R k.
  assert (B : (k <= firings interval_first)%nat) by (subst k; lia).
  pose proof firings_le as F.
  split; [lia|]. split.
  { intros at_ms I. apply firing_times_bounds in I as [j [Hj ->]].
    unfold Client.POLL_MS, Client.GIVE_UP_MS. lia. }
  split.
  { intros u Hu.
    destruct (run_polling c job u schedule Hu s0 s 0%nat On) as [Q _]; [lia | exact R |].
    rewrite Q. cbn [Nat.add]. rewrite Nat.sub_0_r. fold k.
    unfold firing_times. now rewrite map_map. }
  split.
  { intros e He. apply (unprintable_job job e schedule He s0 s); [|exact R].
    intros p Hp. destruct On as [[q [Hq [_ Hj]]] _]. congruence. }
  split.
  { intros W T u Hu.
    destruct (run_polling c job u schedule Hu s0 s 0%nat On) as [_ O]; [lia | exact R |].
    rewrite W in O. now apply O. }
  split.
  { intros n at_ms s' A. apply act_reply in A as [Aq [_ Ai]]. auto. }
  split.
  { intros reply d D S T. unfold stops. rewrite D.
    destruct d; try (cbn in S; discriminate S).
    rewrite S, T. reflexivity. }
  split.
  { intros Hp more s' R'. now destruct (interval_cleared more s s' Hp R'). }
  destruct (run_bounded c job schedule s0 s 0%nat On) as [T Q]; [lia | exact R |].
  cbn [Nat.add] in T, Q. split; [lia|].
  intros L. destruct (Q L) as [I G].
  unfold Client.quiescent, Client.next_timer. now rewrite I, G.
Qed.

End Timers.

(** Witness of C4: the replies take longer than the interval.  The second
    request is out before the first reply is handled; the third reply
    carries the result and is handled before the second one; the page is
    cleared in between. *)
Lemma polling_stops_and_gives_up_witness :
  started_at 0 (Some (JStr "job-1")) Example.started_loop
  /\ exists s,
      @Client.run_schedule Example.online Example.completes_at_third true
        Example.late_replies Example.started_loop = Some s
      /\ Client.polled (Client.tab s)
         = [(2000, "/api/scrape/job-1"); (4000, "/api/scrape/job-1");
            (6000, "/api/scrape/job-1")].
Proof.
  assert (A : started_at 0 (Some (JStr "job-1")) Example.started_loop).
  { split; [split; [eexists; split; [reflexivity | split; reflexivity] | reflexivity]
           | reflexivity]. }
  split; [exact A|].
  destruct (@Client.run_schedule Example.online Example.completes_at_third true
              Example.late_replies Example.started_loop) as [s|] eqn:R;
    [|vm_compute in R; discriminate R].
  exists s. split; [reflexivity|].
  destruct (@polling_stops_and_gives_up Example.online Example.completes_at_third true
              0 (Some (JStr "job-1")) Example.started_loop s Example.late_replies
              A R) as [_ [_ [H _]]].
  rewrite (H "job-1" eq_refl). vm_compute. reflexivity.
Defined.

(** Counterexample to C4 as stated: the job reports "completed" without a
    result at every poll.  The reply to the first request is handled at
    2100 ms: the page shows the complete stage, and polls on at 4000 ms and
    at 6000 ms, after the terminal status it has read. *)
Lemma polling_continues_after_completed :
  terminal (Example.completed_without_result 0) = true
  /\ option_map (fun s => Client.stage (Client.processingStatus (Client.tab s)))
       (@Client.run_schedule Example.online Example.completed_without_result true
          [Client.Timer; Client.Reply 0 2100] Example.started_loop)
     = Some Client.complete
  /\ option_map (fun s => map fst (Client.polled (Client.tab s)))
       (@Client.run_schedule Example.online Example.completed_without_result true
          [Client.Timer; Client.Reply 0 2100; Client.Timer; Client.Reply 1 4100;
           Client.Timer]
          Example.started_loop)
     = Some [2000; 4000; 6000].
Proof. split; [|split]; vm_compute; reflexivity. Qed.

(* ===================================================================== *)
(** ** The quality scorer *)

Section Scoring.
Variable subscore : QualityScorer.CleanedContent -> QualityScorer.Subscores.

Lemma clamp_range (lo hi x : Z) :
  lo <= hi -> lo <= QualityScorer.clamp lo hi x <= hi.
Proof. unfold QualityScorer.clamp. lia. Qed.

(** C5.  The score is a function of the cleaned content alone (equal
    contents get equal scores), and its total lies in [0, 100]: it is the
    weighted sum of the subscores when that sum is in the interval, 0 when
    the sum is below it and 100 when the sum is above it. *)
Theorem score_clamped (c c' : QualityScorer.CleanedContent) :
  0 <= QualityScorer.total (QualityScorer.score subscore c) <= 100
  /\ (c = c' -> QualityScorer.score subscore c = QualityScorer.score subscore c')
  /\ (0 <= QualityScorer.weighted_sum (subscore c) <= 100 ->
      QualityScorer.total (QualityScorer.score subscore c)
      = QualityScorer.weighted_sum (subscore c))
  /\ (QualityScorer.weighted_sum (subscore c) < 0 ->
      QualityScorer.total (QualityScorer.score subscore c) = 0)
  /\ (100 < QualityScorer.weighted_sum (subscore c) ->
      QualityScorer.total (QualityScorer.score subscore c) = 100).
Proof.
  cbn [QualityScorer.score QualityScorer.total].
  split; [apply clamp_range; lia|].
  split; [intros ->; reflexivity|].
  unfold QualityScorer.clamp. repeat split; lia.
Qed.

End Scoring.

(** Witness of C5: subscores far above the scale are clamped to 100. *)
Lemma score_clamped_witness :
  let overshoot := fun _ : QualityScorer.CleanedContent =>
                     QualityScorer.mkSubscores 400 400 400 400 400 in
  let c := QualityScorer.mkCleaned "Example text" ["whitespace_normalization"] 2 in
  QualityScorer.total (QualityScorer.score overshoot c) = 100
  /\ QualityScorer.score overshoot c = QualityScorer.score overshoot c.
Proof.
  intros overshoot c.
  pose proof (score_clamped overshoot c c) as [_ [D [_ [_ H]]]].
  split; [apply H; reflexivity | apply D; reflexivity].
Defined.

(* ===================================================================== *)
(** ** Further properties of the gateway handlers *)

Section Gateway.
Context {P : Platform}.

Lemma prefix_app (a b : string) : String.prefix a (a ++ b) = true.
Proof.
  induction a as [|c a IH]; cbn.
  - destruct b; reflexivity.
  - destruct (Ascii.ascii_dec c c) as [_|N]; [exact IH | now contradiction N].
Qed.

(** X1.  The status handler and the deletion handler make exactly one
    request to the Python API, to the address of the job and with their own
    method, and always answer: the API's document with 200 when it answers
    [ok] with JSON, [Failed to get job status] (respectively [Failed to
    delete job]) with 500 when it answers with a status that is neither [ok]
    nor 404, and the message of the error with 500 when the request fails. *)
Theorem job_route_outcomes (jobId : string) :
  fetch_url (job_call "GET" jobId) = (PYTHON_API_URL ++ "/scrape/" ++ jobId)%string
  /\ (exists resp, run (JobRoute.GET jobId) = (Normal resp, [Fetched (job_call "GET" jobId)]))
  /\ (exists resp,
        run (JobRoute.DELETE jobId) = (Normal resp, [Fetched (job_call "DELETE" jobId)]))
  /\ (forall r data,
        ok r = true -> resp_json r = Normal data ->
        (network (job_call "GET" jobId) = Normal r ->
         fst (run (JobRoute.GET jobId)) = Normal (NextResponse_json data 200))
        /\ (network (job_call "DELETE" jobId) = Normal r ->
            fst (run (JobRoute.DELETE jobId)) = Normal (NextResponse_json data 200)))
  /\ (forall r,
        ok r = false -> resp_status r <> 404 ->
        (network (job_call "GET" jobId) = Normal r ->
         fst (run (JobRoute.GET jobId)) = Normal (error_with "Failed to get job status" 500))
        /\ (network (job_call "DELETE" jobId) = Normal r ->
            fst (run (JobRoute.DELETE jobId))
            = Normal (error_with "Failed to delete job" 500)))
  /\ (forall e,
        (network (job_call "GET" jobId) = Throw (ThrownError e) ->
         fst (run (JobRoute.GET jobId)) = Normal (error_with (message e) 500))
        /\ (network (job_call "DELETE" jobId) = Throw (ThrownError e) ->
            fst (run (JobRoute.DELETE jobId)) = Normal (error_with (message e) 500))).
Proof.
  split; [reflexivity|].
  unfold run, JobRoute.GET, JobRoute.DELETE, try_catch, bind, fetch, await, throw, ret.
  fold (job_call "GET" jobId). fold (job_call "DELETE" jobId). cbn [app].
  split; [|split].
  - destruct (network (job_call "GET" jobId)) as [r|e]; [|eexists; reflexivity].
    destruct (ok r); cbn [negb];
      [destruct (resp_json r) | destruct (resp_status r =? 404)]; eexists; reflexivity.
  - destruct (network (job_call "DELETE" jobId)) as [r|e]; [|eexists; reflexivity].
    destruct (ok r); cbn [negb];
      [destruct (resp_json r) | destruct (resp_status r =? 404)]; eexists; reflexivity.
  - split; [|split].
    + intros r data O J. split; intros N; rewrite N, O, J; reflexivity.
    + intros r O S. apply Z.eqb_neq in S.
      split; intros N; rewrite N, O, S; reflexivity.
    + intros e. split; intros N; rewrite N; reflexivity.
Qed.

(** X2.  The export handler always answers and calls the Python API at
    most once.  For a known format it answers 404 "Job not found" when the
    API answers 404, 500 "Failed to export data" when the API answers with
    another status that is not [ok], and 500 with the message of the error
    when the request or the reading of the body fails. *)
Theorem export_failures (jobId format : string) :
  (exists resp log,
      run (ExportRoute.GET jobId format) = (Normal resp, log)
      /\ (log = [] \/ log = [Fetched (export_call jobId format)]))
  /\ (ExportRoute.known_format format = true ->
      forall r, network (export_call jobId format) = Normal r ->
        (resp_status r = 404 ->
         fst (run (ExportRoute.GET jobId format)) = Normal (error_with "Job not found" 404))
        /\ (ok r = false -> resp_status r <> 404 ->
            fst (run (ExportRoute.GET jobId format))
            = Normal (error_with "Failed to export data" 500))
        /\ (forall e, ok r = true -> resp_text r = Throw (ThrownError e) ->
            fst (run (ExportRoute.GET jobId format))
            = Normal (error_with (message e) 500)))
  /\ (ExportRoute.known_format format = true ->
      forall e, network (export_call jobId format) = Throw (ThrownError e) ->
        fst (run (ExportRoute.GET jobId format)) = Normal (error_with (message e) 500)).
Proof.
  unfold run, ExportRoute.GET, try_catch, bind, fetch, await, throw, ret.
  fold (export_call jobId format). cbn [app].
  destruct (ExportRoute.known_format format); cbn [negb].
  2:{ split; [do 2 eexists; split; [reflexivity | now left]|].
      split; discriminate. }
  split; [|split].
  - destruct (network (export_call jobId format)) as [r|e];
      [|do 2 eexists; split; [reflexivity | now right]].
    unfold new_Response.
    destruct (ok r); cbn [negb];
      [destruct (resp_text r); [destruct (forallb _ _)|] | destruct (resp_status r =? 404)];
      do 2 eexists; (split; [reflexivity | now right]).
  - intros _ r N. rewrite N. split; [|split].
    + intros S. rewrite (not_ok_404 _ S), S. reflexivity.
    + intros O S. apply Z.eqb_neq in S. rewrite O, S. reflexivity.
    + intros e O T. rewrite O, T. reflexivity.
  - intros _ e N. rewrite N. reflexivity.
Qed.

(** A request with an acceptable url reaches the call to the Python API. *)
Lemma scrape_POST_accepted (request : NextRequest) (body : json) :
  req_json request = Normal body ->
  acceptable (get_opt (Some body) "url") = true ->
  run (ScrapeRoute.POST request)
  = run (try_catch
           (ScrapeRoute.start_job (get_opt (Some body) "url")
              (match get_opt (Some body) "maxPages" with
               | None => Some (JNum 5)
               | Some m => Some m
               end))
           (fun e => ret (NextResponse_json
                            (JObj [("error", JStr (message_or e "Failed to scrape URL"))])
                            500)))
  /\ run (TestScrapeRoute.POST request)
     = run (try_catch
              (TestScrapeRoute.start_job (get_opt (Some body) "url")
                 (get_opt (Some body) "customInstructions"))
              (fun e => ret (NextResponse_json
                               (JObj [("error",
                                       JStr (message_or e "Failed to start test scrape"))])
                               500))).
Proof.
  intros E A.
  assert (Hn : body <> JNull) by (intros ->; discriminate A).
  rewrite (scrape_POST_readable _ _ E Hn), (test_POST_readable _ _ E Hn). cbv zeta.
  unfold acceptable in A. apply andb_prop in A as [T U]. rewrite T. cbn [negb].
  destruct (new_URL _); [split; reflexivity | discriminate U].
Qed.


(** An own property of a document of exactly held numbers is one. *)
Lemma held_lookup (k : string) (props : list (string * json)) (v : json) :
  held_exactly (JObj props) = true -> lookup k props = Some v -> held_exactly v = true.
Proof.
  cbn [held_exactly]. induction props as [|[k' v'] rest IH]; cbn [forallb lookup].
  - discriminate.
  - intros H. apply andb_prop in H as [Hv Hr].
    destruct (k' =? k)%string; [intros [= <-]; exact Hv | now apply IH].
Qed.

(** X4.  A scrape request is a JSON text; take one whose numbers are all
    integers that a double holds exactly (magnitude at most 2^53), so that
    the parsed body is what the text says.  When it has an acceptable url
    and supplies a page budget, whatever value it is ([null], a boolean, a
    string, such an integer, an array or object of these), that value is
    forwarded as [max_pages]: the default applies to an absent field only;
    and the forwarded body is again made of exactly held numbers, so the
    Python API reads what was written.  And when the Python API answers
    [ok] with a JSON document, the caller gets that document with 200. *)
Theorem scrape_relays_job (request : NextRequest) (body : json) :
  req_json request = Normal body ->
  held_exactly body = true ->
  acceptable (get_opt (Some body) "url") = true ->
  let u := get_opt (Some body) "url" in
  (forall m, get_opt (Some body) "maxPages" = Some m ->
             forwarded (run (ScrapeRoute.POST request)) = [scrape_call u (Some m)]
             /\ get_opt (Some (body_of (scrape_call u (Some m)))) "max_pages" = Some m
             /\ held_exactly (body_of (scrape_call u (Some m))) = true)
  /\ (forall q r data,
        In q (forwarded (run (ScrapeRoute.POST request))) ->
        network q = Normal r -> ok r = true -> resp_json r = Normal data ->
        fst (run (ScrapeRoute.POST request)) = Normal (NextResponse_json data 200)).
Proof.
  intros E X A u. split.
  - intros m M. rewrite scrape_forwarded, E, A, M.
    split; [reflexivity|].
    unfold acceptable in A. apply andb_prop in A as [T _].
    apply truthy_some in T as [j Hj]. subst u. rewrite Hj.
    split; [reflexivity|].
    destruct body as [ | | | | |props]; try discriminate Hj.
    cbn [get_opt] in Hj, M.
    unfold body_of, scrape_call, JSON_object. cbn [fetch_body present held_exactly forallb].
    rewrite (held_lookup _ _ _ X Hj), (held_lookup _ _ _ X M). reflexivity.
  - intros q r data. rewrite scrape_forwarded, E, A.
    intros [<-|[]] N O J.
    destruct (scrape_POST_accepted request body E A) as [Rs _]. rewrite Rs.
    match goal with
    | |- context [ScrapeRoute.start_job ?a ?b] =>
        destruct (scrape_start_job a b) as [resp [S Y]]
    end.
    rewrite S. rewrite N, O, J in Y. now rewrite Y.
Qed.

(** X5.  The scrape and test-scrape entry points always answer, with
    status 200, 400 or 500, and call the Python API at most once. *)
Theorem scrape_routes_total (request : NextRequest) :
  (exists resp log,
      run (ScrapeRoute.POST request) = (Normal resp, log)
      /\ (status resp = 200 \/ status resp = 400 \/ status resp = 500)
      /\ (length log <= 1)%nat)
  /\ (exists resp log,
         run (TestScrapeRoute.POST request) = (Normal resp, log)
         /\ (status resp = 200 \/ status resp = 400 \/ status resp = 500)
         /\ (length log <= 1)%nat).
Proof.
  destruct (req_json request) as [body|t] eqn:E.
  2:{ rewrite (scrape_POST_unreadable _ _ E), (test_POST_unreadable _ _ E).
      split; do 2 eexists; (split; [reflexivity|]); cbn; auto. }
  destruct (json_eq_null body) as [->|Hn].
  { rewrite (scrape_POST_null _ E), (test_POST_null _ E).
    split; do 2 eexists; (split; [reflexivity|]); cbn; auto. }
  rewrite (scrape_POST_readable _ _ E Hn), (test_POST_readable _ _ E Hn). cbv zeta.
  destruct (truthy _); cbn [negb];
    [|split; do 2 eexists; (split; [reflexivity|]); cbn; auto].
  destruct (new_URL _);
    [|split; do 2 eexists; (split; [reflexivity|]); cbn; auto].
  split.
  - match goal with
    | |- context [ScrapeRoute.start_job ?a ?b] =>
        destruct (scrape_start_job a b) as [resp [S X]]
    end.
    rewrite S. exists resp. eexists. split; [reflexivity|]. split; [|cbn; lia].
    destruct (network _) as [r|]; [destruct (ok r); [destruct (resp_json r)|]|];
      try solve [rewrite X; cbn; auto];
      destruct X as [msg ->]; cbn; auto.
  - match goal with
    | |- context [TestScrapeRoute.start_job ?a ?b] =>
        destruct (test_start_job a b) as [resp [S X]]
    end.
    rewrite S. exists resp. eexists. split; [reflexivity|]. split; [|cbn; lia].
    destruct (network _) as [r|]; [destruct (ok r); [destruct (resp_json r)|]|];
      try solve [rewrite X; cbn; auto];
      destruct X as [msg ->]; cbn; auto.
Qed.

(** The log of each handler that calls the Python API once. *)
Lemma job_logs (jobId : string) :
  snd (run (JobRoute.GET jobId)) = [Fetched (job_call "GET" jobId)]
  /\ snd (run (JobRoute.DELETE jobId)) = [Fetched (job_call "DELETE" jobId)].
Proof.
  unfold run, JobRoute.GET, JobRoute.DELETE, try_catch, bind, fetch, await, throw, ret.
  fold (job_call "GET" jobId). fold (job_call "DELETE" jobId). cbn [app].
  split.
  - destruct (network (job_call "GET" jobId)) as [r|e]; [|reflexivity].
    destruct (ok r); cbn [negb];
      [destruct (resp_json r) | destruct (resp_status r =? 404)]; reflexivity.
  - destruct (network (job_call "DELETE" jobId)) as [r|e]; [|reflexivity].
    destruct (ok r); cbn [negb];
      [destruct (resp_json r) | destruct (resp_status r =? 404)]; reflexivity.
Qed.

Lemma export_log (jobId format : string) :
  snd (run (ExportRoute.GET jobId format))
  = if ExportRoute.known_format format then [Fetched (export_call jobId format)] else [].
Proof.
  unfold run, ExportRoute.GET, try_catch, bind, fetch, await, throw, ret.
  fold (export_call jobId format). cbn [app].
  destruct (ExportRoute.known_format format); cbn [negb]; [|reflexivity].
  destruct (network (export_call jobId format)) as [r|e]; [|reflexivity].
  unfold new_Response.
  destruct (ok r); cbn [negb];
    [destruct (resp_text r); [destruct (forallb _ _)|] | destruct (resp_status r =? 404)];
    reflexivity.
Qed.

(** The health handler, outcome by outcome. *)
Lemma health_GET_cases (now : Z) :
  run (HealthRoute.GET now)
  = (match network health_call with
     | Normal r =>
         if ok r then
           match resp_json r with
           | Normal d => Normal (NextResponse_json (HealthRoute.healthStatus d now) 200)
           | Throw e =>
               Normal (NextResponse_json
                         (JObj [("status", JStr "unhealthy");
                                ("timestamp", JStr (Date_toISOString now));
                                ("error", JStr (message_or e "Health check failed"))])
                         500)
           end
         else Normal (NextResponse_json (HealthRoute.healthStatus JNull now) 200)
     | Throw e =>
         Normal (NextResponse_json
                   (JObj [("status", JStr "unhealthy");
                          ("timestamp", JStr (Date_toISOString now));
                          ("error", JStr (message_or e "Health check failed"))])
                   500)
     end,
     [Fetched health_call]).
Proof.
  unfold run, HealthRoute.GET, try_catch, bind, fetch, await, ret.
  fold health_call. cbn [app].
  destruct (network health_call) as [r|e]; [|reflexivity].
  destruct (ok r); [destruct (resp_json r)|]; reflexivity.
Qed.

(** X6.  The health handler always answers after exactly one request to
    the Python API.  It answers 200 with a report whose status is "healthy"
    exactly when the API answered [ok] with a truthy document, and
    "degraded" otherwise (also when the API answered, but not [ok]), the
    status of the [python_api] service in the report agreeing with it; it
    answers 500 with status "unhealthy" and the message of the error when
    the request fails or an [ok] answer is not JSON. *)
Theorem health_report (now : Z) :
  (exists resp, run (HealthRoute.GET now) = (Normal resp, [Fetched health_call]))
  /\ (forall r d, network health_call = Normal r -> ok r = true ->
                  resp_json r = Normal d ->
                  fst (run (HealthRoute.GET now))
                  = Normal (NextResponse_json (HealthRoute.healthStatus d now) 200))
  /\ (forall r, network health_call = Normal r -> ok r = false ->
                fst (run (HealthRoute.GET now))
                = Normal (NextResponse_json (HealthRoute.healthStatus JNull now) 200))
  /\ (forall d,
        get_opt (Some (HealthRoute.healthStatus d now)) "status"
        = Some (JStr (if truthy (Some d) then "healthy" else "degraded"))
        /\ get_opt (get_opt (get_opt (Some (HealthRoute.healthStatus d now)) "services")
                            "python_api") "status"
           = Some (JStr (if truthy (Some d) then "healthy" else "unhealthy"))
        /\ get_opt (get_opt (get_opt (Some (HealthRoute.healthStatus d now)) "services")
                            "python_api") "details"
           = Some d)
  /\ (forall e,
        network health_call = Throw (ThrownError e)
        \/ (exists r, network health_call = Normal r /\ ok r = true
                      /\ resp_json r = Throw (ThrownError e)) ->
        fst (run (HealthRoute.GET now))
        = Normal (NextResponse_json
                    (JObj [("status", JStr "unhealthy");
                           ("timestamp", JStr (Date_toISOString now));
                           ("error", JStr (message e))])
                    500)).
Proof.
  rewrite health_GET_cases. split; [|split; [|split; [|split]]].
  - destruct (network health_call) as [r|e]; [|eexists; reflexivity].
    destruct (ok r); [destruct (resp_json r)|]; eexists; reflexivity.
  - intros r d N O J. rewrite N, O, J. reflexivity.
  - intros r N O. rewrite N, O. reflexivity.
  - intros d. repeat split.
  - intros e [N|[r [N [O J]]]]; rewrite N; [|rewrite O, J]; reflexivity.
Qed.

(** X7.  The environment part of the health report agrees with what the
    other handlers do: the Python API url is reported as "using_default"
    exactly when the handlers call http://localhost:8000, and otherwise they
    call the configured address; the model key is reported as "missing"
    exactly when the chat handler refuses to call the model for want of it. *)
Theorem health_environment (d : json) (now : Z) :
  let environment := get_opt (Some (HealthRoute.healthStatus d now)) "environment" in
  (get_opt environment "python_api_url" = Some (JStr "using_default")
   \/ get_opt environment "python_api_url" = Some (JStr "configured"))
  /\ (get_opt environment "python_api_url" = Some (JStr "using_default") ->
      PYTHON_API_URL = "http://localhost:8000")
  /\ (get_opt environment "python_api_url" = Some (JStr "configured") ->
      env "PYTHON_API_URL" = Some PYTHON_API_URL /\ PYTHON_API_URL <> "")
  /\ (get_opt environment "gemini_api_key" = Some (JStr "missing")
      <-> ChatRoute.api_key_missing = true)
  /\ (get_opt environment "gemini_api_key" = Some (JStr "configured")
      <-> ChatRoute.api_key_missing = false).
Proof.
  cbn -[String.eqb]. unfold HealthRoute.env_set, PYTHON_API_URL, ChatRoute.api_key_missing.
  destruct (env "PYTHON_API_URL") as [s|]; destruct (env "GOOGLE_GENERATIVE_AI_API_KEY") as [k|];
    try destruct (String.eqb_spec s ""); try destruct (String.eqb_spec k "");
    cbn; repeat split; auto; try discriminate; try (intros; congruence).
Qed.


(** X9.  Every request of a gateway handler goes to the Python API: its
    address starts with [PYTHON_API_URL].  The chat handler makes no such
    request, and no other handler calls the model. *)
Theorem gateway_calls_python_api_only
    (request : NextRequest) (jobId format : string) (now : Z) (q : FetchRequest) :
  (In q (forwarded (run (ScrapeRoute.POST request)))
   \/ In q (forwarded (run (TestScrapeRoute.POST request)))
   \/ In q (forwarded (run (JobRoute.GET jobId)))
   \/ In q (forwarded (run (JobRoute.DELETE jobId)))
   \/ In q (forwarded (run (ExportRoute.GET jobId format)))
   \/ In q (forwarded (run (HealthRoute.GET now))) ->
   String.prefix PYTHON_API_URL (fetch_url q) = true)
  /\ forwarded (run (ChatRoute.POST request)) = []
  /\ prompted (run (ScrapeRoute.POST request)) = []
  /\ prompted (run (TestScrapeRoute.POST request)) = []
  /\ prompted (run (JobRoute.GET jobId)) = []
  /\ prompted (run (JobRoute.DELETE jobId)) = []
  /\ prompted (run (ExportRoute.GET jobId format)) = []
  /\ prompted (run (HealthRoute.GET now)) = [].
Proof.
  split.
  - intros H. destruct H as [H|[H|[H|[H|[H|H]]]]].
    + rewrite scrape_forwarded in H.
      destruct (req_json request); [destruct (acceptable _)|]; try contradiction.
      destruct H as [<-|[]]. apply prefix_app.
    + rewrite test_forwarded in H.
      destruct (req_json request); [destruct (acceptable _)|]; try contradiction.
      destruct H as [<-|[]]. apply prefix_app.
    + unfold forwarded in H. rewrite (proj1 (job_logs jobId)) in H.
      destruct H as [<-|[]]. apply prefix_app.
    + unfold forwarded in H. rewrite (proj2 (job_logs jobId)) in H.
      destruct H as [<-|[]]. apply prefix_app.
    + unfold forwarded in H. rewrite export_log in H.
      destruct (ExportRoute.known_format format); [|contradiction].
      destruct H as [<-|[]]. apply prefix_app.
    + rewrite health_GET_cases in H. destruct H as [<-|[]]. apply prefix_app.
  - split.
    { destruct (chat_POST_cases request)
        as [[resp [R _]]|[body [prompt [resp [_ [_ [_ [_ [R _]]]]]]]]]; rewrite R; reflexivity. }
    assert (S : prompted (run (ScrapeRoute.POST request)) = []
                /\ prompted (run (TestScrapeRoute.POST request)) = []).
    { destruct (req_json request) as [body|t] eqn:E.
      2:{ rewrite (scrape_POST_unreadable _ _ E), (test_POST_unreadable _ _ E). now split. }
      destruct (json_eq_null body) as [->|Hn].
      { rewrite (scrape_POST_null _ E), (test_POST_null _ E). now split. }
      rewrite (scrape_POST_readable _ _ E Hn), (test_POST_readable _ _ E Hn). cbv zeta.
      destruct (truthy _); cbn [negb]; [|now split].
      destruct (new_URL _); [|now split].
      split.
      - match goal with
        | |- context [ScrapeRoute.start_job ?a ?b] =>
            destruct (scrape_start_job a b) as [resp [-> _]]
        end. reflexivity.
      - match goal with
        | |- context [TestScrapeRoute.start_job ?a ?b] =>
            destruct (test_start_job a b) as [resp [-> _]]
        end. reflexivity. }
    destruct S as [S1 S2]. split; [exact S1|]. split; [exact S2|].
    unfold prompted. rewrite (proj1 (job_logs jobId)), (proj2 (job_logs jobId)), export_log.
    rewrite health_GET_cases.
    destruct (ExportRoute.known_format format); repeat split.
Qed.

End Gateway.

(* ===================================================================== *)
(** ** Further properties of the page *)

Section Page.
Context {P : Platform}.
Variable status_reply : nat -> completion FetchResponse.
Variable interval_first : bool.

(** X10.  [handleScrapeUrl] never throws.  On a blank url it does nothing.
    Otherwise it sends exactly one request, the start of the job, and when
    the entry point does not accept the job (it answers with a status that
    is not [ok], or the request fails) it sets no timer and no job id and
    shows the error stage with the [error] of the answer, printed as a
    string, when there is a truthy one, "Failed to start scraping job" when
    there is none, and the message of the error when the request failed. *)
Theorem handleScrapeUrl_outcomes (test : bool) (t : Client.Tab) :
  let t' := snd (Client.handleScrapeUrl test t) in
  let q := start_call test (Client.urlInput t) (Client.customInstructions t) in
  fst (Client.handleScrapeUrl test t) = Normal tt
  /\ (String_trim (Client.urlInput t) = "" -> t' = t)
  /\ (String_trim (Client.urlInput t) <> "" ->
      Client.started t' = (Client.started t ++ [q])%list
      /\ Client.polled t' = Client.polled t
      /\ Client.scrapedData t' = Client.scrapedData t
      /\ (forall r, network q = Normal r -> ok r = false ->
            Client.pollInterval t' = Client.pollInterval t
            /\ Client.giveUp t' = Client.giveUp t
            /\ Client.jobId t' = Client.jobId t
            /\ Client.stage (Client.processingStatus t') = Client.error
            /\ (forall d s, resp_json r = Normal d -> d <> JNull ->
                  ToString (or_else (get_opt (Some d) "error")
                                    (Some (JStr "Failed to start scraping job"))) = Normal s ->
                  Client.message (Client.processingStatus t') = Some (JStr s))
            /\ (forall e, resp_json r = Throw e ->
                  Client.message (Client.processingStatus t')
                  = Some (JStr "Failed to start scraping job")))
      /\ (forall e, network q = Throw (ThrownError e) ->
            Client.pollInterval t' = Client.pollInterval t
            /\ Client.giveUp t' = Client.giveUp t
            /\ Client.jobId t' = Client.jobId t
            /\ Client.processingStatus t'
               = {| Client.stage := Client.error;
                    Client.progress := Some (JNum 0);
                    Client.message := Some (JStr (message e)) |})).
Proof.
  intros t' q. subst t'. unfold Client.handleScrapeUrl.
  destruct (String.eqb_spec (String_trim (Client.urlInput t)) "") as [B|B].
  { split; [reflexivity|]. split; [reflexivity | intros H; now contradiction H]. }
  unfold bind, try_catch, Client.setIsTestMode, Client.setProcessingStatus, modify,
    Client.fetch_start, await, throw, ret, Client.setJobId, Client.setInterval,
    Client.setTimeout, new_Error, json_or_empty.
  cbn [Client.urlInput Client.customInstructions].
  fold (start_call test (Client.urlInput t) (Client.customInstructions t)). fold q.
  split; [|split; [intros H; now contradiction B|intros _]].
  - destruct (network q) as [r|e]; [|reflexivity].
    destruct (ok r); cbn [negb].
    + destruct (resp_json r) as [d|]; [|reflexivity].
      destruct (get (Some d) "job_id"); reflexivity.
    + destruct (get _ "error") as [d|]; [|reflexivity].
      destruct (ToString _); reflexivity.
  - split; [|split; [|split; [|split]]].
    + destruct (network q) as [r|e]; [|reflexivity].
      destruct (ok r); cbn [negb].
      * destruct (resp_json r) as [d|]; [|reflexivity].
        destruct (get (Some d) "job_id"); reflexivity.
      * destruct (get _ "error") as [d|]; [|reflexivity].
        destruct (ToString _); reflexivity.
    + destruct (network q) as [r|e]; [|reflexivity].
      destruct (ok r); cbn [negb].
      * destruct (resp_json r) as [d|]; [|reflexivity].
        destruct (get (Some d) "job_id"); reflexivity.
      * destruct (get _ "error") as [d|]; [|reflexivity].
        destruct (ToString _); reflexivity.
    + destruct (network q) as [r|e]; [|reflexivity].
      destruct (ok r); cbn [negb].
      * destruct (resp_json r) as [d|]; [|reflexivity].
        destruct (get (Some d) "job_id"); reflexivity.
      * destruct (get _ "error") as [d|]; [|reflexivity].
        destruct (ToString _); reflexivity.
    + intros r N O. rewrite N, O. cbn [negb].
      repeat split.
      * destruct (get _ "error") as [d|]; [destruct (ToString _)|]; reflexivity.
      * destruct (get _ "error") as [d|]; [destruct (ToString _)|]; reflexivity.
      * destruct (get _ "error") as [d|]; [destruct (ToString _)|]; reflexivity.
      * destruct (get _ "error") as [d|]; [destruct (ToString _)|]; reflexivity.
      * intros d s J Hn T. rewrite J, (get_not_null _ _ Hn), T. reflexivity.
      * intros e J. rewrite J. reflexivity.
    + intros e N. rewrite N. repeat split.
Qed.

Lemma payload_fields (test : bool) (u instructions : string) :
  get_opt (Some (Client.payload test u instructions)) "url" = Some (JStr u)
  /\ get_opt (Some (Client.payload test u instructions)) "maxPages"
     = (if test then undefined else Some (JNum 5))
  /\ get_opt (Some (Client.payload test u instructions)) "customInstructions"
     = Some (if (instructions =? "")%string then JNull else JStr instructions).
Proof.
  unfold Client.payload, Client.instructions_or_null, or_else, JSON_object.
  cbn [truthy].
  destruct test; destruct (instructions =? "")%string;
    cbn [negb present get_opt lookup String.eqb Ascii.eqb Bool.eqb];
    (split; [|split]); reflexivity.
Qed.

Lemma acceptable_string (u : string) :
  acceptable (Some (JStr u)) = negb (u =? "")%string && URL_parses u.
Proof.
  unfold acceptable, new_URL. cbn [truthy ToString json_toString].
  destruct (URL_parses u); reflexivity.
Qed.

(** X11.  What the page sends reaches the Python API as follows.  For a
    url that is not empty and that the URL constructor accepts, the payload
    of a full scrape is forwarded as the url with [max_pages] 5 and nothing
    else, and the payload of a test scrape as the url with the instructions
    typed in, [null] when the box is empty.  For a url that the URL
    constructor rejects both entry points answer 400 "Invalid URL format"
    and forward nothing. *)
Theorem page_payload_forwarded (u instructions : string) :
  u <> "" ->
  let full := {| req_json := Normal (Client.payload false u instructions) |} in
  let single := {| req_json := Normal (Client.payload true u instructions) |} in
  (URL_parses u = true ->
   map body_of (forwarded (run (ScrapeRoute.POST full)))
   = [JObj [("url", JStr u); ("max_pages", JNum 5)]]
   /\ map body_of (forwarded (run (TestScrapeRoute.POST single)))
      = [JObj [("url", JStr u);
               ("custom_instructions",
                if (instructions =? "")%string then JNull else JStr instructions)]])
  /\ (URL_parses u = false ->
      run (ScrapeRoute.POST full) = (Normal (error_with "Invalid URL format" 400), [])
      /\ run (TestScrapeRoute.POST single)
         = (Normal (error_with "Invalid URL format" 400), [])).
Proof.
  intros Hu full single.
  assert (Hne : (u =? "")%string = false) by (now apply String.eqb_neq).
  destruct (payload_fields false u instructions) as [F1 [F2 F3]].
  destruct (payload_fields true u instructions) as [S1 [S2 S3]].
  split.
  - intros U. rewrite scrape_forwarded, test_forwarded. cbn [req_json full single].
    rewrite F1, F2, S1, S3, acceptable_string, Hne, U. cbn [negb andb map].
    unfold scrape_call, test_scrape_call, body_of, JSON_object, or_else. cbn [fetch_body present].
    destruct (instructions =? "")%string eqn:I; cbn [truthy]; rewrite ?I;
      split; reflexivity.
  - intros U.
    assert (N1 : Client.payload false u instructions <> JNull) by discriminate.
    assert (N2 : Client.payload true u instructions <> JNull)
      by (unfold Client.payload, JSON_object; discriminate).
    rewrite (scrape_POST_readable full _ eq_refl N1), (test_POST_readable single _ eq_refl N2).
    cbv zeta. rewrite F1, S1. unfold new_URL. cbn [truthy ToString json_toString].
    rewrite Hne, U. split; reflexivity.
Qed.

(** The case analysis of [poll] on a reply it got. *)
Ltac reply_cases p t :=
  unfold Client.poll, try_catch, bind, await, throw, ret, Client.fetch_status,
    Client.setProcessingStatus, Client.setScrapedData, Client.clearInterval, modify,
    stops, status_data;
  destruct (ToString (Client.job_id p)) as [job'|e0]; [|discriminate];
  destruct (status_reply (length (Client.polled t))) as [r|e];
  [ destruct (ok r); [ destruct (resp_json r) as [d0|e] | ] | ];
  cbn [negb fst snd].

(** X12.  A poll whose status request fails (no answer, an answer that is
    not [ok] or not JSON, or the document [null]) shows the error stage with
    "Failed to get scraping status" and progress 0, and clears the interval.
    A poll whose reply does not end the polling shows the progress and the
    message of the reply, in the complete stage when the status is
    "completed" and in the scraping stage otherwise, and leaves the interval
    set.  Neither records result data. *)
Theorem poll_other_replies (p : Client.Poller) (t : Client.Tab) (job : string) :
  ToString (Client.job_id p) = Normal job ->
  let reply := status_reply (length (Client.polled t)) in
  let t' := snd (Client.poll status_reply p t) in
  (status_data reply = None \/ status_data reply = Some JNull ->
   Client.processingStatus t'
   = {| Client.stage := Client.error;
        Client.progress := Some (JNum 0);
        Client.message := Some (JStr "Failed to get scraping status") |}
   /\ Client.pollInterval t' = None
   /\ Client.scrapedData t' = Client.scrapedData t)
  /\ (forall d, status_data reply = Some d -> stops reply = false ->
      Client.processingStatus t'
      = {| Client.stage := if strict_eq_str (get_opt (Some d) "status") "completed"
                           then Client.complete else Client.scraping;
           Client.progress := get_opt (Some d) "progress";
           Client.message := get_opt (Some d) "message" |}
      /\ Client.pollInterval t' = Client.pollInterval t
      /\ Client.scrapedData t' = Client.scrapedData t).
Proof.
  intros J reply t'. subst reply t'. split.
  - revert J. reply_cases p t; intros _ [H|H]; try discriminate H;
      try (repeat split; reflexivity).
    injection H as ->. repeat split; reflexivity.
  - intros d. revert J. reply_cases p t; intros _ H; try discriminate H.
    injection H as <-.
    destruct d0 as [ | b | n | s | items | props ]; cbn [get get_opt];
      try discriminate; try (intros _; repeat split; reflexivity).
    destruct (strict_eq_str (lookup "status" props) "completed") eqn:Hc;
      [destruct (truthy (lookup "result" props)) eqn:Hr|];
      destruct (strict_eq_str (lookup "status" props) "error") eqn:He;
      cbn [andb orb]; try discriminate; intros _; repeat split; reflexivity.
Qed.

Lemma run_interval_cleared (fuel : nat) (t : Client.Tab) :
  Client.pollInterval t = None ->
  Client.polled (Client.run_timers status_reply interval_first fuel t) = Client.polled t
  /\ ((1 <= fuel)%nat ->
      Client.quiescent interval_first (Client.run_timers status_reply interval_first fuel t)
      = true).
Proof.
  intros Hp. destruct fuel as [|fuel]; [split; [reflexivity | lia]|].
  cbn [Client.run_timers]. unfold Client.step, Client.next_timer. rewrite Hp.
  destruct (Client.giveUp t) as [g|] eqn:Hg.
  - cbn [Client.fire].
    assert (Q : Client.step status_reply interval_first
                  (Client.set_pollInterval None
                     (Client.set_giveUp None (Client.set_clock g t))) = None) by reflexivity.
    destruct fuel as [|fuel]; cbn [Client.run_timers]; [|rewrite Q];
      (split; [reflexivity | intros _; reflexivity]).
  - split; [reflexivity|]. intros _. unfold Client.quiescent, Client.next_timer.
    rewrite Hp, Hg. reflexivity.
Qed.

Lemma count_run (c : Z) (job : string) (first budget : nat) :
  forall (k : nat) (t : Client.Tab) (p : Client.Poller) (fuel : nat),
    Client.pollInterval t = Some p ->
    ToString (Client.job_id p) = Normal job ->
    Client.due p = c + Client.POLL_MS * Z.of_nat (S k) ->
    Client.giveUp t = Some (c + Client.GIVE_UP_MS) ->
    length (Client.polled t) = (first + k)%nat ->
    (k + budget = firings interval_first)%nat ->
    (budget + 2 <= fuel)%nat ->
    length (Client.polled (Client.run_timers status_reply interval_first fuel t))
    = count_from status_reply budget (first + k)
    /\ Client.quiescent interval_first (Client.run_timers status_reply interval_first fuel t)
       = true.
Proof.
  induction budget as [|budget IH]; intros k t p fuel Hp Hj Hd Hg Hl Hk Hf.
  - destruct fuel as [|fuel]; [lia|]. cbn [Client.run_timers count_from].
    assert (S1 : Client.step status_reply interval_first t
                 = Some (Client.fire status_reply (Client.FireTimeout (c + Client.GIVE_UP_MS)) t)).
    { unfold Client.step, Client.next_timer. rewrite Hp, Hg, Hd.
      unfold Client.POLL_MS, Client.GIVE_UP_MS, firings in *.
      destruct interval_first.
      - destruct (Z.ltb_spec (c + 2000 * Z.of_nat (S k)) (c + 300000)); [lia|].
        destruct (Z.ltb_spec (c + 300000) (c + 2000 * Z.of_nat (S k))); [reflexivity|lia].
      - destruct (Z.ltb_spec (c + 2000 * Z.of_nat (S k)) (c + 300000)); [lia|].
        destruct (Z.ltb_spec (c + 300000) (c + 2000 * Z.of_nat (S k))); reflexivity. }
    rewrite S1. cbn [Client.fire].
    destruct (run_interval_cleared fuel
                (Client.set_pollInterval None
                   (Client.set_giveUp None
                      (Client.set_clock (c + Client.GIVE_UP_MS) t))) eq_refl) as [Q1 Q2].
    rewrite Q1. split; [exact Hl | apply Q2; lia].
  - destruct fuel as [|fuel]; [lia|]. cbn [Client.run_timers count_from].
    assert (S1 : Client.step status_reply interval_first t
                 = Some (Client.fire status_reply (Client.FireInterval p) t)).
    { unfold Client.step, Client.next_timer. rewrite Hp, Hg, Hd.
      unfold Client.POLL_MS, Client.GIVE_UP_MS, firings in *.
      destruct (Z.ltb_spec (c + 2000 * Z.of_nat (S k)) (c + 300000)); [reflexivity|].
      destruct (Z.ltb_spec (c + 300000) (c + 2000 * Z.of_nat (S k))).
      - destruct interval_first; lia.
      - destruct interval_first; [reflexivity | lia]. }
    rewrite S1. cbn [Client.fire].
    set (rearmed := Client.set_pollInterval _ _).
    pose proof (poll_polled status_reply p rearmed) as Hq.
    pose proof (poll_pollInterval status_reply p rearmed) as Hi.
    pose proof (poll_giveUp status_reply p rearmed) as Hg'.
    rewrite Hj in Hq, Hi.
    change (Client.polled rearmed) with (Client.polled t) in Hq, Hi.
    change (Client.giveUp rearmed) with (Client.giveUp t) in Hg'.
    rewrite Hl in Hi. rewrite Hg in Hg'.
    assert (Hl' : length (Client.polled (snd (Client.poll status_reply p rearmed)))
                  = S (first + k)).
    { rewrite Hq, length_app, Hl. cbn. lia. }
    destruct (stops (status_reply (first + k))) eqn:St.
    + destruct (run_interval_cleared fuel _ Hi) as [Q1 Q2].
      rewrite Q1. split; [exact Hl' | apply Q2; lia].
    + replace (S (first + k)) with (first + S k)%nat in * by lia.
      apply (IH (S k) _ (Client.mkPoller (Client.due p + Client.POLL_MS) (Client.job_id p)
                                        (Client.testMode p)) fuel); auto; try lia.
      cbn [Client.due]. rewrite Hd. unfold Client.POLL_MS. lia.
Qed.

Lemma count_from_running (budget : nat) :
  forall k, (forall j, (k <= j < k + budget)%nat -> stops (status_reply j) = false) ->
            count_from status_reply budget k = (k + budget)%nat.
Proof.
  induction budget as [|budget IH]; intros k H; cbn [count_from]; [lia|].
  rewrite (H k) by lia. rewrite IH; [lia|]. intros j Hj. apply H. lia.
Qed.

Lemma count_from_stop (budget : nat) :
  forall k n, (k <= n < k + budget)%nat -> stops (status_reply n) = true ->
              (forall j, (k <= j < n)%nat -> stops (status_reply j) = false) ->
              count_from status_reply budget k = S n.
Proof.
  induction budget as [|budget IH]; intros k n Hn Hs Hb; [lia|]. cbn [count_from].
  destruct (Nat.eq_dec k n) as [->|Hne]; [now rewrite Hs|].
  rewrite (Hb k) by lia. apply IH; auto; [lia|]. intros j Hj. apply Hb. lia.
Qed.

(** X13.  One assumption is made here: every status reply is handled
    before the next timer is due (a reply takes less than two seconds) and
    nothing else happens on the page meanwhile, which is the event loop
    along the schedule [promptly], as the first part says.  Take the page
    as [handleScrapeUrl] leaves it when it has set its timers, for a job
    whose id can be written into the address.  The run of the timers then
    ends, and the number of status requests it has made is exact: one more
    than the index of the first reply that ends the polling, when there is
    one among the firings that come before the timeout, and all of these
    firings otherwise (150, or 149 when the timeout runs before the
    interval at 300000 ms).  Replies and requests are counted from the
    first request of this job, [first] status requests being in the log
    already. *)
Theorem poll_count_exact (c : Z) (t0 : Client.Tab) (id : value) (job : string)
    (fuel : nat) :
  started_at c id (Client.mkLoop t0 []) ->
  ToString id = Normal job ->
  (152 <= fuel)%nat ->
  let t := Client.run_timers status_reply interval_first fuel t0 in
  let first := length (Client.polled t0) in
  Client.run_schedule status_reply interval_first
    (Client.promptly status_reply interval_first fuel (Client.mkLoop t0 []))
    (Client.mkLoop t0 [])
  = Some (Client.mkLoop t [])
  /\ length (Client.polled t) = poll_count status_reply interval_first first
  /\ Client.quiescent interval_first t = true
  /\ ((forall j, (j < firings interval_first)%nat ->
                 stops (status_reply (first + j)) = false) ->
      length (Client.polled t) = (first + firings interval_first)%nat)
  /\ (forall n, (n < firings interval_first)%nat ->
                stops (status_reply (first + n)) = true ->
                (forall j, (j < n)%nat -> stops (status_reply (first + j)) = false) ->
                length (Client.polled t) = (first + S n)%nat).
Proof.
  intros [[[p [Hp [Hd Hi]]] Hg] _] Hj Hf t first.
  cbn [Client.tab] in Hp, Hg.
  split; [apply run_timers_promptly|].
  rewrite <- Hi in Hj.
  destruct (count_run c job first (firings interval_first) 0 t0 p fuel) as [L Q]; auto;
    try lia.
  { pose proof (firings_le interval_first). lia. }
  fold t in L, Q. rewrite Nat.add_0_r in L. unfold poll_count.
  split; [exact L|]. split; [exact Q|]. split.
  - intros H. rewrite L, count_from_running; [reflexivity|].
    intros j Hjl. replace j with (first + (j - first))%nat by lia. apply H. lia.
  - intros n Hn Hs Hb. rewrite L. replace (first + S n)%nat with (S (first + n)) by lia.
    apply count_from_stop; auto; [lia|].
    intros j Hjl. replace j with (first + (j - first))%nat by lia. apply Hb. lia.
Qed.

(** The timers run the same way from two tabs that differ in their React
    state only. *)
Lemma run_timers_ignore_state (fuel : nat) :
  forall t1 t2,
    Client.pollInterval t1 = Client.pollInterval t2 ->
    Client.giveUp t1 = Client.giveUp t2 ->
    Client.clock t1 = Client.clock t2 ->
    Client.polled t1 = Client.polled t2 ->
    let r1 := Client.run_timers status_reply interval_first fuel t1 in
    let r2 := Client.run_timers status_reply interval_first fuel t2 in
    Client.pollInterval r1 = Client.pollInterval r2
    /\ Client.giveUp r1 = Client.giveUp r2
    /\ Client.clock r1 = Client.clock r2
    /\ Client.polled r1 = Client.polled r2.
Proof.
  induction fuel as [|fuel IH]; intros t1 t2 Hp Hg Hc Hq; cbn [Client.run_timers].
  - auto.
  - unfold Client.step, Client.next_timer. rewrite Hp, Hg.
    destruct (match Client.pollInterval t2 with
              | Some p =>
                  match Client.giveUp t2 with
                  | Some g =>
                      if Client.due p <? g then Some (Client.FireInterval p)
                      else if g <? Client.due p then Some (Client.FireTimeout g)
                      else if interval_first then Some (Client.FireInterval p)
                      else Some (Client.FireTimeout g)
                  | None => Some (Client.FireInterval p)
                  end
              | None =>
                  match Client.giveUp t2 with
                  | Some g => Some (Client.FireTimeout g)
                  | None => None
                  end
              end) as [[p|g]|]; [| |auto].
    + apply IH; cbn [Client.fire].
      * rewrite !poll_pollInterval. cbn. rewrite Hq. reflexivity.
      * rewrite !poll_giveUp. cbn. exact Hg.
      * rewrite !poll_clock. reflexivity.
      * rewrite !poll_polled. cbn. rewrite Hq. reflexivity.
    + apply IH; cbn [Client.fire]; cbn; auto.
Qed.

(** X14.  [handleClearData] empties the page: no scraped data, the idle
    stage, empty input boxes and no job id, so that afterwards the chat gets
    the empty content and a download does nothing.  It leaves the timers as
    they are: a job that is being polled goes on being polled exactly as if
    the data had not been cleared. *)
Theorem handleClearData_keeps_polling (t : Client.Tab) (f : Client.Format) (fuel : nat) :
  let t' := snd (Client.handleClearData t) in
  t' = {| Client.urlInput := "";
          Client.customInstructions := "";
          Client.scrapedData := None;
          Client.processingStatus :=
            {| Client.stage := Client.idle; Client.progress := Some (JNum 0);
               Client.message := Some (JStr "") |};
          Client.jobId := Some JNull;
          Client.isTestMode := Client.isTestMode t;
          Client.pollInterval := Client.pollInterval t;
          Client.giveUp := Client.giveUp t;
          Client.clock := Client.clock t;
          Client.started := Client.started t;
          Client.polled := Client.polled t |}
  /\ Client.chat_scrapedContent t' = Some (JStr "")
  /\ Client.handleDownload f t' = (Normal None, t')
  /\ Client.polled (Client.run_timers status_reply interval_first fuel t')
     = Client.polled (Client.run_timers status_reply interval_first fuel t)
  /\ Client.pollInterval (Client.run_timers status_reply interval_first fuel t')
     = Client.pollInterval (Client.run_timers status_reply interval_first fuel t).
Proof.
  intros t'. split; [reflexivity|]. split; [reflexivity|]. split; [reflexivity|].
  destruct (run_timers_ignore_state fuel t' t) as [H1 [_ [_ H4]]]; try reflexivity.
  split; assumption.
Qed.

Lemma before_T_date (date rest : string) :
  ~ In "T"%char (list_ascii_of_string date) ->
  Client.before_T (date ++ String "T" rest) = date.
Proof.
  induction date as [|c date IH]; cbn; intros H; [reflexivity|].
  destruct (Ascii.eqb_spec c "T") as [->|_]; [exfalso; apply H; now left|].
  rewrite IH; [reflexivity|]. intros I. apply H. now right.
Qed.

(** [handleDownload], outcome by outcome. *)
Lemma handleDownload_cases (f : Client.Format) (t : Client.Tab) :
  Client.handleDownload f t
  = if truthy (Client.jobId t) then
      match ToString (Client.jobId t) with
      | Normal job =>
          (match network (download_call job f) with
           | Normal r =>
               if ok r then
                 match resp_text r with
                 | Normal body =>
                     Normal (Some {| Client.blob := body;
                                     Client.download :=
                                       "scraped-data-"
                                         ++ Client.before_T
                                              (Date_toISOString (Client.clock t))
                                         ++ "." ++ Client.format_name f |})
                 | Throw _ => Normal None
                 end
               else Normal None
           | Throw _ => Normal None
           end,
           Client.mkTab (Client.urlInput t) (Client.customInstructions t)
             (Client.scrapedData t) (Client.processingStatus t) (Client.jobId t)
             (Client.isTestMode t) (Client.pollInterval t) (Client.giveUp t)
             (Client.clock t) (Client.started t ++ [download_call job f])%list
             (Client.polled t))
      | Throw _ => (Normal None, t)
      end
    else (Normal None, t).
Proof.
  unfold Client.handleDownload.
  destruct (truthy (Client.jobId t)); cbn [negb]; [|reflexivity].
  unfold try_catch, bind, await, throw, ret, Client.fetch_start.
  destruct (ToString (Client.jobId t)) as [job|e]; [|reflexivity].
  fold (download_call job f).
  destruct (network (download_call job f)) as [r|e]; [|reflexivity].
  destruct (ok r); cbn [negb]; [|reflexivity].
  destruct (resp_text r); reflexivity.
Qed.

(** X15.  [handleDownload] never throws and changes nothing on the page
    but the list of what it has sent.  Without a job id it sends nothing,
    and neither does it when the job id cannot be written into the address.
    Otherwise it asks the export entry point for that job in the chosen
    format, which is one the entry point knows; it offers a file exactly
    when the answer is [ok] and its body can be read: the file holds that
    body, and its name is made of the date part of the current ISO time and
    of the format.  It offers none when the answer is not [ok], when the
    request fails, and when the answer is [ok] but its body cannot be
    read. *)
Theorem handleDownload_outcomes (f : Client.Format) (t : Client.Tab) :
  let t' := snd (Client.handleDownload f t) in
  ExportRoute.known_format (Client.format_name f) = true
  /\ (truthy (Client.jobId t) = false -> Client.handleDownload f t = (Normal None, t))
  /\ (exists offered, fst (Client.handleDownload f t) = Normal offered)
  /\ (Client.scrapedData t' = Client.scrapedData t
      /\ Client.processingStatus t' = Client.processingStatus t
      /\ Client.jobId t' = Client.jobId t
      /\ Client.pollInterval t' = Client.pollInterval t
      /\ Client.polled t' = Client.polled t)
  /\ (forall job, truthy (Client.jobId t) = true ->
        ToString (Client.jobId t) = Normal job ->
        Client.started t' = (Client.started t ++ [download_call job f])%list
        /\ (forall r body, network (download_call job f) = Normal r -> ok r = true ->
              resp_text r = Normal body ->
              fst (Client.handleDownload f t)
              = Normal (Some {| Client.blob := body;
                                Client.download :=
                                  "scraped-data-"
                                    ++ Client.before_T (Date_toISOString (Client.clock t))
                                    ++ "." ++ Client.format_name f |})
              /\ (forall date rest,
                    Date_toISOString (Client.clock t) = (date ++ String "T" rest)%string ->
                    ~ In "T"%char (list_ascii_of_string date) ->
                    Client.before_T (Date_toISOString (Client.clock t)) = date))
        /\ (forall r, network (download_call job f) = Normal r -> ok r = false ->
              fst (Client.handleDownload f t) = Normal None)
        /\ (forall e, network (download_call job f) = Throw e ->
              fst (Client.handleDownload f t) = Normal None)
        /\ (forall r e, network (download_call job f) = Normal r -> ok r = true ->
              resp_text r = Throw e ->
              fst (Client.handleDownload f t) = Normal None))
  /\ (forall e, truthy (Client.jobId t) = true -> ToString (Client.jobId t) = Throw e ->
        Client.handleDownload f t = (Normal None, t)).
Proof.
  intros t'. subst t'. rewrite handleDownload_cases.
  split; [destruct f; reflexivity|].
  split; [intros ->; reflexivity|].
  split.
  { destruct (truthy _); [|eexists; reflexivity].
    destruct (ToString _) as [job|]; [|eexists; reflexivity].
    destruct (network _) as [r|]; [|eexists; reflexivity].
    destruct (ok r); [destruct (resp_text r)|]; eexists; reflexivity. }
  split.
  { destruct (truthy _); [|repeat split].
    destruct (ToString _); repeat split. }
  split; [|intros e T J; rewrite T, J; reflexivity].
  intros job T J. rewrite T, J. cbn [fst snd Client.started].
  split; [reflexivity|]. split; [|split; [|split]].
  - intros r body N O X. rewrite N, O, X. split; [reflexivity|].
    intros date rest D H. rewrite D. now apply before_T_date.
  - intros r N O. rewrite N, O. reflexivity.
  - intros e N. rewrite N. reflexivity.
  - intros r e N O X. rewrite N, O, X. reflexivity.
Qed.


Lemma fallback_of_empty :
  ChatRoute.systemPrompt (Some (JStr "")) = Normal ChatRoute.PROMPT_FALLBACK.
Proof. reflexivity. Qed.

(** The content the chat gets from a page that holds a recorded result. *)
Lemma chat_content_of_result (t : Client.Tab) (result : value) (test : bool) (now : Z) :
  Client.scrapedData t = Some (Client.scraped_of result test now) ->
  Client.chat_scrapedContent t
  = if truthy (get_opt result "cleanedContent") then get_opt result "cleanedContent"
    else Some (JStr "").
Proof.
  intros H. unfold Client.chat_scrapedContent. rewrite H.
  cbn [Client.scraped_of Client.content]. unfold or_else.
  destruct (truthy (get_opt result "cleanedContent")) eqn:T; [now rewrite T | reflexivity].
Qed.

(** X16.  The chat is grounded in what the page has recorded.  For a chat
    request that carries the page's content ([scrapedData?.content || ""]),
    every call to the model has the fallback prompt when the page holds no
    scraped data, or holds a result without cleaned content; and when the
    page holds a result whose cleaned content is a non-empty string, the
    prompt is the template around that string. *)
Theorem chat_grounded_in_page (t : Client.Tab) (req : NextRequest) (body : json)
    (a : StreamTextArgs) :
  req_json req = Normal body ->
  get_opt (Some body) "scrapedContent" = Client.chat_scrapedContent t ->
  In a (prompted (run (ChatRoute.POST req))) ->
  (Client.scrapedData t = None -> system a = ChatRoute.PROMPT_FALLBACK)
  /\ (forall result test now,
        Client.scrapedData t = Some (Client.scraped_of result test now) ->
        truthy (get_opt result "cleanedContent") = false ->
        system a = ChatRoute.PROMPT_FALLBACK)
  /\ (forall result test now s,
        Client.scrapedData t = Some (Client.scraped_of result test now) ->
        get_opt result "cleanedContent" = Some (JStr s) -> s <> "" ->
        system a = (ChatRoute.PROMPT_HEAD ++ s ++ ChatRoute.PROMPT_TAIL)%string).
Proof.
  intros E C I.
  destruct (chat_POST_cases req)
    as [[resp [R _]]|[body' [prompt [resp [E' [_ [Sp [_ [R _]]]]]]]]];
    rewrite R in I; [destruct I|].
  destruct I as [<-|[]]. rewrite E in E'. injection E' as <-.
  rewrite C in Sp. cbn [chat_call system].
  split; [|split].
  - intros N. unfold Client.chat_scrapedContent in Sp. rewrite N in Sp.
    cbn in Sp. now injection Sp as <-.
  - intros result test now D T. rewrite (chat_content_of_result t _ _ _ D), T in Sp.
    rewrite fallback_of_empty in Sp. now injection Sp as <-.
  - intros result test now s D Hs Hne.
    rewrite (chat_content_of_result t _ _ _ D), Hs in Sp.
    assert (T : truthy (Some (JStr s)) = true).
    { cbn. now destruct (String.eqb_spec s ""). }
    rewrite T, (prompt_of_string s Hne) in Sp. now injection Sp as <-.
Qed.

End Page.

(* ===================================================================== *)
(** ** Witnesses of the further properties *)

(** Witness of X1: the status of the job the API knows. *)
Lemma job_route_outcomes_witness :
  fst (run (@JobRoute.GET Example.online "job-1"))
  = Normal (NextResponse_json
              (JObj [("job_id", JStr "job-1"); ("status", JStr "running");
                     ("progress", JNum 40); ("message", JStr "Scraping page 2")])
              200).
Proof.
  pose proof (@job_route_outcomes Example.online "job-1") as [_ [_ [_ [H _]]]].
  apply (H {| resp_status := 200;
              resp_json :=
                Normal (JObj [("job_id", JStr "job-1"); ("status", JStr "running");
                              ("progress", JNum 40); ("message", JStr "Scraping page 2")]);
              resp_text := Throw (ThrownError (mkError "Body is unusable" None)) |});
    reflexivity.
Defined.

(** Witness of X2: the export of a job the API does not know. *)
Lemma export_failures_witness :
  fst (run (@ExportRoute.GET Example.online "job-2" "csv"))
  = Normal (@error_with "Job not found" 404).
Proof.
  pose proof (@export_failures Example.online "job-2" "csv") as [_ [H _]].
  apply (H eq_refl
           {| resp_status := 404;
              resp_json := Normal (JObj [("detail", JStr "Job not found")]);
              resp_text := Throw (ThrownError (mkError "Body is unusable" None)) |});
    reflexivity.
Defined.


(** Witness of X4: a page budget of 3 is forwarded as 3. *)
Lemma scrape_relays_job_witness :
  map body_of (forwarded (run (@ScrapeRoute.POST Example.online Example.with_budget)))
  = [JObj [("url", JStr "https://example.com"); ("max_pages", JNum 3)]].
Proof.
  pose proof (@scrape_relays_job Example.online Example.with_budget
                (JObj [("url", JStr "https://example.com"); ("maxPages", JNum 3)])
                eq_refl eq_refl eq_refl) as [H _].
  destruct (H (JNum 3) eq_refl) as [-> _]. reflexivity.
Defined.

(** Witness of X6: the API answers the health request, but not [ok]. *)
Lemma health_report_witness :
  fst (run (@HealthRoute.GET Example.online 0))
  = Normal (NextResponse_json (@HealthRoute.healthStatus Example.online JNull 0) 200).
Proof.
  pose proof (@health_report Example.online 0) as [_ [_ [H _]]].
  apply (H {| resp_status := 404;
              resp_json := Normal (JObj [("detail", JStr "Job not found")]);
              resp_text := Throw (ThrownError (mkError "Body is unusable" None)) |});
    reflexivity.
Defined.

(** Witness of X7: no address is configured for the API. *)
Lemma health_environment_witness :
  @PYTHON_API_URL Example.online = "http://localhost:8000".
Proof.
  pose proof (@health_environment Example.online JNull 0) as [_ [H _]].
  apply H. reflexivity.
Defined.


(** Witness of X9: the request that starts a job. *)
Lemma gateway_calls_python_api_only_witness :
  String.prefix (@PYTHON_API_URL Example.online)
    (fetch_url (@scrape_call Example.online (Some (JStr "https://example.com"))
                  (Some (JNum 5)))) = true.
Proof.
  pose proof (@gateway_calls_python_api_only Example.online Example.url_only "job-1" "csv" 0
                (@scrape_call Example.online (Some (JStr "https://example.com"))
                   (Some (JNum 5)))) as [H _].
  apply H. left. left. reflexivity.
Defined.

(** Witness of X10: the entry point cannot be reached. *)
Lemma handleScrapeUrl_outcomes_witness :
  Client.processingStatus
    (snd (@Client.handleScrapeUrl Example.cut_off false
            (Client.fresh "https://example.com" "")))
  = {| Client.stage := Client.error;
       Client.progress := Some (JNum 0);
       Client.message := Some (JStr "fetch failed") |}.
Proof.
  pose proof (@handleScrapeUrl_outcomes Example.cut_off false
                (Client.fresh "https://example.com" "")) as [_ [_ H]].
  destruct H as [_ [_ [_ [_ H]]]]; [discriminate|].
  apply (H (mkError "fetch failed" None)). reflexivity.
Defined.

(** Witness of X11: a url with an empty instructions box. *)
Lemma page_payload_forwarded_witness :
  map body_of
    (forwarded (run (@TestScrapeRoute.POST Example.online
                       {| req_json := Normal (Client.payload true "https://example.com" "") |})))
  = [JObj [("url", JStr "https://example.com"); ("custom_instructions", JNull)]].
Proof.
  pose proof (@page_payload_forwarded Example.online "https://example.com" "") as H.
  destruct H as [H _]; [discriminate|].
  apply H. reflexivity.
Defined.

(** Witness of X12: the job is still running. *)
Lemma poll_other_replies_witness :
  let p := Client.mkPoller 2000 (Some (JStr "job-1")) false in
  Client.stage
    (Client.processingStatus
       (snd (@Client.poll Example.online Example.keeps_running p Example.started_tab)))
  = Client.scraping.
Proof.
  intros p.
  pose proof (@poll_other_replies Example.online Example.keeps_running p
                Example.started_tab "job-1" eq_refl) as [_ H].
  destruct (H (JObj [("status", JStr "running"); ("progress", JNum 40);
                     ("message", JStr "Scraping page 2")]) eq_refl eq_refl) as [-> _].
  reflexivity.
Defined.

(** Witness of X13: a job that never leaves the running state is polled
    150 times. *)
Lemma poll_count_exact_witness :
  length (Client.polled
            (@Client.run_timers Example.online Example.keeps_running true 152
               Example.started_tab))
  = 150%nat.
Proof.
  assert (A : started_at 0 (Some (JStr "job-1")) (Client.mkLoop Example.started_tab [])).
  { split; [split; [eexists; split; [reflexivity | split; reflexivity] | reflexivity]
           | reflexivity]. }
  pose proof (@poll_count_exact Example.online Example.keeps_running true 0
                Example.started_tab (Some (JStr "job-1")) "job-1" 152 A eq_refl) as H.
  destruct H as [_ [_ [_ [H _]]]].
  - lia.
  - apply H. intros j _. reflexivity.
Defined.

(** Witness of X15: the CSV export of the job, downloaded from the page. *)
Lemma handleDownload_outcomes_witness :
  fst (@Client.handleDownload Example.browser Client.as_csv Example.finished_tab)
  = Normal (Some {| Client.blob := "url,title";
                    Client.download := "scraped-data-2024-01-15.csv" |}).
Proof.
  pose proof (@handleDownload_outcomes Example.browser Client.as_csv Example.finished_tab)
    as [_ [_ [_ [_ [H _]]]]].
  destruct (H "job-1" eq_refl eq_refl) as [_ [D _]].
  destruct (D {| resp_status := 200;
                 resp_json := Throw (ThrownError (mkError "Unexpected token u in JSON" None));
                 resp_text := Normal "url,title" |} "url,title" eq_refl eq_refl eq_refl)
    as [-> _].
  reflexivity.
Defined.

(** Witness of X16: a chat about the result the page has recorded. *)
Lemma chat_grounded_in_page_witness :
  let body := JObj [("messages", JArr [JObj [("role", JStr "user");
                                             ("content", JStr "What is this about?")]]);
                    ("scrapedContent", JStr "Example text")] in
  let prompt := (ChatRoute.PROMPT_HEAD ++ "Example text" ++ ChatRoute.PROMPT_TAIL)%string in
  Client.chat_scrapedContent Example.finished_tab = Some (JStr "Example text")
  /\ In (chat_call body prompt)
        (prompted (run (@ChatRoute.POST Example.online
                          (Example.chat_about (JStr "Example text")))))
  /\ system (chat_call body prompt) = prompt.
Proof.
  intros body prompt. split; [reflexivity|]. split; [left; reflexivity|].
  pose proof (@chat_grounded_in_page Example.online Example.finished_tab
                (Example.chat_about (JStr "Example text")) body (chat_call body prompt)
                eq_refl eq_refl) as H.
  destruct H as [_ [_ H]]; [left; reflexivity|].
  apply (H (Some Example.result_doc) false 6000 "Example text");
    [reflexivity | reflexivity | discriminate].
Defined.
